(** * Fitness tracker: the activity / weight data-access layer

  A shallow embedding of the two file stores ([data_manager.py],
  [optimized_data_manager.py]) and of the two relational stores
  ([database.py], [optimized_database.py]), with the properties the
  specification states about them.

  Conventions of the embedding.
  - A Python dict is a [gmap string pyval]; an absent key reads as a
    missing (NaN) cell of the data frame.
  - A pandas data frame is the list of its rows, each row a dict
    (the [to_dict('records')] orientation the code serialises).
  - A datetime is the integer count of microseconds since the epoch;
    [timedelta(days=n)] is [n * 86400000000].
  - A method of a manager takes the state it runs in and returns its
    outcome together with the state it leaves behind.
  - What a call reads from outside the program (the uuid drawn, the
    wall clock, an I/O fault) is an explicit argument. *)

From Stdlib Require Import ZArith QArith List Bool Lia String.
From stdpp Require Import gmap strings list fin_maps sorting.

Close Scope Q_scope.
Open Scope Z_scope.

(** ** Python values and exceptions *)

Module Py.

(** A float: every IEEE double is one of these. *)
Inductive pyfloat : Type :=
| FNaN
| FInf (negative : bool)
| FFinite (q : Q).

Inductive pyval : Type :=
| VNone
| VBool (b : bool)
| VInt (z : Z)
| VFloat (f : pyfloat)
| VStr (s : string)
| VDatetime (t : Z).

Inductive exn : Type :=
| OSError
| JSONDecodeError
| KeyError
| ValueError
| TypeError
| AttributeError
| SQLAlchemyError.

Inductive outcome (A : Type) : Type :=
| Return (a : A)
| Raise (e : exn).
Arguments Return {A} a.
Arguments Raise {A} e.

Definition exn_eqb (a b : exn) : bool :=
  match a, b with
  | OSError, OSError | JSONDecodeError, JSONDecodeError
  | KeyError, KeyError | ValueError, ValueError
  | TypeError, TypeError | AttributeError, AttributeError
| SQLAlchemyError, SQLAlchemyError => true
  | _, _ => false
  end.

(** [isinstance(v, (int, float))]: bool is a subclass of int. *)
Definition is_int_or_float (v : pyval) : bool :=
  match v with
  | VBool _ | VInt _ | VFloat _ => true
  | _ => false
  end.

(** [lo <= v <= hi] for a number [v] and integer bounds. NaN compares
    false with everything. *)
Definition between (lo hi : Z) (v : pyval) : bool :=
  match v with
  | VBool b => let z := if b then 1 else 0 in (lo <=? z) && (z <=? hi)
  | VInt z => (lo <=? z) && (z <=? hi)
  | VFloat (FFinite q) => Qle_bool (inject_Z lo) q && Qle_bool q (inject_Z hi)
  | VFloat (FInf _) => false
  | VFloat FNaN => false
  | _ => false
  end.

(** [len(v)]: defined on strings, a TypeError on the other values of
    this model. *)
Definition len (v : pyval) : outcome Z :=
  match v with
  | VStr s => Return (Z.of_nat (String.length s))
  | _ => Raise TypeError
  end.

(** [isinstance(v, str)] *)
Definition is_str (v : pyval) : option string :=
  match v with VStr s => Some s | _ => None end.

(** A call in state [S]: what it returns or raises, and the state it
    leaves. *)
Definition bind {A B S : Type} (m : outcome A * S)
  (k : A -> S -> outcome B * S) : outcome B * S :=
match m with
| (Return a, s) => k a s
| (Raise x, s) => (Raise x, s)
end.

(** The classes named by an [except] clause. Python evaluates them when
    an exception reaches the clause, left to right, and that evaluation
    can raise. *)
Fixpoint except_classes (cs : list (outcome exn)) : outcome (list exn) :=
match cs with
| [] => Return []
| Raise x :: _ => Raise x
| Return c :: rest =>
    match except_classes rest with
    | Return l => Return (c :: l)
    | Raise x => Raise x
    end
end.

(** [try: body / except classes: handler] *)
Definition try_except {A S : Type} (body : outcome A * S)
  (classes : outcome (list exn)) (handler : exn -> S -> outcome A * S)
  : outcome A * S :=
match body with
| (Return a, s) => (Return a, s)
| (Raise x, s) =>
    match classes with
    | Raise x' => (Raise x', s)
    | Return cs => if existsb (exn_eqb x) cs then handler x s else (Raise x, s)
    end
end.

(** [except Exception]: every exception of this model. *)
Definition Exception : outcome (list exn) :=
Return [OSError; JSONDecodeError; KeyError; ValueError; TypeError;
        AttributeError; SQLAlchemyError].

(** An exception class looked up as an attribute of module [json].
    The module exports [JSONDecodeError] and nothing called
    [JSONEncodeError]: looking up a name it lacks is an AttributeError. *)
Definition json_attr (name : string) : outcome exn :=
if String.eqb name "JSONDecodeError" then Return JSONDecodeError
else Raise AttributeError.

End Py.
Export Py.

(** ** constants.py *)

Module Constants.
Definition min_duration : Z := 1.
Definition max_duration : Z := 1440.
Definition max_description_length : Z := 500.
Definition username_min_length : Z := 3.
Definition username_max_length : Z := 50.
Definition password_min_length : Z := 6.
(** [CACHE_CONFIG['max_cache_age']], in seconds *)
Definition max_cache_age : Z := 300.
End Constants.

(** [timedelta(days=n)] in the unit of [VDatetime]. *)
Definition timedelta_days (n : Z) : Z := n * 86400000000.

(** ** Data frames *)

Module Frame.

Abbreviation dict := (gmap string pyval).

(** A data frame, row by row. *)
Definition df : Type := list dict.

Global Instance Q_eq_dec : EqDecision Q.
Proof. solve_decision. Defined.
Global Instance pyfloat_eq_dec : EqDecision pyfloat.
Proof. solve_decision. Defined.
Global Instance pyval_eq_dec : EqDecision pyval.
Proof. solve_decision. Defined.

(** [df.empty] *)
Definition empty (d : df) : bool :=
  match d with [] => true | _ => false end.

(** [col in df.columns]: the columns are the keys of the rows. *)
Definition has_column (col : string) (d : df) : bool :=
  existsb (fun r : dict => bool_decide (is_Some (r !! col))) d.

(** The cell of the [date] column as a timestamp; a missing cell is
    NaT. *)
Definition date_of (r : dict) : option Z :=
  match r !! "date" with
  | Some (VDatetime t) => Some t
  | _ => None
  end.

(** [row['id'] == activity_id] *)
Definition id_is (activity_id : string) (r : dict) : bool :=
  bool_decide (r !! "id" = Some (VStr activity_id)).

(** [df[df['id'] != activity_id]] *)
Definition drop_id (activity_id : string) (d : df) : df :=
  List.filter (fun r => negb (id_is activity_id r)) d.

(** [activity_id in df['id'].values] *)
Definition has_id (activity_id : string) (d : df) : bool :=
  existsb (id_is activity_id) d.

(** [df[df['date'] >= start_date]]: NaT compares false. *)
Definition date_ge (start_date : Z) (r : dict) : bool :=
  match date_of r with
  | Some t => start_date <=? t
  | None => false
  end.

(** The order of [sort_values('date', ascending=False)]: later dates
    first, NaT last. *)
Definition newer (r1 r2 : dict) : Prop :=
  match date_of r2 with
  | None => True
  | Some b => match date_of r1 with Some a => b <= a | None => False end
  end.

Global Instance newer_dec : RelDecision newer.
Proof.
  intros r1 r2. unfold newer.
  destruct (date_of r2); [destruct (date_of r1)|]; apply _.
Defined.

Definition sort_values_date_desc (d : df) : df := merge_sort newer d.

End Frame.
Export Frame.

(** ** The files and the cache of a file store *)

Module FileStore.

(** The text of a file: the JSON of a list of records, or a text that
    [json.load] rejects (a file cut short by a failed write, or the
    empty file that [open(path, 'w')] leaves before anything is
    written). The ISO text of a date is identified with its instant. *)
Inductive file_content : Type :=
| Complete (rows : df)
| Malformed.

Record file : Type := mkFile { content : file_content; mtime : Z }.

Record store : Type := mkStore {
  activities_file : option file;        (* data/activities.json *)
  activities_tmp : option file;         (* data/activities.json.tmp *)
  _activities_cache : option df;
  _activities_cache_timestamp : Z;
  clock : Z                             (* time.time(), microseconds *)
}.

(** Where a write to disk fails, if it does. *)
Inductive io_fault : Type :=
| NoFault
| OpenFails        (* open(path, 'w') raises OSError *)
| WriteFails       (* json.dump raises OSError after a partial write *)
| ReplaceFails.    (* os.replace raises OSError *)

(** What one call takes from outside the program. *)
Record env : Type := mkEnv {
  uuid4 : string;                        (* str(uuid.uuid4()) *)
  fromisoformat : string -> option Z;    (* datetime.fromisoformat *)
  read_fails : bool;                     (* open(path, 'r') raises OSError *)
  write_fault : io_fault
}.

Definition set_file (f : option file) (s : store) : store :=
  mkStore f (activities_tmp s) (_activities_cache s)
          (_activities_cache_timestamp s) (clock s).

Definition set_tmp (f : option file) (s : store) : store :=
  mkStore (activities_file s) f (_activities_cache s)
          (_activities_cache_timestamp s) (clock s).

(** [self._activities_cache = d.copy();
     self._activities_cache_timestamp = time.time()] *)
Definition set_cache (d : df) (s : store) : store :=
  mkStore (activities_file s) (activities_tmp s) (Some d) (clock s) (clock s).

(** Time passing between two calls. *)
Definition tick (dt : Z) (s : store) : store :=
  mkStore (activities_file s) (activities_tmp s) (_activities_cache s)
          (_activities_cache_timestamp s) (clock s + dt).

(** [json.load] of the activities file. *)
Definition json_load (e : env) (f : file) : outcome df :=
  if read_fails e then Raise OSError
  else match content f with
       | Complete rows => Return rows
       | Malformed => Raise JSONDecodeError
       end.

(** The part of a freshly read list that [load_activities] turns into
    a frame: [df['date']] raises KeyError when no row has a date. *)
Definition frame_of_json (activities : df) : outcome df :=
  if Frame.empty activities then Return []
  else if has_column "date" activities
       then Return (sort_values_date_desc activities)
       else Raise KeyError.

(** [activity_data['id'] = str(uuid.uuid4())] and the conversion of a
    textual date, as both [add_activity] do it. *)
Definition prepare_activity (e : env) (activity_data : dict) : outcome dict :=
  let activity_data := <["id" := VStr (uuid4 e)]> activity_data in
  match activity_data !! "date" with
  | None => Raise KeyError
  | Some (VStr s) =>
      match fromisoformat e s with
      | Some t => Return (<["date" := VDatetime t]> activity_data)
      | None => Raise ValueError
      end
  | Some _ => Return activity_data
  end.

End FileStore.
Export FileStore.

(** ** data_manager.py: class DataManager *)

Module DataManager.

(** The body of [load_activities], inside its [try]. *)
Definition load_activities_body (e : env) (s : store) : outcome df * store :=
match activities_file s with
| None => (Return [], s)
| Some f =>
    let file_mtime := mtime f in
    match _activities_cache s with
    | Some cached =>
        if file_mtime <=? _activities_cache_timestamp s
        then (Return cached, s)
        else bind (json_load e f, s) (fun activities s =>
             bind (frame_of_json activities, s) (fun d s =>
             (Return d, set_cache d s)))
    | None =>
        bind (json_load e f, s) (fun activities s =>
        bind (frame_of_json activities, s) (fun d s =>
        (Return d, set_cache d s)))
    end
end.

Definition load_activities (e : env) (s : store) : outcome df * store :=
try_except (load_activities_body e s) Exception
  (fun _ s => (Return [], s)).

(** [with open(self.activities_file, 'w') as f: json.dump(..., f)]:
    the states of the store after each step on the disk. *)
Definition write_in_place (d : df) (e : env) (s : store)
  : outcome unit * list store :=
let opened := set_file (Some (mkFile Malformed (clock s))) s in
let written := set_file (Some (mkFile (Complete d) (clock s))) s in
match write_fault e with
| OpenFails => (Raise OSError, [])
| WriteFails => (Raise OSError, [opened])
| _ => (Return tt, [opened; written])
end.

(** [save_activities], with the states it goes through. *)
Definition save_activities_trace (d : df) (e : env) (s : store)
  : outcome bool * list store :=
try_except
  (bind (write_in_place d e s) (fun _ tr =>
   (Return true, tr ++ [set_cache d (List.last tr s)])))
  Exception
  (fun _ tr => (Return false, tr)).

Definition save_activities (d : df) (e : env) (s : store)
  : outcome bool * store :=
let '(r, tr) := save_activities_trace d e s in (r, List.last tr s).

Definition add_activity (activity_data : dict) (e : env) (s : store)
  : outcome bool * store :=
try_except
  (bind (load_activities e s) (fun d s =>
   bind (prepare_activity e activity_data, s) (fun new_row s =>
   let d := if Frame.empty d then [new_row] else d ++ [new_row] in
   save_activities d e s)))
  Exception
  (fun _ s => (Return false, s)).

Definition delete_activity (activity_id : string) (e : env) (s : store)
  : outcome bool * store :=
try_except
  (bind (load_activities e s) (fun d s =>
   let d := drop_id activity_id d in
   save_activities d e s))
  Exception
  (fun _ s => (Return false, s)).

(** [activity_data[k]] *)
Definition getitem (activity_data : dict) (k : string) : outcome pyval :=
match activity_data !! k with
| Some v => Return v
| None => Raise KeyError
end.

(** [activity_data.get(k, '')] *)
Definition get_or_empty (activity_data : dict) (k : string) : pyval :=
match activity_data !! k with
| Some v => v
| None => VStr ""
end.

(** The six assignments [df.at[idx, col] = ...] on the row at [idx]. *)
Definition assign_fields (activity_data : dict) (r : dict) : outcome dict :=
match getitem activity_data "type" with
| Raise x => Raise x
| Return ty =>
match getitem activity_data "duration" with
| Raise x => Raise x
| Return du =>
match getitem activity_data "intensity" with
| Raise x => Raise x
| Return it =>
match getitem activity_data "date" with
| Raise x => Raise x
| Return da =>
    Return (<["adaptation" := get_or_empty activity_data "adaptation"]>
           (<["description" := get_or_empty activity_data "description"]>
           (<["date" := da]>
           (<["intensity" := it]>
           (<["duration" := du]>
           (<["type" := ty]> r))))))
end end end end.

(** [idx = df[df['id'] == activity_id].index[0]] names the first row
    with that id; the assignments change that row. *)
Fixpoint update_at_first (activity_id : string) (activity_data : dict) (d : df)
  : outcome df :=
match d with
| [] => Return []
| r :: rest =>
    if id_is activity_id r
    then match assign_fields activity_data r with
         | Return r' => Return (r' :: rest)
         | Raise x => Raise x
         end
    else match update_at_first activity_id activity_data rest with
         | Return rest' => Return (r :: rest')
         | Raise x => Raise x
         end
end.

Definition update_activity (activity_id : string) (activity_data : dict)
  (e : env) (s : store) : outcome bool * store :=
try_except
  (bind (load_activities e s) (fun d s =>
   if negb (has_id activity_id d) then (Return false, s)
   else bind (update_at_first activity_id activity_data d, s) (fun d s =>
        save_activities d e s)))
  Exception
  (fun _ s => (Return false, s)).

(** [now] is the reading of [datetime.now()]. *)
Definition get_activities_for_period (period : string) (now : Z) (e : env)
  (s : store) : outcome df * store :=
bind (load_activities e s) (fun d s =>
if Frame.empty d then (Return d, s)
else if String.eqb period "All time" then (Return d, s)
else
  let start_date :=
    if String.eqb period "Week" then Some (now - timedelta_days 7)
    else if String.eqb period "Month" then Some (now - timedelta_days 30)
    else if String.eqb period "Season" then Some (now - timedelta_days 90)
    else None in
  match start_date with
  | None => (Return d, s)
  | Some start_date =>
      if has_column "date" d && negb (Frame.empty d)
      then (Return (List.filter (date_ge start_date) d), s)
      else (Return d, s)
  end).

End DataManager.

(** ** optimized_data_manager.py: class OptimizedDataManager *)

Module OptimizedDataManager.

(** [CACHE_CONFIG['max_cache_age']] seconds, in the unit of the clock. *)
Definition max_cache_age : Z := Constants.max_cache_age * 1000000.

Definition _is_cache_valid (s : store) (cache_timestamp : Z) : bool :=
match activities_file s with
| None => false
| Some f =>
    let file_mtime := mtime f in
    let cache_age := clock s - cache_timestamp in
    (file_mtime <=? cache_timestamp) && (cache_age <? max_cache_age)
end.

(** What [load_activities] does once the cache is found stale. *)
Definition load_fresh (e : env) (s : store) : outcome df * store :=
match activities_file s with
| None => (Return [], s)
| Some f =>
    bind (json_load e f, s) (fun activities s =>
    bind (frame_of_json activities, s) (fun d s =>
    (Return d, set_cache d s)))
end.

Definition load_activities (e : env) (s : store) : outcome df * store :=
try_except
  (match _activities_cache s with
   | Some cached =>
       if _is_cache_valid s (_activities_cache_timestamp s)
       then (Return cached, s)
       else load_fresh e s
   | None => load_fresh e s
   end)
  (except_classes [Return JSONDecodeError; Return OSError; Return KeyError])
  (fun _ s => (Return [], s)).

(** The temporary file is written, then [os.replace] puts it in the
    place of the activities file in one step. *)
Definition write_tmp_and_replace (d : df) (e : env) (s : store)
  : outcome unit * list store :=
let opened := set_tmp (Some (mkFile Malformed (clock s))) s in
let written := set_tmp (Some (mkFile (Complete d) (clock s))) s in
let replaced := set_tmp None (set_file (Some (mkFile (Complete d) (clock s))) s) in
match write_fault e with
| OpenFails => (Raise OSError, [])
| WriteFails => (Raise OSError, [opened])
| ReplaceFails => (Raise OSError, [opened; written])
| NoFault => (Return tt, [opened; written; replaced])
end.

(** The handler of [save_activities]: remove the temporary file if it
    exists, return False. *)
Definition cleanup_tmp (s0 : store) (tr : list store) : outcome bool * list store :=
let s := List.last tr s0 in
match activities_tmp s with
| Some _ => (Return false, tr ++ [set_tmp None s])
| None => (Return false, tr)
end.

Definition save_activities_trace (d : df) (e : env) (s : store)
  : outcome bool * list store :=
try_except
  (bind (write_tmp_and_replace d e s) (fun _ tr =>
   (Return true, tr ++ [set_cache d (List.last tr s)])))
  (except_classes [Return OSError; json_attr "JSONEncodeError"])
  (fun _ tr => cleanup_tmp s tr).

Definition save_activities (d : df) (e : env) (s : store)
  : outcome bool * store :=
let '(r, tr) := save_activities_trace d e s in (r, List.last tr s).

Definition required_fields : list string :=
["type"; "duration"; "intensity"; "date"].

(** [_validate_activity_data]; a TypeError of [len] leaves it by the
    [except] of [add_activity]. *)
Definition _validate_activity_data (data : dict) : outcome bool :=
if negb (forallb (fun field => bool_decide (is_Some (data !! field))) required_fields)
then Return false
else
  let duration := default VNone (data !! "duration") in
  if negb (is_int_or_float duration)
     || negb (between Constants.min_duration Constants.max_duration duration)
  then Return false
  else
    let description := default (VStr "") (data !! "description") in
    match len description with
    | Raise x => Raise x
    | Return n =>
        if Constants.max_description_length <? n then Return false
        else Return true
    end.

Definition add_activity (activity_data : dict) (e : env) (s : store)
  : outcome bool * store :=
try_except
  (bind (_validate_activity_data activity_data, s) (fun valid s =>
   if negb valid then (Return false, s)
   else
     bind (load_activities e s) (fun d s =>
     bind (prepare_activity e activity_data, s) (fun new_row s =>
     let d := if negb (Frame.empty d) then d ++ [new_row] else [new_row] in
     save_activities d e s))))
  (except_classes [Return ValueError; Return TypeError])
  (fun _ s => (Return false, s)).

Definition delete_activity (activity_id : string) (e : env) (s : store)
  : outcome bool * store :=
try_except
  (bind (load_activities e s) (fun d s =>
   if Frame.empty d || negb (has_id activity_id d) then (Return false, s)
   else
     let d := drop_id activity_id d in
     save_activities d e s))
  Exception
  (fun _ s => (Return false, s)).

Definition period_days (period : string) : option Z :=
if String.eqb period "Week" then Some 7
else if String.eqb period "Month" then Some 30
else if String.eqb period "Season" then Some 90
else None.

Definition get_activities_for_period (period : string) (now : Z) (e : env)
  (s : store) : outcome df * store :=
bind (load_activities e s) (fun d s =>
if Frame.empty d || String.eqb period "All time" then (Return d, s)
else
  match period_days period with
  | None => (Return d, s)
  | Some days =>
      if days =? 0 then (Return d, s)
      else
        let cutoff_date := now - timedelta_days days in
        if has_column "date" d && negb (Frame.empty d)
        then (Return (List.filter (date_ge cutoff_date) d), s)
        else (Return d, s)
  end).

End OptimizedDataManager.

(** ** The relational schema shared by database.py and
       optimized_database.py

    A table is the list of its rows in the order of their primary keys;
    [.first()] takes the first row that passes the filter. The
    [friendships] table has the pair [(user_id, friend_id)] as its
    primary key, so it is a set of pairs; [user.friends] reads the rows
    whose [user_id] is the user's id (the [primaryjoin] of the
    relationship) and [user.friends.append(friend)] adds the row
    [(user.id, friend.id)]. A transaction that commits replaces the
    database by its new value; one that rolls back leaves the old one.
    Faults of the connection are outside the model. *)

Module Schema.

Record User : Type := mkUser {
  user_id : Z;
  username : string;
  email : string;
  password_hash : string;
  created_at : Z;
  weight_goal : option pyfloat;
  preferred_language : string;
  dark_mode : bool;
  remember_token : option string
}.

Record Activity : Type := mkActivity {
  activity_id : Z;
  activity_user_id : Z;
  activity_type : pyval;
  duration : pyval;
  intensity : pyval;
  date : pyval;
  description : pyval;
  adaptation : pyval;
  activity_created_at : Z
}.

Record WeightEntry : Type := mkWeightEntry {
  entry_id : Z;
  entry_user_id : Z;
  weight : pyval;
  entry_date : pyval;
  entry_created_at : Z
}.

Record database : Type := mkDatabase {
  users : list User;
  activities : list Activity;
  weight_entries : list WeightEntry;
  friendships : gset (Z * Z);
  next_user_id : Z;                     (* the autoincrement counters *)
  next_activity_id : Z;
  next_entry_id : Z
}.

(** What one call takes from outside the program. *)
Record db_env : Type := mkDbEnv {
  gensalt : string;                        (* bcrypt.gensalt() *)
  hashpw : string -> string -> string;     (* bcrypt.hashpw(password, salt) *)
  utcnow : Z;                              (* datetime.utcnow() *)
  db_now : Z                               (* datetime.now() *)
}.

Definition set_users (us : list User) (nxt : Z) (db : database) : database :=
mkDatabase us (activities db) (weight_entries db) (friendships db)
           nxt (next_activity_id db) (next_entry_id db).

Definition set_activities (acts : list Activity) (db : database) : database :=
mkDatabase (users db) acts (weight_entries db) (friendships db)
           (next_user_id db) (next_activity_id db) (next_entry_id db).

Definition set_weight_entries (ws : list WeightEntry) (db : database) : database :=
mkDatabase (users db) (activities db) ws (friendships db)
           (next_user_id db) (next_activity_id db) (next_entry_id db).

Definition set_friendships (fs : gset (Z * Z)) (db : database) : database :=
mkDatabase (users db) (activities db) (weight_entries db) fs
           (next_user_id db) (next_activity_id db) (next_entry_id db).

(** [query.filter(...).first()] *)
Definition first {A : Type} (p : A -> bool) (table : list A) : option A :=
List.find p table.

(** [user.friends] *)
Definition friends (db : database) (u : User) : list User :=
List.filter (fun f => bool_decide ((user_id u, user_id f) ∈ friendships db))
            (users db).

(** [friend in user.friends]: the session holds one object per row. *)
Definition is_friend (db : database) (u friend : User) : bool :=
existsb (fun f => user_id f =? user_id friend) (friends db u).

(** [user.friends.append(friend)] *)
Definition friends_append (u friend : User) (db : database) : database :=
set_friendships ({[ (user_id u, user_id friend) ]} ∪ friendships db) db.

(** A NOT NULL column refuses None when the session is flushed. *)
Definition not_null (v : pyval) : bool :=
match v with VNone => false | _ => true end.

Definition activity_flushes (a : Activity) : bool :=
not_null (activity_type a) && not_null (duration a) && not_null (intensity a)
&& not_null (date a).

Definition entry_flushes (w : WeightEntry) : bool :=
not_null (weight w) && not_null (entry_date w).

(** The timestamp in a DateTime cell. *)
Definition datetime_of (v : pyval) : option Z :=
match v with VDatetime t => Some t | _ => None end.

(** [Activity.date >= start_date] *)
Definition activity_date_ge (start_date : Z) (a : Activity) : bool :=
match datetime_of (date a) with
| Some t => start_date <=? t
| None => false
end.

(** The order of [order_by(Activity.date.desc())]. *)
Definition activity_newer (a1 a2 : Activity) : Prop :=
match datetime_of (date a2) with
| None => True
| Some b => match datetime_of (date a1) with Some a => b <= a | None => False end
end.

Global Instance activity_newer_dec : RelDecision activity_newer.
Proof.
  intros a1 a2. unfold activity_newer.
  destruct (datetime_of (date a2)); [destruct (datetime_of (date a1))|]; apply _.
Defined.

Definition order_by_date_desc (acts : list Activity) : list Activity :=
merge_sort activity_newer acts.

(** [query.limit(n)] *)
Definition limit {A : Type} (n : nat) (rows : list A) : list A := take n rows.

End Schema.
Export Schema.

(** ** database.py: class DatabaseManager *)

Module DatabaseManager.

(** [User(username=..., email=...)] with [set_password] applied, as the
    row the commit inserts. *)
Definition new_user (e : db_env) (db : database) (name mail password : string)
  : User :=
mkUser (next_user_id db) name mail (hashpw e password (gensalt e))
       (utcnow e) None "en" false None.

Definition create_user (name mail password : string) (e : db_env)
  (db : database) : (option User * string) * database :=
let existing_user :=
  first (fun u => String.eqb (username u) name || String.eqb (email u) mail)
        (users db) in
match existing_user with
| Some _ => ((None, "Username or email already exists"), db)
| None =>
    let user := new_user e db name mail password in
    ((Some user, "User created successfully"),
     set_users (users db ++ [user]) (next_user_id db + 1) db)
end.

Definition add_friend (uid : Z) (friend_username : string) (db : database)
  : (bool * string) * database :=
match first (fun u => String.eqb (username u) friend_username) (users db) with
| None => ((false, "User not found"), db)
| Some friend =>
    let user := first (fun u => user_id u =? uid) (users db) in
    match user with
    | Some u =>
        if is_friend db u friend then ((false, "Already friends"), db)
        else ((true, "Friend added successfully"), friends_append u friend db)
    | None => ((true, "Friend added successfully"), db)
    end
end.

Definition period_start (period : string) (now : Z) : option Z :=
if String.eqb period "Week" then Some (now - timedelta_days 7)
else if String.eqb period "Month" then Some (now - timedelta_days 30)
else if String.eqb period "Season" then Some (now - timedelta_days 90)
else None.

Definition get_user_activities (uid : Z) (period : string) (e : db_env)
  (db : database) : list Activity :=
let query := List.filter (fun a => activity_user_id a =? uid) (activities db) in
let query :=
  if negb (String.eqb period "All time") then
    match period_start period (db_now e) with
    | Some start_date => List.filter (activity_date_ge start_date) query
    | None => query
    end
  else query in
limit 1000 (order_by_date_desc query).

Definition delete_activity (uid : Z) (aid : Z) (db : database)
  : bool * database :=
match first (fun a => (activity_id a =? aid) && (activity_user_id a =? uid))
            (activities db) with
| Some activity =>
    (true, set_activities
             (List.filter (fun a => negb (activity_id a =? activity_id activity))
                          (activities db)) db)
| None => (false, db)
end.

(** The six assignments of [update_activity] on the row found. *)
Definition assign_activity (activity_data : dict) (a : Activity)
  : outcome Activity :=
match activity_data !! "type", activity_data !! "duration",
      activity_data !! "intensity", activity_data !! "date" with
| Some ty, Some du, Some it, Some da =>
    Return (mkActivity (activity_id a) (activity_user_id a) ty du it da
              (default (VStr "") (activity_data !! "description"))
              (default (VStr "") (activity_data !! "adaptation"))
              (activity_created_at a))
| _, _, _, _ => Raise KeyError
end.

Definition update_activity (uid : Z) (aid : Z) (activity_data : dict)
  (db : database) : bool * database :=
match first (fun a => (activity_id a =? aid) && (activity_user_id a =? uid))
            (activities db) with
| Some activity =>
    match assign_activity activity_data activity with
    | Raise _ => (false, db)                      (* except: rollback *)
    | Return activity' =>
        if activity_flushes activity'
        then (true, set_activities
                      (List.map (fun a => if activity_id a =? activity_id activity
                                          then activity' else a)
                                (activities db)) db)
        else (false, db)                          (* commit fails: rollback *)
    end
| None => (false, db)
end.

Definition update_weight_entry (eid : Z) (w : pyval) (d : pyval)
  (db : database) : bool * database :=
match first (fun x => entry_id x =? eid) (weight_entries db) with
| Some entry =>
    let entry' := mkWeightEntry (entry_id entry) (entry_user_id entry) w d
                                (entry_created_at entry) in
    if entry_flushes entry'
    then (true, set_weight_entries
                  (List.map (fun x => if entry_id x =? entry_id entry
                                      then entry' else x)
                            (weight_entries db)) db)
    else (false, db)                              (* commit fails: rollback *)
| None => (false, db)
end.

Definition delete_weight_entry (eid : Z) (db : database) : bool * database :=
match first (fun x => entry_id x =? eid) (weight_entries db) with
| Some entry =>
    (true, set_weight_entries
             (List.filter (fun x => negb (entry_id x =? entry_id entry))
                          (weight_entries db)) db)
| None => (false, db)
end.

End DatabaseManager.

(** ** optimized_database.py: class OptimizedDatabaseManager *)

Module OptimizedDatabaseManager.

(** [User.set_password] *)
Definition set_password (e : db_env) (password : string) : outcome string :=
if Z.of_nat (String.length password) <? Constants.password_min_length
then Raise ValueError
else Return (hashpw e password (gensalt e)).

Definition create_user (name mail password : string) (e : db_env)
  (db : database) : (option User * string) * database :=
if Z.of_nat (String.length name) <? Constants.username_min_length
then ((None, "Username must be at least 3 characters"), db)
else if Constants.username_max_length <? Z.of_nat (String.length name)
then ((None, "Username must be less than 50 characters"), db)
else
  let existing_user :=
    first (fun u => String.eqb (username u) name || String.eqb (email u) mail)
          (users db) in
  match existing_user with
  | Some existing =>
      if String.eqb (username existing) name
      then ((None, "Username already exists"), db)
      else ((None, "Email already exists"), db)
  | None =>
      match set_password e password with
      | Raise _ => ((None, "Password must be at least 6 characters"), db)
      | Return h =>
          let user := mkUser (next_user_id db) name mail h (utcnow e)
                             None "en" false None in
          ((Some user, "User created successfully"),
           set_users (users db ++ [user]) (next_user_id db + 1) db)
      end
  end.

Definition period_start (period : string) (now : Z) : option Z :=
if String.eqb period "Week" then Some (now - timedelta_days 7)
else if String.eqb period "Month" then Some (now - timedelta_days 30)
else if String.eqb period "Season" then Some (now - timedelta_days 90)
else None.

(** [limit or 1000] for a limit that is None or a natural number. *)
Definition limit_or_1000 (lim : option nat) : nat :=
match lim with
| None => 1000
| Some O => 1000
| Some n => n
end.

Definition get_user_activities (uid : Z) (period : string) (lim : option nat)
  (e : db_env) (db : database) : list Activity :=
let query := List.filter (fun a => activity_user_id a =? uid) (activities db) in
let query :=
  if negb (String.eqb period "All time") then
    match period_start period (db_now e) with
    | Some cutoff_date => List.filter (activity_date_ge cutoff_date) query
    | None => query
    end
  else query in
let query := order_by_date_desc query in
limit (limit_or_1000 lim) query.

Definition delete_weight_entry (uid : Z) (eid : Z) (db : database)
  : bool * database :=
match first (fun x => (entry_id x =? eid) && (entry_user_id x =? uid))
            (weight_entries db) with
| None => (false, db)
| Some entry =>
    (true, set_weight_entries
             (List.filter (fun x => negb (entry_id x =? entry_id entry))
                          (weight_entries db)) db)
end.

Definition add_friend (uid : Z) (friend_username : string) (db : database)
  : (bool * string) * database :=
match first (fun u => String.eqb (username u) friend_username) (users db) with
| None => ((false, "User not found"), db)
| Some friend =>
    if user_id friend =? uid
    then ((false, "Cannot add yourself as friend"), db)
    else
      match first (fun u => user_id u =? uid) (users db) with
      | None => ((false, "User not found"), db)
      | Some user =>
          if is_friend db user friend then ((false, "Already friends"), db)
          else ((true, "Friend added successfully"),
                friends_append friend user (friends_append user friend db))
      end
end.

Definition get_user_friends (uid : Z) (db : database) : list User :=
match first (fun u => user_id u =? uid) (users db) with
| Some user => friends db user
| None => []
end.

End OptimizedDatabaseManager.

(** * Properties *)

(** ** What the specification calls a valid activity *)

Module Spec.

(** The number a Python value stands for, when it is a finite number. *)
Definition numeric (v : pyval) : option Q :=
match v with
| VBool b => Some (inject_Z (if b then 1 else 0))
| VInt z => Some (inject_Z z)
| VFloat (FFinite q) => Some q
| _ => None
end.

(** [v] is a number in the interval [[lo, hi]]. *)
Definition within (lo hi : Z) (v : pyval) : Prop :=
exists q, numeric v = Some q /\ (inject_Z lo <= q)%Q /\ (q <= inject_Z hi)%Q.

(** The duration of the input lies in [[1, 1440]]. *)
Definition duration_in_bounds (data : dict) : Prop :=
exists v, data !! "duration" = Some v /\ within 1 1440 v.

(** The description of the input is a text of more than 500 characters. *)
Definition description_too_long (data : dict) : Prop :=
exists d, data !! "description" = Some (VStr d) /\ (500 < String.length d)%nat.

(** The description is absent or a text of at most 500 characters. *)
Definition description_ok (data : dict) : Prop :=
data !! "description" = None \/
exists d, data !! "description" = Some (VStr d) /\ (String.length d <= 500)%nat.

Definition intensity_ok (data : dict) : Prop :=
data !! "intensity" = Some (VStr "Low") \/
data !! "intensity" = Some (VStr "Medium") \/
data !! "intensity" = Some (VStr "High").

(** A valid activity input: the required fields, a duration in bounds,
    one of the three intensities, a timestamp, a description within its
    bound. *)
Record valid_activity (data : dict) : Prop := mkValid {
  valid_type : is_Some (data !! "type");
  valid_duration : duration_in_bounds data;
  valid_intensity : intensity_ok data;
  valid_date : exists t, data !! "date" = Some (VDatetime t);
  valid_description : description_ok data
}.

(** The lookback window of a period, in days; None is no filter. *)
Definition window (period : string) : option Z :=
if decide (period = "Week") then Some 7
else if decide (period = "Month") then Some 30
else if decide (period = "Season") then Some 90
else None.

(** The record is dated, at or after [now] minus the window of the
    period. *)
Definition in_period (period : string) (now : Z) (r : dict) : Prop :=
match window period with
| Some w => exists t, r !! "date" = Some (VDatetime t) /\ now - w * 86400000000 <= t
| None => True
end.

Global Instance in_period_dec period now r : Decision (in_period period now r).
Proof.
  unfold in_period. destruct (window period) as [w|]; [|apply _].
  destruct (r !! "date") as [[| | | | |t]|] eqn:E;
    try (right; intros (t' & H & _); congruence).
  destruct (decide (now - w * 86400000000 <= t)) as [Hle|Hgt].
  - left. exists t. split; [reflexivity | exact Hle].
  - right. intros (t' & H & Hle). inversion H; subst. contradiction.
Defined.


(** The new data names the four fields [update_activity] indexes. *)
Definition has_required (data : dict) : Prop :=
is_Some (data !! "type") /\ is_Some (data !! "duration") /\
is_Some (data !! "intensity") /\ is_Some (data !! "date").


(** The new data gives the four required fields a value other than
    None. *)
Definition required_not_none (data : dict) : Prop :=
forall k, k ∈ ["type"; "duration"; "intensity"; "date"] ->
  exists v, data !! k = Some v /\ v <> VNone.


(** The activity with the id [aid] that belongs to the user [uid]. *)
Definition owned_activity (uid aid : Z) (a : Activity) : bool :=
(activity_id a =? aid) && (activity_user_id a =? uid).

(** The activities of the user [uid], in the order of the table. *)
Definition of_user (uid : Z) (db : database) : list Activity :=
List.filter (fun a => activity_user_id a =? uid) (activities db).

End Spec.
Export Spec.

(** ** Concrete stores and inputs *)

Module Examples.

(** No text is taken for an ISO date here. *)
Definition no_iso (s : string) : option Z := None.

(** A call in which the disk works. *)
Definition calm : env := mkEnv "3f2a" no_iso false NoFault.

(** A call in which the disk fills up while the JSON is written. *)
Definition disk_full : env := mkEnv "3f2a" no_iso false WriteFails.

Definition activity (ty : string) (minutes : Z) (level : string) (day : Z)
  (text : string) : dict :=
<["type" := VStr ty]>
(<["duration" := VInt minutes]>
(<["intensity" := VStr level]>
(<["date" := VDatetime (timedelta_days day)]>
(<["description" := VStr text]>
(<["adaptation" := VStr "Aerobic base"]> ∅))))).

(** A run of 2000 minutes: the form of the application bounds the
    duration from below only. *)
Definition long_run : dict := activity "Running" 2000 "Low" 20 "".

Definition morning_run : dict := activity "Running" 30 "Medium" 20 "easy".

Definition stored (uuid : string) (a : dict) : dict := <["id" := VStr uuid]> a.

Definition old_walk : dict := stored "a1" (activity "Walking" 45 "Low" 3 "").
Definition new_swim : dict := stored "b2" (activity "Swimming" 60 "High" 19 "").

(** A store just initialised: the file holds the empty list. *)
Definition fresh_store : store :=
mkStore (Some (mkFile (Complete []) 0)) None None 0 100.

(** A store whose file lists the older record first, as two calls of
    [add_activity] left it, read by a new process. *)
Definition two_records : store :=
mkStore (Some (mkFile (Complete [old_walk; new_swim]) 50)) None None 0 100.

(** Three records: one of today (day 100), one ten days old, one forty
    days old, each of 30 minutes at medium intensity. *)
Definition today : dict := stored "t0" (activity "Running" 30 "Medium" 100 "").
Definition ten_days_ago : dict := stored "t10" (activity "Running" 30 "Medium" 90 "").
Definition forty_days_ago : dict := stored "t40" (activity "Running" 30 "Medium" 60 "").

Definition three_records : store :=
mkStore (Some (mkFile (Complete [forty_days_ago; ten_days_ago; today]) 50))
        None None 0 100.

(** Noon of day 100. *)
Definition noon : Z := timedelta_days 100 + 43200000000.

Definition plain_env : db_env :=
mkDbEnv "salt" (fun password salt => String.append "$2b$" (String.append salt password)) 7 8.

Definition alice : User := mkUser 1 "alice" "alice@x.com" "$2b$h1" 0 None "en" false None.
Definition bob : User := mkUser 2 "bob" "bob@x.com" "$2b$h2" 0 None "en" false None.

Definition bobs_entry : WeightEntry :=
mkWeightEntry 1 2 (VFloat (FFinite (143 # 2))) (VDatetime 5) 0.

(** Alice and Bob, no friendship, one weight entry of Bob. *)
Definition two_users : database :=
mkDatabase [alice; bob] [] [bobs_entry] ∅ 3 1 2.

Definition bobs_run : Activity :=
mkActivity 7 2 (VStr "Running") (VInt 30) (VStr "Low") (VDatetime 5)
           (VStr "") (VStr "") 0.

Definition alices_swim : Activity :=
mkActivity 8 1 (VStr "Swimming") (VInt 20) (VStr "High") (VDatetime 6)
           (VStr "") (VStr "") 0.

(** Alice and Bob with one activity each. *)
Definition two_activities : database :=
mkDatabase [alice; bob] [bobs_run; alices_swim] [] ∅ 3 9 1.

Definition no_users : database := mkDatabase [] [] [] ∅ 1 1 1.

End Examples.

(** * The rest of the modules *)

(** ** data_manager.py: the other activity methods *)

Module DataManagerRest.

(** [df.head(n)]; a negative [n] keeps all but the last [-n] rows. *)
Definition head (n : Z) (d : df) : df :=
if 0 <=? n then take (Z.to_nat n) d
else take (length d - Z.to_nat (- n)) d.

Definition get_recent_activities (limit : Z) (e : env) (s : store)
  : outcome df * store :=
bind (DataManager.load_activities e s) (fun d s => (Return (head limit d), s)).

Definition get_all_activities (e : env) (s : store) : outcome df * store :=
DataManager.load_activities e s.

(** [self._activities_cache = <empty frame>;
     self._activities_cache_timestamp = 0] *)
Definition reset_cache (s : store) : store :=
mkStore (activities_file s) (activities_tmp s) (Some []) 0 (clock s).

Definition clear_all_activities (e : env) (s : store) : outcome bool * store :=
let '(r, tr) :=
  try_except
    (bind (DataManager.write_in_place [] e s) (fun _ tr =>
     (Return true, tr ++ [reset_cache (List.last tr s)])))
    Exception
    (fun _ tr => (Return false, tr)) in
(r, List.last tr s).

End DataManagerRest.

(** ** optimized_data_manager.py: the other activity methods *)

Module OptimizedDataManagerRest.

Definition get_recent_activities (limit : Z) (e : env) (s : store)
  : outcome df * store :=
bind (OptimizedDataManager.load_activities e s) (fun d s =>
if negb (Frame.empty d) then (Return (DataManagerRest.head limit d), s)
else (Return d, s)).

(** [clear_all_activities] writes the activities file itself, as the
    original store does, and catches OSError only. *)
Definition clear_all_activities (e : env) (s : store) : outcome bool * store :=
let '(r, tr) :=
  try_except
    (bind (DataManager.write_in_place [] e s) (fun _ tr =>
     (Return true, tr ++ [DataManagerRest.reset_cache (List.last tr s)])))
    (except_classes [Return OSError])
    (fun _ tr => (Return false, tr)) in
(r, List.last tr s).

End OptimizedDataManagerRest.

(** ** performance_utils.py *)

Module PerformanceUtils.

Definition period_days (period : string) : option Z :=
if String.eqb period "Week" then Some 7
else if String.eqb period "Month" then Some 30
else if String.eqb period "Season" then Some 90
else None.

(** [now] is the reading of [datetime.now()]. *)
Definition efficient_dataframe_filter (d : df) (period : string) (now : Z) : df :=
if Frame.empty d || String.eqb period "All time" then d
else
  match period_days period with
  | None => d
  | Some days =>
      if days =? 0 then d
      else
        let start_date := now - timedelta_days days in
        if has_column "date" d then List.filter (date_ge start_date) d
        else d
  end.

End PerformanceUtils.

(** ** utils.py *)

Module Utils.

(** [v <= 0] and [v > 500] for a Python value: a number compares, NaN
    compares false, anything else is a TypeError. *)
Definition le_int (v : pyval) (n : Z) : outcome bool :=
match v with
| VBool b => Return ((if b then 1 else 0) <=? n)
| VInt z => Return (z <=? n)
| VFloat FNaN => Return false
| VFloat (FInf negative) => Return negative
| VFloat (FFinite q) => Return (Qle_bool q (inject_Z n))
| _ => Raise TypeError
end.

Definition gt_int (v : pyval) (n : Z) : outcome bool :=
match v with
| VBool b => Return (n <? (if b then 1 else 0))
| VInt z => Return (n <? z)
| VFloat FNaN => Return false
| VFloat (FInf negative) => Return (negb negative)
| VFloat (FFinite q) => Return (negb (Qle_bool q (inject_Z n)))
| _ => Raise TypeError
end.

(** [field not in data or data[field] is None] *)
Definition missing (data : dict) (field : string) : bool :=
match data !! field with
| None => true
| Some VNone => true
| Some _ => false
end.

(** The loop over the required fields: the first one missing ends it. *)
Fixpoint first_missing (data : dict) (fields : list string) : option string :=
match fields with
| [] => None
| field :: rest =>
    if missing data field then Some field else first_missing data rest
end.

Definition validate_activity_data (activity_data : dict)
  : outcome (bool * string) :=
match first_missing activity_data ["type"; "duration"; "intensity"; "date"] with
| Some field => Return (false, String.append "Missing required field: " field)
| None =>
    match le_int (default VNone (activity_data !! "duration")) 0 with
    | Raise x => Raise x
    | Return true => Return (false, "Duration must be greater than 0")
    | Return false =>
        if negb (bool_decide (default VNone (activity_data !! "intensity")
                              ∈ [VStr "Low"; VStr "Medium"; VStr "High"]))
        then Return (false, "Invalid intensity level")
        else Return (true, "Valid")
    end
end.

Definition validate_weight_data (weight_data : dict) : outcome (bool * string) :=
match first_missing weight_data ["weight"; "date"] with
| Some field => Return (false, String.append "Missing required field: " field)
| None =>
    let weight := default VNone (weight_data !! "weight") in
    match le_int weight 0 with
    | Raise x => Raise x
    | Return true => Return (false, "Weight must be between 0 and 500 kg")
    | Return false =>
        match gt_int weight 500 with
        | Raise x => Raise x
        | Return true => Return (false, "Weight must be between 0 and 500 kg")
        | Return false => Return (true, "Valid")
        end
    end
end.

End Utils.

(** ** data_cache.py *)

Module DataCache.

(** The loop [type_counts[t] = type_counts.get(t, 0) + 1]. *)
Fixpoint count_types (activity_types_list : list string)
  (type_counts : gmap string nat) : gmap string nat :=
match activity_types_list with
| [] => type_counts
| activity_type :: rest =>
    count_types rest
      (<[activity_type := (default 0%nat (type_counts !! activity_type) + 1)%nat]>
         type_counts)
end.

Definition get_activity_type_distribution (activity_types_list : list string)
  : gmap string nat :=
match activity_types_list with
| [] => ∅
| _ => count_types activity_types_list ∅
end.

End DataCache.

(** ** The weight file and its cache *)

Module WeightFile.

Record wstore : Type := mkWStore {
  weight_file : option file;            (* data/weight.json *)
  weight_tmp : option file;             (* data/weight.json.tmp *)
  _weight_cache : option df;
  _weight_cache_timestamp : Z;
  wclock : Z                            (* time.time(), microseconds *)
}.

(** What one call takes from outside: the environment of the activity
    methods, and the uuids drawn for rows read without an id. *)
Record wenv : Type := mkWEnv {
  base : env;
  backfill : nat -> string               (* [str(uuid.uuid4()) for _ in range(len(df))] *)
}.

Definition set_wfile (f : option file) (s : wstore) : wstore :=
mkWStore f (weight_tmp s) (_weight_cache s) (_weight_cache_timestamp s) (wclock s).

Definition set_wtmp (f : option file) (s : wstore) : wstore :=
mkWStore (weight_file s) f (_weight_cache s) (_weight_cache_timestamp s) (wclock s).

Definition set_wcache (d : df) (s : wstore) : wstore :=
mkWStore (weight_file s) (weight_tmp s) (Some d) (wclock s) (wclock s).

Definition wtick (dt : Z) (s : wstore) : wstore :=
mkWStore (weight_file s) (weight_tmp s) (_weight_cache s)
         (_weight_cache_timestamp s) (wclock s + dt).

(** The order of [sort_values('date', ascending=True)]: earlier dates
    first, NaT last. *)
Definition older (r1 r2 : dict) : Prop :=
match date_of r2 with
| None => True
| Some b => match date_of r1 with Some a => a <= b | None => False end
end.

Global Instance older_dec : RelDecision older.
Proof.
  intros r1 r2. unfold older.
  destruct (date_of r2); [destruct (date_of r1)|]; apply _.
Defined.

Definition sort_values_date_asc (d : df) : df := merge_sort older d.

(** What [load_weight_data] makes of a freshly read list: [df['date']]
    raises KeyError when no row has a date; when no row has an id,
    every row is given one. *)
Definition wframe_of_json (e : wenv) (weight_data : df) : outcome df :=
if Frame.empty weight_data then Return []
else if has_column "date" weight_data
     then
       let d := if has_column "id" weight_data then weight_data
                else imap (fun i r => <["id" := VStr (backfill e i)]> r) weight_data in
       Return (sort_values_date_asc d)
     else Raise KeyError.

(** A weight cell that pandas counts as missing. *)
Definition weight_cell (r : dict) : option pyval :=
match r !! "weight" with
| None | Some VNone | Some (VFloat FNaN) => None
| Some v => Some v
end.


End WeightFile.
Export WeightFile.

(** ** data_manager.py: the weight methods and the settings *)

Module DataManagerWeight.

Definition load_weight_data_body (e : wenv) (s : wstore) : outcome df * wstore :=
match weight_file s with
| None => (Return [], s)
| Some f =>
    let file_mtime := mtime f in
    match _weight_cache s with
    | Some cached =>
        if file_mtime <=? _weight_cache_timestamp s
        then (Return cached, s)
        else bind (json_load (base e) f, s) (fun weight_data s =>
             bind (wframe_of_json e weight_data, s) (fun d s =>
             (Return d, set_wcache d s)))
    | None =>
        bind (json_load (base e) f, s) (fun weight_data s =>
        bind (wframe_of_json e weight_data, s) (fun d s =>
        (Return d, set_wcache d s)))
    end
end.

Definition load_weight_data (e : wenv) (s : wstore) : outcome df * wstore :=
try_except (load_weight_data_body e s) Exception
  (fun _ s => (Return [], s)).

Definition write_in_place (d : df) (e : wenv) (s : wstore)
  : outcome unit * list wstore :=
let opened := set_wfile (Some (mkFile Malformed (wclock s))) s in
let written := set_wfile (Some (mkFile (Complete d) (wclock s))) s in
match write_fault (base e) with
| OpenFails => (Raise OSError, [])
| WriteFails => (Raise OSError, [opened])
| _ => (Return tt, [opened; written])
end.

Definition save_weight_data (d : df) (e : wenv) (s : wstore)
  : outcome bool * wstore :=
let '(r, tr) :=
  try_except
    (bind (write_in_place d e s) (fun _ tr =>
     (Return true, tr ++ [set_wcache d (List.last tr s)])))
    Exception
    (fun _ tr => (Return false, tr)) in
(r, List.last tr s).

(** The id and the date of the new entry are prepared by the same
    statements as those of a new activity. *)
Definition add_weight_entry (weight_data : dict) (e : wenv) (s : wstore)
  : outcome bool * wstore :=
try_except
  (bind (load_weight_data e s) (fun d s =>
   bind (prepare_activity (base e) weight_data, s) (fun new_row s =>
   let d := if Frame.empty d then [new_row] else d ++ [new_row] in
   save_weight_data d e s)))
  Exception
  (fun _ s => (Return false, s)).

Definition delete_weight_entry (entry_id : string) (e : wenv) (s : wstore)
  : outcome bool * wstore :=
try_except
  (bind (load_weight_data e s) (fun d s =>
   let d := drop_id entry_id d in
   save_weight_data d e s))
  Exception
  (fun _ s => (Return false, s)).

(** [df.loc[idx, 'weight'] = weight; df.loc[idx, 'date'] = date] on the
    first row with the id. *)
Fixpoint set_first (entry_id : string) (w d : pyval) (rows : df) : df :=
match rows with
| [] => []
| r :: rest =>
    if id_is entry_id r
    then <["date" := d]> (<["weight" := w]> r) :: rest
    else r :: set_first entry_id w d rest
end.

Definition update_weight_entry (entry_id : string) (w d : pyval) (e : wenv)
  (s : wstore) : outcome bool * wstore :=
try_except
  (bind (load_weight_data e s) (fun rows s =>
   if has_id entry_id rows
   then save_weight_data (set_first entry_id w d rows) e s
   else (Return false, s)))
  Exception
  (fun _ s => (Return false, s)).


(** The cache is left as it is. *)
Definition clear_all_weight_data (e : wenv) (s : wstore) : outcome bool * wstore :=
let '(r, tr) :=
  try_except
    (bind (write_in_place [] e s) (fun _ tr => (Return true, tr)))
    Exception
    (fun _ tr => (Return false, tr)) in
(r, List.last tr s).

End DataManagerWeight.

(** ** The settings file *)

Module SettingsFile.

(** The text of the settings file: the JSON of an object, or a text
    [json.load] rejects. *)
Inductive settings_content : Type :=
| SComplete (settings : dict)
| SMalformed.

(** data/settings.json, None when absent. *)
Definition settings_store : Type := option settings_content.

(** [{"weight_goal": None}] *)
Definition default_settings : dict := {[ "weight_goal" := VNone ]}.

End SettingsFile.
Export SettingsFile.

Module DataManagerSettings.

Definition load_settings (e : env) (s : settings_store) : dict :=
match s with
| None => default_settings                         (* open raises *)
| Some c =>
    if read_fails e then default_settings
    else match c with
         | SComplete settings => settings
         | SMalformed => default_settings
         end
end.

Definition save_settings (settings : dict) (e : env) (s : settings_store)
  : bool * settings_store :=
match write_fault e with
| OpenFails => (false, s)
| WriteFails => (false, Some SMalformed)
| _ => (true, Some (SComplete settings))
end.

(** [settings.get('weight_goal')] *)
Definition get_weight_goal (e : env) (s : settings_store) : pyval :=
default VNone (load_settings e s !! "weight_goal").

Definition set_weight_goal (goal : pyval) (e : env) (s : settings_store)
  : bool * settings_store :=
let settings := load_settings e s in
let settings := <["weight_goal" := goal]> settings in
save_settings settings e s.

End DataManagerSettings.

(** ** optimized_data_manager.py: the weight methods *)

Module OptimizedDataManagerWeight.

Definition _is_cache_valid (s : wstore) (cache_timestamp : Z) : bool :=
match weight_file s with
| None => false
| Some f =>
    let file_mtime := mtime f in
    let cache_age := wclock s - cache_timestamp in
    (file_mtime <=? cache_timestamp)
    && (cache_age <? OptimizedDataManager.max_cache_age)
end.

Definition load_fresh (e : wenv) (s : wstore) : outcome df * wstore :=
match weight_file s with
| None => (Return [], s)
| Some f =>
    bind (json_load (base e) f, s) (fun weight_data s =>
    bind (wframe_of_json e weight_data, s) (fun d s =>
    (Return d, set_wcache d s)))
end.

Definition load_weight_data (e : wenv) (s : wstore) : outcome df * wstore :=
try_except
  (match _weight_cache s with
   | Some cached =>
       if _is_cache_valid s (_weight_cache_timestamp s)
       then (Return cached, s)
       else load_fresh e s
   | None => load_fresh e s
   end)
  (except_classes [Return JSONDecodeError; Return OSError; Return KeyError])
  (fun _ s => (Return [], s)).

Definition write_tmp_and_replace (d : df) (e : wenv) (s : wstore)
  : outcome unit * list wstore :=
let opened := set_wtmp (Some (mkFile Malformed (wclock s))) s in
let written := set_wtmp (Some (mkFile (Complete d) (wclock s))) s in
let replaced := set_wtmp None (set_wfile (Some (mkFile (Complete d) (wclock s))) s) in
match write_fault (base e) with
| OpenFails => (Raise OSError, [])
| WriteFails => (Raise OSError, [opened])
| ReplaceFails => (Raise OSError, [opened; written])
| NoFault => (Return tt, [opened; written; replaced])
end.

Definition cleanup_tmp (s0 : wstore) (tr : list wstore)
  : outcome bool * list wstore :=
let s := List.last tr s0 in
match weight_tmp s with
| Some _ => (Return false, tr ++ [set_wtmp None s])
| None => (Return false, tr)
end.

Definition save_weight_data (d : df) (e : wenv) (s : wstore)
  : outcome bool * wstore :=
let '(r, tr) :=
  try_except
    (bind (write_tmp_and_replace d e s) (fun _ tr =>
     (Return true, tr ++ [set_wcache d (List.last tr s)])))
    (except_classes [Return OSError; json_attr "JSONEncodeError"])
    (fun _ tr => cleanup_tmp s tr) in
(r, List.last tr s).

(** [VALIDATION_RULES['min_weight']], [['max_weight']]: 20.0 and 500.0 *)
Definition min_weight : Z := 20.
Definition max_weight : Z := 500.

Definition add_weight_entry (weight_data : dict) (e : wenv) (s : wstore)
  : outcome bool * wstore :=
try_except
  (let weight := default VNone (weight_data !! "weight") in
   if negb (is_int_or_float weight) || negb (between min_weight max_weight weight)
   then (Return false, s)
   else
     bind (load_weight_data e s) (fun d s =>
     bind (prepare_activity (base e) weight_data, s) (fun new_row s =>
     let d := if negb (Frame.empty d) then d ++ [new_row] else [new_row] in
     save_weight_data d e s)))
  (except_classes [Return ValueError; Return TypeError])
  (fun _ s => (Return false, s)).

Definition delete_weight_entry (entry_id : string) (e : wenv) (s : wstore)
  : outcome bool * wstore :=
try_except
  (bind (load_weight_data e s) (fun d s =>
   if Frame.empty d || negb (has_id entry_id d) then (Return false, s)
   else
     let d := drop_id entry_id d in
     save_weight_data d e s))
  Exception
  (fun _ s => (Return false, s)).

End OptimizedDataManagerWeight.

(** ** database.py: the other methods of DatabaseManager *)

Module DatabaseManagerRest.

(** What the account methods take from outside the program. *)
Record auth_env : Type := mkAuthEnv {
  checkpw : string -> string -> bool;      (* bcrypt.checkpw(password, hash) *)
  token_urlsafe : string                   (* secrets.token_urlsafe(32) *)
}.

Definition authenticate_user (name password : string) (a : auth_env)
  (db : database) : option User :=
match first (fun u => String.eqb (username u) name) (users db) with
| Some user => if checkpw a password (password_hash user) then Some user else None
| None => None
end.

Definition with_token (t : option string) (u : User) : User :=
mkUser (user_id u) (username u) (email u) (password_hash u) (created_at u)
       (weight_goal u) (preferred_language u) (dark_mode u) t.

Definition set_remember_token (uid : Z) (generate_token : bool) (a : auth_env)
  (db : database) : option string * database :=
match first (fun u => user_id u =? uid) (users db) with
| Some user =>
    let token := if generate_token then Some (token_urlsafe a) else None in
    (token,
     set_users (List.map (fun u => if user_id u =? user_id user
                                   then with_token token u else u) (users db))
               (next_user_id db) db)
| None => (None, db)
end.

(** [User.remember_token == token] for a token that is a string: a
    NULL column matches none. *)
Definition authenticate_by_token (name token : string) (db : database)
  : option User :=
first (fun u => String.eqb (username u) name
                && bool_decide (remember_token u = Some token)) (users db).

(** [user_id] is a foreign key into [users]; it is checked when the
    session is flushed. *)
Definition user_exists (uid : Z) (db : database) : bool :=
existsb (fun u => user_id u =? uid) (users db).

(** [Activity(user_id=..., type=activity_data['type'], ...)] *)
Definition new_activity (uid : Z) (activity_data : dict) (e : db_env)
  (db : database) : outcome Activity :=
match activity_data !! "type", activity_data !! "duration",
      activity_data !! "intensity", activity_data !! "date" with
| Some ty, Some du, Some it, Some da =>
    Return (mkActivity (next_activity_id db) uid ty du it da
              (default (VStr "") (activity_data !! "description"))
              (default (VStr "") (activity_data !! "adaptation"))
              (utcnow e))
| _, _, _, _ => Raise KeyError
end.

(** [session.add(activity); session.commit()] *)
Definition insert_activity (a : Activity) (db : database) : database :=
mkDatabase (users db) (activities db ++ [a]) (weight_entries db)
           (friendships db) (next_user_id db) (next_activity_id db + 1)
           (next_entry_id db).

Definition add_activity (uid : Z) (activity_data : dict) (e : db_env)
  (db : database) : bool * database :=
match new_activity uid activity_data e db with
| Raise _ => (false, db)
| Return activity =>
    if activity_flushes activity && user_exists uid db
    then (true, insert_activity activity db)
    else (false, db)                              (* commit fails: rollback *)
end.

(** The order of [order_by(WeightEntry.date.asc())]. *)
Definition entry_older (w1 w2 : WeightEntry) : Prop :=
match datetime_of (entry_date w2) with
| None => True
| Some b => match datetime_of (entry_date w1) with Some a => a <= b | None => False end
end.

Global Instance entry_older_dec : RelDecision entry_older.
Proof.
  intros w1 w2. unfold entry_older.
  destruct (datetime_of (entry_date w2)); [destruct (datetime_of (entry_date w1))|];
    apply _.
Defined.

Definition get_user_weight_data (uid : Z) (db : database) : list WeightEntry :=
merge_sort entry_older
  (List.filter (fun w => entry_user_id w =? uid) (weight_entries db)).

Definition insert_entry (w : WeightEntry) (db : database) : database :=
mkDatabase (users db) (activities db) (weight_entries db ++ [w])
           (friendships db) (next_user_id db) (next_activity_id db)
           (next_entry_id db + 1).

Definition add_weight_entry (uid : Z) (w d : pyval) (e : db_env) (db : database)
  : bool * database :=
let entry := mkWeightEntry (next_entry_id db) uid w d (utcnow e) in
if entry_flushes entry && user_exists uid db
then (true, insert_entry entry db)
else (false, db).                                 (* commit fails: rollback *)

End DatabaseManagerRest.
Export DatabaseManagerRest.

(** ** optimized_database.py: the other methods of
       OptimizedDatabaseManager *)

Module OptimizedDatabaseManagerRest.

(** [User.check_password] *)
Definition check_password (a : auth_env) (u : User) (password : string) : bool :=
checkpw a password (password_hash u).

Definition authenticate_user (name password : string) (a : auth_env)
  (db : database) : option User :=
match first (fun u => String.eqb (username u) name) (users db) with
| Some user => if check_password a user password then Some user else None
| None => None
end.

Definition get_user_by_id (uid : Z) (db : database) : option User :=
first (fun u => user_id u =? uid) (users db).

Definition set_remember_token (uid : Z) (generate_token : bool) (a : auth_env)
  (db : database) : option string * database :=
match first (fun u => user_id u =? uid) (users db) with
| None => (None, db)
| Some user =>
    let token := if generate_token then Some (token_urlsafe a) else None in
    (token,
     set_users (List.map (fun u => if user_id u =? user_id user
                                   then with_token token u else u) (users db))
               (next_user_id db) db)
end.

(** [lo <= duration <= hi] on the value of the dict: comparing an int
    with something that is no number is a TypeError. *)
Definition in_bounds (lo hi : Z) (v : pyval) : outcome bool :=
if is_int_or_float v then Return (between lo hi v) else Raise TypeError.

Definition add_activity (uid : Z) (activity_data : dict) (e : db_env)
  (db : database) : outcome bool * database :=
if negb (forallb (fun field => bool_decide (is_Some (activity_data !! field)))
                 ["type"; "duration"; "intensity"; "date"])
then (Return false, db)
else
  match in_bounds Constants.min_duration Constants.max_duration
                  (default VNone (activity_data !! "duration")) with
  | Raise x => (Raise x, db)
  | Return false => (Return false, db)
  | Return true =>
      match new_activity uid activity_data e db with
      | Raise x => (Raise x, db)
      | Return activity =>
          if activity_flushes activity && user_exists uid db
          then (Return true, insert_activity activity db)
          else (Return false, db)                 (* SQLAlchemyError: rollback *)
      end
  end.

Definition delete_activity (uid : Z) (aid : Z) (db : database)
  : bool * database :=
match first (fun a => (activity_id a =? aid) && (activity_user_id a =? uid))
            (activities db) with
| None => (false, db)
| Some activity =>
    (true, set_activities
             (List.filter (fun a => negb (activity_id a =? activity_id activity))
                          (activities db)) db)
end.

Definition add_weight_entry (uid : Z) (w d : pyval) (e : db_env) (db : database)
  : outcome bool * database :=
match in_bounds OptimizedDataManagerWeight.min_weight
                OptimizedDataManagerWeight.max_weight w with
| Raise x => (Raise x, db)
| Return false => (Return false, db)
| Return true =>
    let entry := mkWeightEntry (next_entry_id db) uid w d (utcnow e) in
    if entry_flushes entry && user_exists uid db
    then (Return true, insert_entry entry db)
    else (Return false, db)                       (* SQLAlchemyError: rollback *)
end.

(** [if limit: query = query.limit(limit)] for a limit that is None or
    a natural number. *)
Definition get_user_weight_entries (uid : Z) (lim : option nat) (db : database)
  : list WeightEntry :=
let query := merge_sort entry_older
               (List.filter (fun w => entry_user_id w =? uid) (weight_entries db)) in
match lim with
| None | Some O => query
| Some n => limit n query
end.

Definition get_friends_recent_activities (uid : Z) (lim : nat) (db : database)
  : list Activity :=
match first (fun u => user_id u =? uid) (users db) with
| None => []
| Some user =>
    match friends db user with
    | [] => []
    | fs =>
        let friend_ids := List.map user_id fs in
        limit lim
          (order_by_date_desc
             (List.filter (fun a => bool_decide (activity_user_id a ∈ friend_ids))
                          (activities db)))
    end
end.

End OptimizedDatabaseManagerRest.

(** ** What the rest of the code keeps *)

Module Invariants.

(** The primary keys of a table are distinct and below its counter. *)
Definition keys_ok (ids : list Z) (next : Z) : Prop :=
NoDup ids /\ Forall (fun i => i < next) ids.

Definition tables_ok (db : database) : Prop :=
keys_ok (List.map user_id (users db)) (next_user_id db) /\
keys_ok (List.map activity_id (activities db)) (next_activity_id db) /\
keys_ok (List.map entry_id (weight_entries db)) (next_entry_id db).

(** Nobody is their own friend, and friendship goes both ways. *)
Definition friendships_ok (db : database) : Prop :=
(forall a, (a, a) ∉ friendships db) /\
(forall a b, (a, b) ∈ friendships db -> (b, a) ∈ friendships db).

(** The usernames of the table are distinct (the column is unique). *)
Definition usernames_unique (db : database) : Prop :=
NoDup (List.map username (users db)).

(** A cell that holds a positive number, NaN and plus infinity
    included: what [v <= 0] is false of. *)
Definition not_le_zero (v : pyval) : Prop :=
(exists q, numeric v = Some q /\ (0 < q)%Q) \/
v = VFloat FNaN \/ v = VFloat (FInf false).

(** A field of the input is there and is not None. *)
Definition given (data : dict) (field : string) : Prop :=
exists v, data !! field = Some v /\ v <> VNone.

(** The rows of [d] whose weight cell is missing. *)
Definition lacks_weight (r : dict) : Prop := weight_cell r = None.

End Invariants.
Export Invariants.

Module Sync.

(** Every record carries a date cell. *)
Definition all_dated (d : df) : Prop :=
forall r, r ∈ d -> is_Some (r !! "date").

(** The activities file and the cache both hold the collection [D], in
    some order, and the cache was stamped no earlier than the file was
    written and no later than now. *)
Definition synced (s : store) (D : df) : Prop :=
exists f D1 D2,
  activities_file s = Some f /\ content f = Complete D1 /\
  _activities_cache s = Some D2 /\ D1 ≡ₚ D /\ D2 ≡ₚ D /\
  mtime f <= _activities_cache_timestamp s /\
  _activities_cache_timestamp s <= clock s.

End Sync.
Export Sync.

(** ** More concrete stores and inputs *)

Module MoreExamples.

Definition calm_w : wenv := mkWEnv Examples.calm (fun _ => "gen").

(** The weight file just initialised. *)
Definition no_weights : wstore :=
mkWStore (Some (mkFile (Complete []) 0)) None None 0 100.

Definition weigh_in (kg : Q) (day : Z) : dict :=
<["weight" := VFloat (FFinite kg)]>
(<["date" := VDatetime (timedelta_days day)]> ∅).

Definition first_entry : dict := <["id" := VStr "w1"]> (weigh_in (143 # 2) 1).


(** A bcrypt that prefixes, and checks by hashing again. *)
Definition toy_auth : auth_env :=
mkAuthEnv (fun password h => String.eqb h (String.append "$2b$" (String.append "salt" password)))
          "tok-1".

End MoreExamples.



(** A weight cell [validate_weight_data] lets through: a number above 0
    and at most 500, or NaN (which every comparison is false of). *)
Definition weight_plausible (w : pyval) : Prop :=
(exists q, numeric w = Some q /\ (0 < q)%Q /\ (q <= inject_Z 500)%Q) \/
w = VFloat FNaN.

(** ** Lemmas on the Python layer *)

Lemma between_within (lo hi : Z) (v : pyval) :
  is_int_or_float v = true ->
  between lo hi v = true <-> within lo hi v.
Proof.
  intros Hnum. unfold within.
  destruct v as [|b|z|[| |q]|s|t]; simpl in *; try discriminate.
  - split.
    + intros H. apply andb_true_iff in H as [H1 H2].
      apply Z.leb_le in H1, H2.
      eexists. split; [reflexivity|]. rewrite <- !Zle_Qle. lia.
    + intros (q & Hq & H1 & H2). inversion Hq; subst.
      rewrite <- Zle_Qle in H1, H2.
      apply andb_true_iff. split; apply Z.leb_le; lia.
  - split.
    + intros H. apply andb_true_iff in H as [H1 H2].
      apply Z.leb_le in H1, H2.
      eexists. split; [reflexivity|]. rewrite <- !Zle_Qle. lia.
    + intros (q & Hq & H1 & H2). inversion Hq; subst.
      rewrite <- Zle_Qle in H1, H2.
      apply andb_true_iff. split; apply Z.leb_le; lia.
  - split; [discriminate | intros (q & Hq & _); discriminate].
  - split; [discriminate | intros (q & Hq & _); discriminate].
  - split.
    + intros H. apply andb_true_iff in H as [H1 H2].
      apply Qle_bool_iff in H1, H2. eauto.
    + intros (q' & Hq & H1 & H2). inversion Hq; subst.
      apply andb_true_iff. split; apply Qle_bool_iff; assumption.
Qed.

Lemma within_is_number (lo hi : Z) (v : pyval) :
  within lo hi v -> is_int_or_float v = true.
Proof.
  intros (q & Hq & _). destruct v as [|b|z|[| |q']|s|t]; simpl in *;
    congruence.
Qed.

Lemma try_except_return {A S : Type} (a : A) (s : S) classes handler :
  try_except (Return a, s) classes handler = (Return a, s).
Proof. reflexivity. Qed.

(** ** Validation in the optimized file store *)

Lemma validate_rejects (data : dict) :
  ~ duration_in_bounds data \/ description_too_long data ->
  OptimizedDataManager._validate_activity_data data = Return false.
Proof.
  intros Hbad. unfold OptimizedDataManager._validate_activity_data.
  destruct (forallb _ OptimizedDataManager.required_fields) eqn:Hreq;
    [simpl | reflexivity].
  destruct (data !! "duration") as [v|] eqn:Hdur; simpl.
  2:{ simpl in Hreq. rewrite Hdur in Hreq.
      rewrite !andb_true_iff in Hreq. destruct Hreq as (_ & H & _).
      apply bool_decide_eq_true in H. destruct H; discriminate. }
  destruct (is_int_or_float v) eqn:Hnum; [simpl | reflexivity].
  destruct (between Constants.min_duration Constants.max_duration v) eqn:Hb;
    [simpl | reflexivity].
  destruct Hbad as [Hd | (d & Hdesc & Hlen)].
  - exfalso. apply Hd. exists v. split; [exact Hdur|].
    apply between_within; assumption.
  - rewrite Hdesc. simpl.
    assert ((Constants.max_description_length <? Z.of_nat (String.length d))
            = true) as ->; [|reflexivity].
    apply Z.ltb_lt. unfold Constants.max_description_length. lia.
Qed.

Lemma validate_accepts (data : dict) :
  valid_activity data ->
  OptimizedDataManager._validate_activity_data data = Return true.
Proof.
  intros [[ty Hty] (v & Hv & Hw) Hint (t & Ht) Hdesc].
  unfold OptimizedDataManager._validate_activity_data. simpl.
  assert (is_Some (data !! "intensity")) as Hi.
  { destruct Hint as [H|[H|H]]; rewrite H; eauto. }
  rewrite Hty, Hv, Ht. simpl.
  rewrite ?(bool_decide_eq_true_2 _ Hi). simpl.
  rewrite ?bool_decide_eq_true_2 by eauto. simpl.
  rewrite (within_is_number _ _ _ Hw). simpl.
  assert (between Constants.min_duration Constants.max_duration v = true) as ->.
  { apply between_within; [eapply within_is_number; eassumption | exact Hw]. }
  simpl.
  destruct Hdesc as [Hnone | (d & Hd & Hlen)].
  - rewrite Hnone. simpl. reflexivity.
  - rewrite Hd. simpl.
    assert ((Constants.max_description_length <? Z.of_nat (String.length d))
            = false) as ->; [|reflexivity].
    apply Z.ltb_ge. unfold Constants.max_description_length. lia.
Qed.

(** The optimized file store: an input whose duration is not a
    number in [[1, 1440]], or whose description has more than 500
    characters, is refused before the store is read; the call returns
    False and the files, the cache and its timestamp are what they
    were. *)
Theorem optimized_add_activity_rejects_invalid
  (activity_data : dict) (e : env) (s : store) :
  ~ duration_in_bounds activity_data \/ description_too_long activity_data ->
  OptimizedDataManager.add_activity activity_data e s = (Return false, s).
Proof.
  intros Hbad. unfold OptimizedDataManager.add_activity.
  rewrite (validate_rejects _ Hbad). reflexivity.
Qed.

(** ** Loading and saving *)

Lemma legacy_load_cases (e : env) (s : store) :
  exists d, DataManager.load_activities e s = (Return d, s)
         \/ DataManager.load_activities e s = (Return d, set_cache d s).
Proof.
  unfold DataManager.load_activities, DataManager.load_activities_body.
  destruct (activities_file s) as [f|]; [|exists []; left; reflexivity].
  assert (exists d,
    try_except
      (bind (json_load e f, s) (fun activities s0 =>
       bind (frame_of_json activities, s0) (fun d s1 => (Return d, set_cache d s1))))
      Exception (fun _ s0 => (Return ([] : df), s0)) = (Return d, s)
    \/ try_except
      (bind (json_load e f, s) (fun activities s0 =>
       bind (frame_of_json activities, s0) (fun d s1 => (Return d, set_cache d s1))))
      Exception (fun _ s0 => (Return ([] : df), s0)) = (Return d, set_cache d s))
    as Hfresh.
  { destruct (json_load e f) as [activities|x]; simpl.
    - destruct (frame_of_json activities) as [d|x]; simpl.
      + exists d. right. reflexivity.
      + exists []. left. destruct x; reflexivity.
    - exists []. left. destruct x; reflexivity. }
  destruct (_activities_cache s) as [cached|]; [|exact Hfresh].
  destruct (mtime f <=? _activities_cache_timestamp s); [|exact Hfresh].
  exists cached. left. reflexivity.
Qed.

Lemma optimized_load_cases (e : env) (s : store) :
  exists d, OptimizedDataManager.load_activities e s = (Return d, s)
         \/ OptimizedDataManager.load_activities e s = (Return d, set_cache d s).
Proof.
  unfold OptimizedDataManager.load_activities.
  assert (exists d,
    try_except (OptimizedDataManager.load_fresh e s)
      (except_classes [Return JSONDecodeError; Return OSError; Return KeyError])
      (fun _ s0 => (Return ([] : df), s0)) = (Return d, s)
    \/ try_except (OptimizedDataManager.load_fresh e s)
      (except_classes [Return JSONDecodeError; Return OSError; Return KeyError])
      (fun _ s0 => (Return ([] : df), s0)) = (Return d, set_cache d s))
    as Hfresh.
  { unfold OptimizedDataManager.load_fresh.
    destruct (activities_file s) as [f|]; [|exists []; left; reflexivity].
    unfold json_load. destruct (read_fails e); simpl.
    { exists []. left. reflexivity. }
    destruct (content f) as [rows|]; simpl.
    2:{ exists []. left. reflexivity. }
    unfold frame_of_json. destruct (Frame.empty rows); simpl.
    { exists []. right. reflexivity. }
    destruct (has_column "date" rows); simpl.
    - eexists. right. reflexivity.
    - exists []. left. reflexivity. }
  destruct (_activities_cache s) as [cached|]; [|exact Hfresh].
  destruct (OptimizedDataManager._is_cache_valid s _); [|exact Hfresh].
  exists cached. left. reflexivity.
Qed.

Lemma legacy_save_ok (d : df) (e : env) (s : store) :
  write_fault e = NoFault ->
  DataManager.save_activities d e s
  = (Return true,
     set_cache d (set_file (Some (mkFile (Complete d) (clock s))) s)).
Proof.
  intros Hw. unfold DataManager.save_activities, DataManager.save_activities_trace,
    DataManager.write_in_place. rewrite Hw. reflexivity.
Qed.

Lemma optimized_save_ok (d : df) (e : env) (s : store) :
  write_fault e = NoFault ->
  OptimizedDataManager.save_activities d e s
  = (Return true,
     set_cache d (set_tmp None (set_file (Some (mkFile (Complete d) (clock s))) s))).
Proof.
  intros Hw. unfold OptimizedDataManager.save_activities,
    OptimizedDataManager.save_activities_trace,
    OptimizedDataManager.write_tmp_and_replace. rewrite Hw. reflexivity.
Qed.

(** C1, the original file store: [DataManager.add_activity] has no
    validation. A run of 2000 minutes is accepted, the call returns
    True, and the record is in the file and in the cache. *)
Lemma legacy_add_activity_stores_long_run :
  ~ duration_in_bounds Examples.long_run /\
  DataManager.add_activity Examples.long_run Examples.calm Examples.fresh_store
  = (Return true,
     mkStore (Some (mkFile (Complete [Examples.stored "3f2a" Examples.long_run]) 100))
             None (Some [Examples.stored "3f2a" Examples.long_run]) 100 100).
Proof.
  split.
  - intros (v & Hv & q & Hq & H1 & H2). vm_compute in Hv.
    inversion Hv; subst. simpl in Hq. inversion Hq; subst.
    rewrite <- Zle_Qle in H2. lia.
  - vm_compute. reflexivity.
Qed.

(** ** Adding a valid activity *)

Lemma prepare_valid (e : env) (data : dict) :
  valid_activity data ->
  prepare_activity e data = Return (<["id" := VStr (uuid4 e)]> data).
Proof.
  intros [_ _ _ (t & Ht) _]. unfold prepare_activity.
  rewrite lookup_insert_ne by discriminate. rewrite Ht. reflexivity.
Qed.

Lemma append_row (d : df) (row : dict) :
  (if Frame.empty d then [row] else d ++ [row]) = d ++ [row].
Proof. destruct d; reflexivity. Qed.

Lemma append_row_neg (d : df) (row : dict) :
  (if negb (Frame.empty d) then d ++ [row] else [row]) = d ++ [row].
Proof. destruct d; reflexivity. Qed.

Lemma appended_not_empty (d : df) (row : dict) : Frame.empty (d ++ [row]) = false.
Proof. destruct d; reflexivity. Qed.


(** The record [add_activity] stores: the input with its new id. *)
Lemma stored_fields (u : string) (data : dict) (k : string) :
  k <> "id" -> (<["id" := VStr u]> data) !! k = data !! k.
Proof. intros Hk. apply lookup_insert_ne. congruence. Qed.





(** ** Filtering by period *)

Lemma window_all_time : window "All time" = None.
Proof. reflexivity. Qed.

Lemma eqb_decide (a b : string) :
  String.eqb a b = bool_decide (a = b).
Proof.
  destruct (String.eqb_spec a b) as [H|H].
  - rewrite bool_decide_eq_true_2; auto.
  - rewrite bool_decide_eq_false_2; auto.
Qed.

(** The if-chain of the period names is the window of the
    specification. *)
Lemma start_date_window (period : string) (now : Z) :
  (if String.eqb period "Week" then Some (now - timedelta_days 7)
   else if String.eqb period "Month" then Some (now - timedelta_days 30)
   else if String.eqb period "Season" then Some (now - timedelta_days 90)
   else None)
  = (fun w => now - timedelta_days w) <$> window period.
Proof.
  unfold window. rewrite !eqb_decide.
  repeat (case_bool_decide; [rewrite decide_True by assumption; reflexivity
                            | rewrite decide_False by assumption]).
  reflexivity.
Qed.

Lemma period_days_window (period : string) :
  OptimizedDataManager.period_days period = window period.
Proof.
  unfold OptimizedDataManager.period_days, window. rewrite !eqb_decide.
  repeat (case_bool_decide; [rewrite decide_True by assumption; reflexivity
                            | rewrite decide_False by assumption]).
  reflexivity.
Qed.

Lemma window_positive (period : string) (w : Z) :
  window period = Some w -> 0 < w.
Proof.
  unfold window. repeat case_decide; intros Hsome; inversion Hsome; lia.
Qed.

Lemma in_period_window (period : string) (now w : Z) (r : dict) :
  window period = Some w ->
  in_period period now r <->
  exists t, r !! "date" = Some (VDatetime t) /\ now - w * 86400000000 <= t.
Proof. intros Hw. unfold in_period. rewrite Hw. reflexivity. Qed.

Lemma date_ge_in_period (period : string) (now w : Z) (r : dict) :
  window period = Some w ->
  date_ge (now - timedelta_days w) r = bool_decide (in_period period now r).
Proof.
  intros Hw. pose proof (in_period_window period now w r Hw) as Hiff.
  unfold date_ge, date_of, timedelta_days.
  destruct (r !! "date") as [[| | | | |t]|] eqn:E;
    try (symmetry; apply bool_decide_eq_false_2; rewrite Hiff;
         intros (t' & H & _); congruence).
  destruct (Z.leb_spec (now - w * 86400000000) t) as [Hle|Hgt]; symmetry.
  - apply bool_decide_eq_true_2. rewrite Hiff. eauto.
  - apply bool_decide_eq_false_2. rewrite Hiff.
    intros (t' & H & Hle). inversion H; subst. lia.
Qed.

Lemma filter_no_window (period : string) (now : Z) (d : df) :
  window period = None ->
  List.filter (fun r => bool_decide (in_period period now r)) d = d.
Proof.
  intros Hw. induction d as [|r d IH]; [reflexivity|]. simpl.
  rewrite IH. rewrite bool_decide_eq_true_2; [reflexivity|].
  unfold in_period. rewrite Hw. exact I.
Qed.

Lemma filter_window (period : string) (now w : Z) (d : df) :
  window period = Some w ->
  List.filter (date_ge (now - timedelta_days w)) d
  = List.filter (fun r => bool_decide (in_period period now r)) d.
Proof.
  intros Hw. induction d as [|r d IH]; [reflexivity|]. simpl.
  rewrite IH, (date_ge_in_period period now w r Hw). reflexivity.
Qed.

Lemma legacy_period_filter (period : string) (now : Z) (e : env) (s s1 : store)
  (d : df) :
  DataManager.load_activities e s = (Return d, s1) ->
  (Frame.empty d = false -> has_column "date" d = true) ->
  DataManager.get_activities_for_period period now e s
  = (Return (List.filter (fun r => bool_decide (in_period period now r)) d), s1).
Proof.
  intros Hload Hcol. unfold DataManager.get_activities_for_period.
  rewrite Hload. simpl.
  destruct (Frame.empty d) eqn:Hempty.
  { destruct d; [reflexivity | discriminate]. }
  destruct (String.eqb_spec period "All time") as [->|Hne].
  { rewrite filter_no_window by reflexivity. reflexivity. }
  rewrite start_date_window.
  destruct (window period) as [w|] eqn:Hw; simpl.
  - rewrite (Hcol eq_refl). simpl.
    rewrite (filter_window period now w d Hw). reflexivity.
  - rewrite (filter_no_window period now d Hw). reflexivity.
Qed.

Lemma optimized_period_filter (period : string) (now : Z) (e : env)
  (s s1 : store) (d : df) :
  OptimizedDataManager.load_activities e s = (Return d, s1) ->
  (Frame.empty d = false -> has_column "date" d = true) ->
  OptimizedDataManager.get_activities_for_period period now e s
  = (Return (List.filter (fun r => bool_decide (in_period period now r)) d), s1).
Proof.
  intros Hload Hcol. unfold OptimizedDataManager.get_activities_for_period.
  rewrite Hload. simpl.
  destruct (Frame.empty d) eqn:Hempty; simpl.
  { destruct d; [reflexivity | discriminate]. }
  destruct (String.eqb_spec period "All time") as [->|Hne].
  { rewrite filter_no_window by reflexivity. reflexivity. }
  rewrite period_days_window.
  destruct (window period) as [w|] eqn:Hw; simpl.
  - pose proof (window_positive period w Hw) as Hpos.
    destruct (Z.eqb_spec w 0) as [->|_]; [lia|].
    rewrite (Hcol eq_refl). simpl.
    rewrite (filter_window period now w d Hw). reflexivity.
  - rewrite (filter_no_window period now d Hw). reflexivity.
Qed.

(** C3: with [now] the reading of the clock and [d] the collection
    [load_activities] returns (a frame with a date column),
    [get_activities_for_period] of both file stores returns, in the
    order of [d], exactly the records of [d] dated at or after [now]
    minus 7, 30 or 90 days for Week, Month, Season, and all of [d] for
    "All time" and for any other period name. *)
Theorem get_activities_for_period_exact
  (period : string) (now : Z) (e : env) (s : store) :
  window "Week" = Some 7 /\ window "Month" = Some 30 /\
  window "Season" = Some 90 /\ window "All time" = None /\
  (period ∉ ["Week"; "Month"; "Season"] -> window period = None) /\
  (forall d s1,
     DataManager.load_activities e s = (Return d, s1) ->
     (Frame.empty d = false -> has_column "date" d = true) ->
     DataManager.get_activities_for_period period now e s
     = (Return (List.filter (fun r => bool_decide (in_period period now r)) d), s1)) /\
  (forall d s1,
     OptimizedDataManager.load_activities e s = (Return d, s1) ->
     (Frame.empty d = false -> has_column "date" d = true) ->
     OptimizedDataManager.get_activities_for_period period now e s
     = (Return (List.filter (fun r => bool_decide (in_period period now r)) d), s1)).
Proof.
  repeat (split; [reflexivity|]).
  split.
  { intros Hnot. unfold window.
    repeat (case_decide; [exfalso; apply Hnot; subst; set_solver|]).
    reflexivity. }
  split.
  - intros d s1. apply legacy_period_filter.
  - intros d s1. apply optimized_period_filter.
Qed.

(** Witness of [get_activities_for_period_exact]: records of today, of
    ten days ago and of forty days ago; Week returns the first, Month
    the first two, "All time" the three. *)
Lemma get_activities_for_period_exact_witness :
  let sorted := [Examples.today; Examples.ten_days_ago; Examples.forty_days_ago] in
  let loaded := set_cache sorted Examples.three_records in
  DataManager.load_activities Examples.calm Examples.three_records
  = (Return sorted, loaded) /\
  DataManager.get_activities_for_period "Week" Examples.noon Examples.calm
    Examples.three_records = (Return [Examples.today], loaded) /\
  OptimizedDataManager.get_activities_for_period "Month" Examples.noon
    Examples.calm Examples.three_records
  = (Return [Examples.today; Examples.ten_days_ago], loaded) /\
  DataManager.get_activities_for_period "All time" Examples.noon Examples.calm
    Examples.three_records = (Return sorted, loaded).
Proof.
  intros sorted loaded.
  assert (DataManager.load_activities Examples.calm Examples.three_records
          = (Return sorted, loaded)) as Hl by (vm_compute; reflexivity).
  assert (OptimizedDataManager.load_activities Examples.calm Examples.three_records
          = (Return sorted, loaded)) as Ho by (vm_compute; reflexivity).
  assert (Frame.empty sorted = false -> has_column "date" sorted = true) as Hcol
    by (intros _; vm_compute; reflexivity).
  split; [exact Hl|].
  split; [|split].
  - destruct (get_activities_for_period_exact "Week" Examples.noon
                Examples.calm Examples.three_records)
      as (_ & _ & _ & _ & _ & Hlegacy & _).
    rewrite (Hlegacy sorted loaded Hl Hcol). vm_compute. reflexivity.
  - destruct (get_activities_for_period_exact "Month" Examples.noon
                Examples.calm Examples.three_records)
      as (_ & _ & _ & _ & _ & _ & Hopt).
    rewrite (Hopt sorted loaded Ho Hcol). vm_compute. reflexivity.
  - destruct (get_activities_for_period_exact "All time" Examples.noon
                Examples.calm Examples.three_records)
      as (_ & _ & _ & _ & _ & Hlegacy & _).
    rewrite (Hlegacy sorted loaded Hl Hcol). vm_compute. reflexivity.
Defined.

(** ** Deleting *)

Lemma has_id_drop_id (activity_id : string) (d : df) :
  has_id activity_id (drop_id activity_id d) = false.
Proof.
  unfold has_id, drop_id. induction d as [|r d IH]; [reflexivity|]. simpl.
  destruct (id_is activity_id r) eqn:E; simpl; [exact IH|].
  rewrite E. exact IH.
Qed.

Lemma has_id_elem (activity_id : string) (d : df) :
  has_id activity_id d = true <->
  exists r, r ∈ d /\ r !! "id" = Some (VStr activity_id).
Proof.
  unfold has_id. rewrite existsb_exists. split.
  - intros (r & Hin & Hid). exists r. split; [apply list_elem_of_In; exact Hin|].
    unfold id_is in Hid. apply bool_decide_eq_true in Hid. exact Hid.
  - intros (r & Hin & Hid). exists r. split; [apply list_elem_of_In; exact Hin|].
    unfold id_is. apply bool_decide_eq_true. exact Hid.
Qed.

Lemma has_id_perm (activity_id : string) (d d' : df) :
  d ≡ₚ d' -> has_id activity_id d = has_id activity_id d'.
Proof.
  intros Hp. apply eq_true_iff_eq. rewrite !has_id_elem.
  split; intros (r & Hin & Hid); exists r; (split; [|exact Hid]).
  - rewrite <- Hp. exact Hin.
  - rewrite Hp. exact Hin.
Qed.

(** The records that do not carry the id are kept, in their order, and
    nothing else is. *)
Lemma drop_id_elem (activity_id : string) (d : df) (r : dict) :
  r ∈ drop_id activity_id d <-> r ∈ d /\ r !! "id" <> Some (VStr activity_id).
Proof.
  unfold drop_id. rewrite !list_elem_of_In, filter_In.
  unfold id_is. rewrite negb_true_iff, bool_decide_eq_false. reflexivity.
Qed.

(** The optimized file store refuses to delete an id it does not hold:
    False, and the state is the one a plain load leaves. *)
Lemma optimized_delete_missing (activity_id : string) (e : env) (s s1 : store)
  (d : df) :
  OptimizedDataManager.load_activities e s = (Return d, s1) ->
  has_id activity_id d = false ->
  OptimizedDataManager.delete_activity activity_id e s = (Return false, s1).
Proof.
  intros Hl Hid. unfold OptimizedDataManager.delete_activity.
  rewrite Hl. simpl. rewrite Hid. simpl. rewrite orb_true_r. reflexivity.
Qed.

Lemma optimized_delete_present (activity_id : string) (e : env) (s s1 : store)
  (d : df) :
  OptimizedDataManager.load_activities e s = (Return d, s1) ->
  has_id activity_id d = true -> write_fault e = NoFault ->
  OptimizedDataManager.delete_activity activity_id e s
  = (Return true,
     set_cache (drop_id activity_id d)
       (set_tmp None
          (set_file (Some (mkFile (Complete (drop_id activity_id d)) (clock s1)))
                    s1))).
Proof.
  intros Hl Hid Hw. unfold OptimizedDataManager.delete_activity.
  rewrite Hl. simpl. rewrite Hid. simpl.
  assert (Frame.empty d = false) as -> by (destruct d; [discriminate|reflexivity]).
  simpl. rewrite (optimized_save_ok _ _ _ Hw). reflexivity.
Qed.


Lemma load_keeps_files_optimized (e : env) (s s1 : store) (d : df) :
  OptimizedDataManager.load_activities e s = (Return d, s1) ->
  activities_file s1 = activities_file s /\ activities_tmp s1 = activities_tmp s
  /\ clock s1 = clock s.
Proof.
  intros H. destruct (optimized_load_cases e s) as (d' & [H'|H']);
    rewrite H' in H; inversion H; subst; auto.
Qed.

Lemma optimized_load_from (e : env) (s s1 : store) (d : df) :
  OptimizedDataManager.load_activities e s = (Return d, s1) ->
  d = [] \/ _activities_cache s = Some d \/
  exists f rows, activities_file s = Some f /\ content f = Complete rows /\
                 d = sort_values_date_desc rows.
Proof.
  unfold OptimizedDataManager.load_activities.
  assert (forall r,
    try_except (OptimizedDataManager.load_fresh e s)
      (except_classes [Return JSONDecodeError; Return OSError; Return KeyError])
      (fun _ s0 => (Return ([] : df), s0)) = (Return d, r) ->
    d = [] \/ _activities_cache s = Some d \/
    exists f rows, activities_file s = Some f /\ content f = Complete rows /\
                   d = sort_values_date_desc rows) as Hfresh.
  { intros r. unfold OptimizedDataManager.load_fresh.
    destruct (activities_file s) as [f|]; simpl.
    2:{ intros H; inversion H; auto. }
    unfold json_load. destruct (read_fails e); simpl.
    { intros H; inversion H; auto. }
    destruct (content f) as [rows|] eqn:Hc; simpl.
    2:{ intros H; inversion H; auto. }
    unfold frame_of_json. destruct (Frame.empty rows); simpl.
    { intros H; inversion H; auto. }
    destruct (has_column "date" rows); simpl.
    - intros H; inversion H; subst. right. right. eauto.
    - intros H; inversion H; auto. }
  destruct (_activities_cache s) as [cached|]; [|apply Hfresh].
  destruct (OptimizedDataManager._is_cache_valid s _); [|apply Hfresh].
  simpl. intros H; inversion H; subst. auto.
Qed.

(** A write that fails leaves [save_activities] of the optimized store
    by an AttributeError: its handler names [json.JSONEncodeError],
    which module [json] does not have. The activities file and the
    cache are as before; the temporary file stays where the write
    stopped. *)
Lemma optimized_save_fault (d : df) (e : env) (s : store) :
  write_fault e <> NoFault ->
  exists s',
    OptimizedDataManager.save_activities d e s = (Raise AttributeError, s') /\
    activities_file s' = activities_file s /\
    _activities_cache s' = _activities_cache s /\
    _activities_cache_timestamp s' = _activities_cache_timestamp s /\
    (write_fault e = OpenFails -> s' = s) /\
    (write_fault e = WriteFails ->
     activities_tmp s' = Some (mkFile Malformed (clock s))) /\
    (write_fault e = ReplaceFails ->
     activities_tmp s' = Some (mkFile (Complete d) (clock s))).
Proof.
  intros Hw. unfold OptimizedDataManager.save_activities,
    OptimizedDataManager.save_activities_trace,
    OptimizedDataManager.write_tmp_and_replace.
  destruct (write_fault e); [congruence| | |]; simpl;
    eexists; (split; [reflexivity|]); repeat split; try discriminate; auto.
Qed.

(** The optimized file store, deleting twice: once the first call has
    returned True, a second call with the same id, at any later time
    and whatever the disk does, returns False and leaves both files as
    the first call left them. *)
Lemma optimized_delete_twice (activity_id : string) (e1 e2 : env) (dt : Z)
  (s s2 : store) :
  OptimizedDataManager.delete_activity activity_id e1 s = (Return true, s2) ->
  exists s3,
    OptimizedDataManager.delete_activity activity_id e2 (tick dt s2)
    = (Return false, s3) /\
    activities_file s3 = activities_file s2 /\
    activities_tmp s3 = activities_tmp s2.
Proof.
  intros Hfirst.
  assert (exists D, _activities_cache s2 = Some D /\
                    (exists t, activities_file s2 = Some (mkFile (Complete D) t)) /\
                    has_id activity_id D = false) as (D & Hcache & (t & Hfile) & HD).
  { unfold OptimizedDataManager.delete_activity in Hfirst.
    destruct (optimized_load_cases e1 s) as (d & Hload).
    assert (exists s1, OptimizedDataManager.load_activities e1 s = (Return d, s1))
      as (s1 & Hl) by (destruct Hload; eauto).
    rewrite Hl in Hfirst. simpl in Hfirst.
    destruct (Frame.empty d || negb (has_id activity_id d)); [discriminate|].
    destruct (write_fault e1) eqn:Hw.
    - rewrite (optimized_save_ok _ _ _ Hw) in Hfirst. simpl in Hfirst.
      inversion Hfirst; subst. exists (drop_id activity_id d).
      split; [reflexivity|]. split; [eexists; reflexivity|].
      apply has_id_drop_id.
    - destruct (optimized_save_fault (drop_id activity_id d) e1 s1)
        as (s' & Hs & _); [congruence|].
      rewrite Hs in Hfirst. discriminate.
    - destruct (optimized_save_fault (drop_id activity_id d) e1 s1)
        as (s' & Hs & _); [congruence|].
      rewrite Hs in Hfirst. discriminate.
    - destruct (optimized_save_fault (drop_id activity_id d) e1 s1)
        as (s' & Hs & _); [congruence|].
      rewrite Hs in Hfirst. discriminate. }
  destruct (optimized_load_cases e2 (tick dt s2)) as (d2 & Hload2).
  assert (exists s3, OptimizedDataManager.load_activities e2 (tick dt s2)
                     = (Return d2, s3)) as (s3 & Hl2) by (destruct Hload2; eauto).
  exists s3.
  destruct (load_keeps_files_optimized _ _ _ _ Hl2) as (Hf & Ht & _).
  split; [|split; [exact Hf | exact Ht]].
  apply (optimized_delete_missing activity_id e2 (tick dt s2) s3 d2 Hl2).
  destruct (optimized_load_from _ _ _ _ Hl2) as [-> | [Hc | (f & rows & Hf' & Hrows & ->)]].
  - reflexivity.
  - simpl in Hc. rewrite Hcache in Hc. inversion Hc; subst. exact HD.
  - simpl in Hf'. rewrite Hfile in Hf'. inversion Hf'; subst.
    simpl in Hrows. inversion Hrows; subst.
    rewrite (has_id_perm activity_id _ rows); [exact HD|].
    unfold sort_values_date_desc. apply merge_sort_Permutation.
Qed.

(** C4, the original file store: [DataManager.delete_activity] does
    not look whether the id is there. For an id no record carries it
    returns True and writes the file again, here in another order than
    the one it had. *)
Lemma legacy_delete_missing_id_returns_true :
  has_id "zz" [Examples.old_walk; Examples.new_swim] = false /\
  DataManager.delete_activity "zz" Examples.calm Examples.two_records
  = (Return true,
     mkStore (Some (mkFile (Complete [Examples.new_swim; Examples.old_walk]) 100))
             None (Some [Examples.new_swim; Examples.old_walk]) 100 100).
Proof. split; vm_compute; reflexivity. Qed.

(** The original file store returns True for every id when the disk
    works. *)
Lemma legacy_delete_always_true (activity_id : string) (e : env) (s : store) :
  write_fault e = NoFault ->
  (DataManager.delete_activity activity_id e s).1 = Return true.
Proof.
  intros Hw. unfold DataManager.delete_activity.
  destruct (legacy_load_cases e s) as (d & [H|H]); rewrite H; simpl;
    rewrite (legacy_save_ok _ _ _ Hw); reflexivity.
Qed.

(** ** Saving: what a reader can see, and failed writes *)

(** The optimized store never shows a reader anything but the old
    activities file or the complete new one. *)
Lemma optimized_save_atomic (d : df) (e : env) (s s' : store) :
  s' ∈ (OptimizedDataManager.save_activities_trace d e s).2 ->
  activities_file s' = activities_file s \/
  activities_file s' = Some (mkFile (Complete d) (clock s)).
Proof.
  unfold OptimizedDataManager.save_activities_trace,
    OptimizedDataManager.write_tmp_and_replace.
  destruct (write_fault e); simpl; intros Hin;
    repeat (apply elem_of_cons in Hin as [->|Hin]; [simpl; auto|]);
    inversion Hin.
Qed.

(** The original store writes in place: unless the file cannot even be
    opened, a reader can find it cut short. *)
Lemma legacy_save_exposes_partial_file (d : df) (e : env) (s : store) :
  write_fault e <> OpenFails ->
  exists s', s' ∈ (DataManager.save_activities_trace d e s).2 /\
             activities_file s' = Some (mkFile Malformed (clock s)).
Proof.
  intros Hw. unfold DataManager.save_activities_trace, DataManager.write_in_place.
  destruct (write_fault e); [| congruence | |]; simpl;
    eexists; (split; [apply list_elem_of_here | reflexivity]).
Qed.

(** A write that fails in the original store returns False and leaves
    the activities file cut short; the cache is not touched. *)
Lemma legacy_save_fault (d : df) (e : env) (s : store) :
  write_fault e = WriteFails ->
  DataManager.save_activities d e s
  = (Return false, set_file (Some (mkFile Malformed (clock s))) s).
Proof.
  intros Hw. unfold DataManager.save_activities, DataManager.save_activities_trace,
    DataManager.write_in_place. rewrite Hw. reflexivity.
Qed.

(** Both stores put the frame in the cache only when the write has
    succeeded. *)
Lemma cache_only_on_success (d : df) (e : env) (s : store) :
  ((DataManager.save_activities d e s).1 <> Return true ->
   _activities_cache (DataManager.save_activities d e s).2 = _activities_cache s) /\
  ((OptimizedDataManager.save_activities d e s).1 <> Return true ->
   _activities_cache (OptimizedDataManager.save_activities d e s).2
   = _activities_cache s).
Proof.
  split.
  - unfold DataManager.save_activities, DataManager.save_activities_trace,
      DataManager.write_in_place.
    destruct (write_fault e); simpl; intros H; try reflexivity; congruence.
  - unfold OptimizedDataManager.save_activities,
      OptimizedDataManager.save_activities_trace,
      OptimizedDataManager.write_tmp_and_replace.
    destruct (write_fault e); simpl; intros H; try reflexivity; congruence.
Qed.

(** C5, the optimized file store with the disk full: [save_activities]
    does not return False. The AttributeError of its own [except]
    clause leaves the call, and the temporary file, cut short, stays on
    the disk. The activities file and the cache are as before. *)
Lemma optimized_save_disk_full_raises :
  OptimizedDataManager.save_activities [Examples.today] Examples.disk_full
    Examples.two_records
  = (Raise AttributeError,
     set_tmp (Some (mkFile Malformed 100)) Examples.two_records).
Proof. vm_compute. reflexivity. Qed.

(** The original file store with the disk full: False is returned,
    and the activities file itself is cut short. *)
Lemma legacy_save_disk_full_truncates :
  DataManager.save_activities [Examples.today] Examples.disk_full
    Examples.two_records
  = (Return false,
     set_file (Some (mkFile Malformed 100)) Examples.two_records).
Proof. vm_compute. reflexivity. Qed.

(** ** Updating *)





Lemma db_update_missing (uid aid : Z) (data : dict) (db : database) :
  first (owned_activity uid aid) (activities db) = None ->
  DatabaseManager.update_activity uid aid data db = (false, db).
Proof.
  intros H. unfold DatabaseManager.update_activity.
  change (fun a => (activity_id a =? aid) && (activity_user_id a =? uid))
    with (owned_activity uid aid). rewrite H. reflexivity.
Qed.




(** ** Ownership of weight entries *)

(** C7, the original relational store: [update_weight_entry] and
    [delete_weight_entry] take no user and look the entry up by its id
    alone. Bob's entry 1 is changed, and deleted, by whoever calls. *)
Lemma legacy_weight_entry_not_scoped :
  entry_user_id Examples.bobs_entry = 2 /\
  DatabaseManager.update_weight_entry 1 (VFloat (FFinite (50 # 1))) (VDatetime 9)
    Examples.two_users
  = (true,
     set_weight_entries
       [mkWeightEntry 1 2 (VFloat (FFinite (50 # 1))) (VDatetime 9) 0]
       Examples.two_users) /\
  DatabaseManager.delete_weight_entry 1 Examples.two_users
  = (true, set_weight_entries [] Examples.two_users).
Proof. repeat split. Qed.

(** The activity operations of the same class are scoped: the id of an
    activity of another user is not found. *)
Lemma legacy_activity_operations_scoped (uid aid : Z) (data : dict)
  (db : database) :
  (forall a, a ∈ activities db -> Schema.activity_id a = aid ->
             activity_user_id a <> uid) ->
  DatabaseManager.delete_activity uid aid db = (false, db) /\
  DatabaseManager.update_activity uid aid data db = (false, db).
Proof.
  intros Hother.
  assert (first (owned_activity uid aid) (activities db) = None) as Hnone.
  { unfold first. destruct (find _ _) as [a|] eqn:E; [exfalso|reflexivity].
    apply find_some in E as [Hin H]. unfold owned_activity in H.
    apply andb_true_iff in H as [H1 H2].
    apply Z.eqb_eq in H1, H2.
    apply (Hother a); [apply list_elem_of_In; exact Hin | exact H1 | exact H2]. }
  split; [|apply db_update_missing; exact Hnone].
  unfold DatabaseManager.delete_activity.
  change (fun a => (Schema.activity_id a =? aid) && (activity_user_id a =? uid))
    with (owned_activity uid aid). rewrite Hnone. reflexivity.
Qed.

(** The optimized relational store scopes [delete_weight_entry]: the
    entry of another user is not found, the call returns False and the
    database is as it was. *)
Lemma optimized_delete_weight_entry_scoped (uid eid : Z) (db : database) :
  (forall w, w ∈ weight_entries db -> entry_id w = eid -> entry_user_id w <> uid) ->
  OptimizedDatabaseManager.delete_weight_entry uid eid db = (false, db).
Proof.
  intros Hother. unfold OptimizedDatabaseManager.delete_weight_entry, first.
  destruct (find _ _) as [w|] eqn:E; [exfalso|reflexivity].
  apply find_some in E as [Hin H]. apply andb_true_iff in H as [H1 H2].
  apply Z.eqb_eq in H1, H2.
  apply (Hother w); [apply list_elem_of_In; exact Hin | exact H1 | exact H2].
Qed.

(** ** Friendships *)

(** C8, the original relational store: [DatabaseManager.add_friend]
    has no test for one's own name, and adds one row. Alice befriends
    herself; and after Alice has added Bob, Bob's friends do not
    include Alice. *)
Lemma legacy_add_friend_self_and_one_way :
  DatabaseManager.add_friend 1 "alice" Examples.two_users
  = ((true, "Friend added successfully"),
     set_friendships {[ (1, 1) ]} Examples.two_users) /\
  DatabaseManager.add_friend 1 "bob" Examples.two_users
  = ((true, "Friend added successfully"),
     set_friendships {[ (1, 2) ]} Examples.two_users) /\
  friends (set_friendships {[ (1, 2) ]} Examples.two_users) Examples.alice
  = [Examples.bob] /\
  friends (set_friendships {[ (1, 2) ]} Examples.two_users) Examples.bob = [].
Proof. repeat split; vm_compute; reflexivity. Qed.

Lemma first_some {A : Type} (p : A -> bool) (table : list A) (x : A) :
  first p table = Some x -> x ∈ table /\ p x = true.
Proof.
  unfold first. intros H. apply find_some in H as [Hin Hp].
  split; [apply list_elem_of_In; exact Hin | exact Hp].
Qed.

Lemma friends_elem (db : database) (u f : User) :
  f ∈ friends db u <-> f ∈ users db /\ (user_id u, user_id f) ∈ friendships db.
Proof.
  unfold friends. rewrite !list_elem_of_In, filter_In, bool_decide_eq_true.
  reflexivity.
Qed.

(** Every refusal of the optimized [add_friend] leaves the database as
    it was. *)
Lemma optimized_add_friend_refusal (uid : Z) (name : string) (db db' : database)
  (msg : string) :
  OptimizedDatabaseManager.add_friend uid name db = ((false, msg), db') ->
  db' = db.
Proof.
  unfold OptimizedDatabaseManager.add_friend.
  destruct (first _ (users db)) as [friend|]; [|intros H; inversion H; reflexivity].
  destruct (user_id friend =? uid); [intros H; inversion H; reflexivity|].
  destruct (first _ (users db)) as [user|]; [|intros H; inversion H; reflexivity].
  destruct (is_friend db user friend); intros H; inversion H; reflexivity.
Qed.

(** The optimized [add_friend]: it refuses a name no user has, the
    caller's own name, and a user who is already a friend; when it
    succeeds, each of the two users is in the friends list of the
    other. *)
Lemma optimized_add_friend_symmetric (uid : Z) (name : string) (db : database) :
  ((forall u, u ∈ users db -> username u <> name) ->
   OptimizedDatabaseManager.add_friend uid name db = ((false, "User not found"), db)) /\
  (forall friend,
     first (fun u => String.eqb (username u) name) (users db) = Some friend ->
     (user_id friend = uid ->
      OptimizedDatabaseManager.add_friend uid name db
      = ((false, "Cannot add yourself as friend"), db)) /\
     (forall user,
        user_id friend <> uid ->
        first (fun u => user_id u =? uid) (users db) = Some user ->
        (friend ∈ friends db user ->
         OptimizedDatabaseManager.add_friend uid name db
         = ((false, "Already friends"), db)) /\
        (friend ∉ friends db user ->
         exists db',
           OptimizedDatabaseManager.add_friend uid name db
           = ((true, "Friend added successfully"), db') /\
           friend ∈ OptimizedDatabaseManager.get_user_friends uid db' /\
           user ∈ OptimizedDatabaseManager.get_user_friends (user_id friend) db'))).
Proof.
  split.
  - intros Hnone. unfold OptimizedDatabaseManager.add_friend.
    destruct (first _ (users db)) as [friend|] eqn:E; [exfalso|reflexivity].
    apply first_some in E as [Hin Hname]. apply String.eqb_eq in Hname.
    exact (Hnone friend Hin Hname).
  - intros friend Hfriend. unfold OptimizedDatabaseManager.add_friend.
    rewrite Hfriend. split.
    + intros ->. rewrite Z.eqb_refl. reflexivity.
    + intros user Hne Huser.
      destruct (Z.eqb_spec (user_id friend) uid) as [Heq|_]; [contradiction|].
      rewrite Huser.
      apply first_some in Hfriend as [Hfin _].
      pose proof (first_some _ _ _ Huser) as [Huin Huid].
      apply Z.eqb_eq in Huid.
      assert (is_friend db user friend = true <-> friend ∈ friends db user) as Hiff.
      { unfold is_friend. rewrite existsb_exists. split.
        - intros (f & Hf & Hid). apply Z.eqb_eq in Hid.
          apply list_elem_of_In in Hf. apply friends_elem in Hf as [_ Hf].
          apply friends_elem. split; [exact Hfin|]. rewrite <- Hid. exact Hf.
        - intros Hf. exists friend. split; [apply list_elem_of_In; exact Hf|].
          apply Z.eqb_refl. }
      split.
      * intros Hf. apply Hiff in Hf. rewrite Hf. reflexivity.
      * intros Hnf. destruct (is_friend db user friend) eqn:E.
        { exfalso. apply Hnf, Hiff. reflexivity. }
        eexists. split; [reflexivity|].
        unfold OptimizedDatabaseManager.get_user_friends. simpl.
        rewrite Huser.
        assert (exists friend', first (fun u => user_id u =? user_id friend)
                                      (users db) = Some friend'
                                /\ user_id friend' = user_id friend)
          as (friend' & Hf' & Hid').
        { unfold first. destruct (find _ (users db)) as [x|] eqn:Efind.
          - exists x. split; [reflexivity|].
            apply find_some in Efind as [_ H]. apply Z.eqb_eq in H. exact H.
          - exfalso. apply list_elem_of_In in Hfin.
            pose proof (find_none _ _ Efind friend Hfin) as H.
            simpl in H. rewrite Z.eqb_refl in H. discriminate. }
        rewrite Hf'. split; apply friends_elem; simpl.
        -- split; [exact Hfin|].
           apply elem_of_union_r, elem_of_union_l, elem_of_singleton. reflexivity.
        -- split; [exact Huin|]. rewrite Hid'.
           apply elem_of_union_l, elem_of_singleton. reflexivity.
Qed.

(** ** Accounts *)

(** C9, the original relational store: [DatabaseManager.create_user]
    has no bound on the length of the username, and one message for
    both constraints. The two-letter name "ab" is registered; a second
    "bob" is refused with "Username or email already exists". *)
Lemma legacy_create_user_no_length_bound :
  String.length "ab" = 2%nat /\
  DatabaseManager.create_user "ab" "ab@x.com" "secret1" Examples.plain_env
    Examples.no_users
  = ((Some (mkUser 1 "ab" "ab@x.com" "$2b$saltsecret1" 7 None "en" false None),
      "User created successfully"),
     set_users [mkUser 1 "ab" "ab@x.com" "$2b$saltsecret1" 7 None "en" false None]
               2 Examples.no_users) /\
  DatabaseManager.create_user "bob" "bob@x.com" "secret1" Examples.plain_env
    Examples.two_users
  = ((None, "Username or email already exists"), Examples.two_users).
Proof. repeat split. Qed.

Lemma first_none {A : Type} (p : A -> bool) (table : list A) :
  (forall x, x ∈ table -> p x = false) -> first p table = None.
Proof.
  intros H. unfold first. destruct (find p table) as [x|] eqn:E; [|reflexivity].
  apply find_some in E as [Hin Hp]. apply list_elem_of_In in Hin.
  rewrite (H x Hin) in Hp. discriminate.
Qed.

Lemma first_app_new {A : Type} (p : A -> bool) (table : list A) (x : A) :
  first p table = None -> p x = true -> first p (table ++ [x]) = Some x.
Proof.
  unfold first. induction table as [|y table IH]; simpl.
  - intros _ ->. reflexivity.
  - destruct (p y); [discriminate|]. exact IH.
Qed.

(** The optimized [create_user]: a name shorter than 3 or longer than
    50 characters is refused and nothing is stored. *)
Lemma optimized_create_user_length (name mail password : string) (e : db_env)
  (db : database) :
  (String.length name < 3 \/ 50 < String.length name)%nat ->
  exists msg,
    OptimizedDatabaseManager.create_user name mail password e db
    = ((None, msg), db).
Proof.
  intros Hlen. unfold OptimizedDatabaseManager.create_user,
    Constants.username_min_length, Constants.username_max_length.
  destruct (Z.ltb_spec (Z.of_nat (String.length name)) 3); [eauto|].
  destruct (Z.ltb_spec 50 (Z.of_nat (String.length name))); [eauto|].
  lia.
Qed.

(** The optimized [create_user], twice: with a name of 3 to 50
    characters and a password of at least 6 that no user of the
    database shares the name or the e-mail of, the first call stores
    one new user whose credential is the bcrypt hash of the password
    under the salt drawn. A second call with the same name, and an
    e-mail that is the same or no other user's, is refused with
    "Username already exists" and stores nothing. *)
Lemma optimized_create_user_twice (name mail password mail2 password2 : string)
  (e e2 : db_env) (db : database) :
  (3 <= String.length name <= 50)%nat ->
  (6 <= String.length password)%nat ->
  (forall u, u ∈ users db -> username u <> name /\ email u <> mail) ->
  (forall u, u ∈ users db -> email u <> mail2) ->
  exists user db1,
    OptimizedDatabaseManager.create_user name mail password e db
    = ((Some user, "User created successfully"), db1) /\
    users db1 = users db ++ [user] /\
    username user = name /\ email user = mail /\
    password_hash user = hashpw e password (gensalt e) /\
    OptimizedDatabaseManager.create_user name mail2 password2 e2 db1
    = ((None, "Username already exists"), db1).
Proof.
  intros Hlen Hpw Hfree Hfree2.
  unfold OptimizedDatabaseManager.create_user at 1.
  unfold Constants.username_min_length, Constants.username_max_length.
  destruct (Z.ltb_spec (Z.of_nat (String.length name)) 3); [lia|].
  destruct (Z.ltb_spec 50 (Z.of_nat (String.length name))); [lia|].
  rewrite first_none.
  2:{ intros u Hu. destruct (Hfree u Hu) as [Hn Hm].
      apply orb_false_iff. split; apply String.eqb_neq; assumption. }
  unfold OptimizedDatabaseManager.set_password, Constants.password_min_length.
  destruct (Z.ltb_spec (Z.of_nat (String.length password)) 6); [lia|].
  eexists. eexists. split; [reflexivity|]. simpl.
  repeat (split; [reflexivity|]).
  unfold OptimizedDatabaseManager.create_user.
  unfold Constants.username_min_length, Constants.username_max_length.
  destruct (Z.ltb_spec (Z.of_nat (String.length name)) 3); [lia|].
  destruct (Z.ltb_spec 50 (Z.of_nat (String.length name))); [lia|].
  simpl. rewrite (first_app_new _ _ _).
  - simpl. rewrite String.eqb_refl. reflexivity.
  - apply first_none. intros u Hu. destruct (Hfree u Hu) as [Hn _].
    apply orb_false_iff. split; apply String.eqb_neq; [exact Hn|].
    exact (Hfree2 u Hu).
  - simpl. rewrite String.eqb_refl. reflexivity.
Qed.

(** ** The cap on [get_user_activities] *)

Global Instance activity_newer_total : Total activity_newer.
Proof.
  intros a b. unfold activity_newer.
  destruct (datetime_of (date a)), (datetime_of (date b)); auto. lia.
Qed.

Global Instance activity_newer_trans : Transitive activity_newer.
Proof.
  intros a b c. unfold activity_newer.
  destruct (datetime_of (date a)), (datetime_of (date b)),
    (datetime_of (date c)); auto; try contradiction. lia.
Qed.

Lemma filter_sublist {A : Type} (p : A -> bool) (l : list A) :
  sublist (List.filter p l) l.
Proof.
  induction l as [|x l IH]; simpl; [constructor|].
  destruct (p x); [apply sublist_skip | apply sublist_cons]; exact IH.
Qed.

(** The first [n] rows of a newest-first ordering: together with the
    rows left out they are the rows selected, and no row left out is
    newer than a row returned. *)
Lemma limit_of_sorted (n : nat) (rows : list Activity) :
  let sorted := order_by_date_desc rows in
  length (limit n sorted) = Nat.min n (length rows) /\
  limit n sorted ++ drop n sorted ≡ₚ rows /\
  StronglySorted activity_newer (limit n sorted) /\
  (forall a b, a ∈ limit n sorted -> b ∈ drop n sorted -> activity_newer a b).
Proof.
  intros sorted. unfold limit.
  assert (sorted ≡ₚ rows) as Hperm by apply merge_sort_Permutation.
  assert (StronglySorted activity_newer sorted) as Hsorted
    by (apply StronglySorted_merge_sort; apply _).
  split; [rewrite length_take, Hperm; reflexivity|].
  split; [rewrite take_drop; exact Hperm|].
  rewrite <- (take_drop n sorted) in Hsorted.
  split; [eapply StronglySorted_app_1_l; exact Hsorted|].
  intros a b Ha Hb. eapply StronglySorted_app_1_elem_of; eassumption.
Qed.

(** C10: the original [get_user_activities], and the optimized one
    called without a limit, return the same list of at most 1000
    activities for every user and period. The list is the newest-first
    ordering of the user's activities of the period (for "All time",
    all the user's activities) cut after 1000 rows: it has 1000 rows
    whenever more than 1000 match, and no row left out is newer than a
    row returned. With a limit [n] other than 0 the optimized store
    returns at most [n] rows. *)
Theorem get_user_activities_capped
  (uid : Z) (period : string) (lim : option nat) (e : db_env) (db : database) :
  let result := DatabaseManager.get_user_activities uid period e db in
  OptimizedDatabaseManager.get_user_activities uid period None e db = result /\
  (length result <= 1000)%nat /\
  (length (OptimizedDatabaseManager.get_user_activities uid period lim e db)
   <= OptimizedDatabaseManager.limit_or_1000 lim)%nat /\
  exists matching omitted,
    sublist matching (of_user uid db) /\
    (period = "All time" -> matching = of_user uid db) /\
    length result = Nat.min 1000 (length matching) /\
    result ++ omitted ≡ₚ matching /\
    StronglySorted activity_newer result /\
    (forall a b, a ∈ result -> b ∈ omitted -> activity_newer a b).
Proof.
  intros result. subst result.
  unfold DatabaseManager.get_user_activities,
    OptimizedDatabaseManager.get_user_activities.
  change (OptimizedDatabaseManager.period_start period (db_now e))
    with (DatabaseManager.period_start period (db_now e)).
  change (List.filter (fun a => activity_user_id a =? uid) (activities db))
    with (of_user uid db).
  set (query :=
    if negb (String.eqb period "All time")
    then match DatabaseManager.period_start period (db_now e) with
         | Some start_date => List.filter (activity_date_ge start_date) (of_user uid db)
         | None => of_user uid db
         end
    else of_user uid db).
  split; [reflexivity|].
  destruct (limit_of_sorted 1000 query) as (Hlen & Hperm & Hsorted & Hnewer).
  split; [rewrite Hlen; lia|].
  split.
  { destruct (limit_of_sorted (OptimizedDatabaseManager.limit_or_1000 lim) query)
      as (Hlen' & _). rewrite Hlen'. lia. }
  exists query, (drop 1000 (order_by_date_desc query)).
  split.
  { subst query. destruct (negb (String.eqb period "All time")); [|reflexivity].
    destruct (DatabaseManager.period_start period (db_now e));
      [apply filter_sublist | reflexivity]. }
  split.
  { intros ->. reflexivity. }
  split; [exact Hlen|]. split; [exact Hperm|]. split; [exact Hsorted|].
  exact Hnewer.
Qed.

(** Witness of [get_user_activities_capped]: Bob's activities of all
    time in a database of two activities. *)
Lemma get_user_activities_capped_witness :
  DatabaseManager.get_user_activities 2 "All time" Examples.plain_env
    Examples.two_activities = [Examples.bobs_run] /\
  (length (DatabaseManager.get_user_activities 2 "All time" Examples.plain_env
             Examples.two_activities) <= 1000)%nat.
Proof.
  split; [vm_compute; reflexivity|].
  apply (get_user_activities_capped 2 "All time" None Examples.plain_env
           Examples.two_activities).
Defined.

(** * The rest of the file stores *)

(** ** Clearing the activities *)

(** X1: once [clear_all_activities] has written the empty list, the
    next [load_activities] returns no record, at any later time,
    whatever the cache held before and whether or not the file can be
    read then. The same holds in the optimized store. *)
Theorem clear_then_load_is_empty (e e' : env) (dt : Z) (s : store) :
  write_fault e = NoFault ->
  (exists s1 s2,
     DataManagerRest.clear_all_activities e s = (Return true, s1) /\
     activities_file s1 = Some (mkFile (Complete []) (clock s)) /\
     DataManager.load_activities e' (tick dt s1) = (Return [], s2)) /\
  (exists s1 s2,
     OptimizedDataManagerRest.clear_all_activities e s = (Return true, s1) /\
     activities_file s1 = Some (mkFile (Complete []) (clock s)) /\
     OptimizedDataManager.load_activities e' (tick dt s1) = (Return [], s2)).
Proof.
  intros Hw. split.
  - unfold DataManagerRest.clear_all_activities, DataManager.write_in_place.
    rewrite Hw. simpl. eexists.
    assert (exists s2,
      DataManager.load_activities e'
        (tick dt (DataManagerRest.reset_cache
                    (set_file (Some (mkFile (Complete []) (clock s))) s)))
      = (Return [], s2)) as (s2 & Hs2).
    { unfold DataManager.load_activities, DataManager.load_activities_body. simpl.
      destruct (clock s <=? 0); [eexists; reflexivity|].
      unfold json_load. simpl. destruct (read_fails e'); eexists; reflexivity. }
    exists s2. split; [reflexivity|]. split; [reflexivity | exact Hs2].
  - unfold OptimizedDataManagerRest.clear_all_activities, DataManager.write_in_place.
    rewrite Hw. simpl.
    eexists.
    assert (exists s2,
      OptimizedDataManager.load_activities e'
        (tick dt (DataManagerRest.reset_cache
                    (set_file (Some (mkFile (Complete []) (clock s))) s)))
      = (Return [], s2)) as (s2 & Hs2).
    { unfold OptimizedDataManager.load_activities,
        OptimizedDataManager._is_cache_valid. simpl.
      destruct ((clock s <=? 0)
                && (clock s + dt - 0 <? OptimizedDataManager.max_cache_age));
        [eexists; reflexivity|].
      unfold OptimizedDataManager.load_fresh, json_load. simpl.
      destruct (read_fails e'); eexists; reflexivity. }
    exists s2. split; [reflexivity|]. split; [reflexivity | exact Hs2].
Qed.

(** Witness of [clear_then_load_is_empty]: the store of two records. *)
Lemma clear_then_load_is_empty_witness :
  exists s1 s2,
    DataManagerRest.clear_all_activities Examples.calm Examples.two_records
    = (Return true, s1) /\
    DataManager.load_activities Examples.calm (tick 5 s1) = (Return [], s2).
Proof.
  destruct (clear_then_load_is_empty Examples.calm Examples.calm 5
              Examples.two_records eq_refl)
    as ((s1 & s2 & H1 & _ & H2) & _).
  exists s1, s2. split; assumption.
Defined.

(** ** The most recent activities *)

Global Instance newer_total : Total newer.
Proof.
  intros a b. unfold newer. destruct (date_of a), (date_of b); auto. lia.
Qed.

Global Instance newer_trans : Transitive newer.
Proof.
  intros a b c. unfold newer.
  destruct (date_of a), (date_of b), (date_of c); auto; try contradiction. lia.
Qed.

(** The first [n] elements of a sorted list, and the rest. *)
Lemma take_of_sorted {A : Type} (R : relation A) `{!RelDecision R}
  `{!Total R} `{!Transitive R} (n : nat) (l : list A) :
  let sorted := merge_sort R l in
  length (take n sorted) = Nat.min n (length l) /\
  take n sorted ++ drop n sorted ≡ₚ l /\
  StronglySorted R (take n sorted) /\
  (forall a b, a ∈ take n sorted -> b ∈ drop n sorted -> R a b).
Proof.
  intros sorted.
  assert (sorted ≡ₚ l) as Hperm by apply merge_sort_Permutation.
  assert (StronglySorted R sorted) as Hsorted
    by (apply StronglySorted_merge_sort; apply _).
  split; [rewrite length_take, Hperm; reflexivity|].
  split; [rewrite take_drop; exact Hperm|].
  rewrite <- (take_drop n sorted) in Hsorted.
  split; [eapply StronglySorted_app_1_l; exact Hsorted|].
  intros a b Ha Hb. eapply StronglySorted_app_1_elem_of; eassumption.
Qed.

(** X2: read from the file by a store with no cache,
    [get_recent_activities(limit)] of both file stores returns the
    [limit] newest records, newest first: as many as asked for or all
    there are, and no record left out is newer than one returned. *)
Theorem get_recent_activities_newest
  (limit : Z) (e : env) (s : store) (f : file) (rows : df) :
  0 <= limit ->
  activities_file s = Some f -> content f = Complete rows ->
  _activities_cache s = None -> read_fails e = false ->
  (Frame.empty rows = false -> has_column "date" rows = true) ->
  exists recent omitted s1,
    DataManagerRest.get_recent_activities limit e s = (Return recent, s1) /\
    OptimizedDataManagerRest.get_recent_activities limit e s = (Return recent, s1) /\
    length recent = Nat.min (Z.to_nat limit) (length rows) /\
    recent ++ omitted ≡ₚ rows /\
    StronglySorted newer recent /\
    (forall a b, a ∈ recent -> b ∈ omitted -> newer a b).
Proof.
  intros Hlim Hf Hc Hcache Hr Hcol.
  unfold DataManagerRest.get_recent_activities,
    OptimizedDataManagerRest.get_recent_activities,
    DataManager.load_activities, DataManager.load_activities_body,
    OptimizedDataManager.load_activities, OptimizedDataManager.load_fresh,
    json_load, frame_of_json.
  rewrite Hf, Hcache, Hr, Hc. simpl.
  destruct rows as [|r rows'] eqn:Hrows.
  - simpl. exists [], [], (set_cache [] s).
    unfold DataManagerRest.head. destruct (0 <=? limit); simpl.
    + rewrite take_nil. repeat split; try reflexivity; try constructor.
      * rewrite Nat.min_0_r. reflexivity.
      * intros a b Ha. inversion Ha.
    + repeat split; try reflexivity; try constructor.
      * rewrite Nat.min_0_r. reflexivity.
      * intros a b Ha. inversion Ha.
  - rewrite <- Hrows in *. assert (Frame.empty rows = false) as Hne
      by (subst rows; reflexivity).
    rewrite Hne, (Hcol Hne). simpl.
    assert (Frame.empty (sort_values_date_desc rows) = false) as Hne'.
    { destruct (sort_values_date_desc rows) eqn:E; [|reflexivity].
      pose proof (merge_sort_Permutation newer rows) as Hp.
      unfold sort_values_date_desc in E. rewrite E in Hp.
      apply Permutation_nil_l in Hp. subst rows. discriminate. }
    rewrite Hne'. simpl.
    unfold DataManagerRest.head.
    destruct (Z.leb_spec 0 limit) as [_|Hneg]; [|lia].
    destruct (take_of_sorted newer (Z.to_nat limit) rows) as (H1 & H2 & H3 & H4).
    exists (take (Z.to_nat limit) (sort_values_date_desc rows)),
           (drop (Z.to_nat limit) (sort_values_date_desc rows)),
           (set_cache (sort_values_date_desc rows) s).
    repeat split; assumption || reflexivity.
Qed.

(** Witness of [get_recent_activities_newest]: the two newest of three
    records. *)
Lemma get_recent_activities_newest_witness :
  exists s1,
    DataManagerRest.get_recent_activities 2 Examples.calm Examples.three_records
    = (Return [Examples.today; Examples.ten_days_ago], s1).
Proof.
  destruct (get_recent_activities_newest 2 Examples.calm Examples.three_records
              (mkFile (Complete [Examples.forty_days_ago; Examples.ten_days_ago;
                                 Examples.today]) 50)
              [Examples.forty_days_ago; Examples.ten_days_ago; Examples.today])
    as (recent & omitted & s1 & H1 & _);
    try reflexivity; try lia.
  exists s1. rewrite H1. f_equal. f_equal.
  assert (DataManagerRest.get_recent_activities 2 Examples.calm
            Examples.three_records
          = (Return [Examples.today; Examples.ten_days_ago],
             set_cache [Examples.today; Examples.ten_days_ago;
                        Examples.forty_days_ago] Examples.three_records)) as H
    by (vm_compute; reflexivity).
  rewrite H in H1. inversion H1. reflexivity.
Defined.

(** ** Adding: dates that cannot be used, files that cannot be read,
       writes that fail *)

Lemma prepare_bad_date (e : env) (data : dict) :
  data !! "date" = None \/
  (exists t, data !! "date" = Some (VStr t) /\ fromisoformat e t = None) ->
  prepare_activity e data = Raise KeyError \/
  prepare_activity e data = Raise ValueError.
Proof.
  unfold prepare_activity. rewrite lookup_insert_ne by discriminate.
  intros [H | (t & H & Hp)]; rewrite H; [left; reflexivity|].
  rewrite Hp. right. reflexivity.
Qed.

(** X3: an activity without a date, or with a date text that
    [datetime.fromisoformat] rejects, is refused by both file stores:
    the call returns False and neither the activities file nor the
    temporary file is touched. *)
Theorem add_activity_refuses_bad_date (activity_data : dict) (e : env) (s : store) :
  activity_data !! "date" = None \/
  (exists t, activity_data !! "date" = Some (VStr t) /\ fromisoformat e t = None) ->
  (exists s1,
     DataManager.add_activity activity_data e s = (Return false, s1) /\
     activities_file s1 = activities_file s /\
     activities_tmp s1 = activities_tmp s) /\
  (exists s1,
     OptimizedDataManager.add_activity activity_data e s = (Return false, s1) /\
     activities_file s1 = activities_file s /\
     activities_tmp s1 = activities_tmp s).
Proof.
  intros Hbad. split.
  - destruct (legacy_load_cases e s) as (d & Hload).
    assert (exists s1, DataManager.load_activities e s = (Return d, s1)
                       /\ activities_file s1 = activities_file s
                       /\ activities_tmp s1 = activities_tmp s)
      as (s1 & Hl & Hf & Ht).
    { destruct Hload as [H|H]; eexists; (split; [exact H|]); split; reflexivity. }
    exists s1. split; [|split; assumption].
    unfold DataManager.add_activity. rewrite Hl. simpl.
    destruct (prepare_bad_date e activity_data Hbad) as [-> | ->]; reflexivity.
  - unfold OptimizedDataManager.add_activity.
    destruct (OptimizedDataManager._validate_activity_data activity_data)
      as [[|]|x] eqn:Hv; simpl.
    + destruct (optimized_load_cases e s) as (d & Hload).
      assert (exists s1, OptimizedDataManager.load_activities e s = (Return d, s1)
                         /\ activities_file s1 = activities_file s
                         /\ activities_tmp s1 = activities_tmp s)
        as (s1 & Hl & Hf & Ht).
      { destruct Hload as [H|H]; eexists; (split; [exact H|]); split; reflexivity. }
      exists s1. split; [|split; assumption]. rewrite Hl. simpl.
      destruct Hbad as [Hnone | (t & Hd & Hp)].
      * exfalso. unfold OptimizedDataManager._validate_activity_data in Hv.
        simpl in Hv. rewrite Hnone in Hv.
        rewrite (bool_decide_eq_false_2 (is_Some None)) in Hv
          by (intros [? ?]; discriminate).
        rewrite !andb_false_r in Hv. simpl in Hv. discriminate.
      * unfold prepare_activity. rewrite lookup_insert_ne by discriminate.
        rewrite Hd, Hp. reflexivity.
    + exists s. auto.
    + exists s. split; [|auto].
      unfold OptimizedDataManager._validate_activity_data in Hv.
      destruct (negb _); [discriminate|].
      destruct (_ || _); [discriminate|].
      destruct (default (VStr "") (activity_data !! "description"));
        simpl in Hv; try (inversion Hv; subst; reflexivity).
      destruct (_ <? _); discriminate.
Qed.

(** Witness of [add_activity_refuses_bad_date]: a run dated "soon". *)
Lemma add_activity_refuses_bad_date_witness :
  exists s1,
    DataManager.add_activity
      (<["date" := VStr "soon"]> Examples.morning_run) Examples.calm
      Examples.two_records = (Return false, s1) /\
    activities_file s1 = activities_file Examples.two_records.
Proof.
  destruct (add_activity_refuses_bad_date
              (<["date" := VStr "soon"]> Examples.morning_run) Examples.calm
              Examples.two_records) as ((s1 & H1 & H2 & _) & _).
  { right. exists "soon". split; reflexivity. }
  exists s1. split; assumption.
Defined.

(** X4: when the cache is empty and the activities file cannot be read
    (the read fails, or the text is not JSON), [load_activities]
    returns no record and [add_activity] goes on: with a working write
    it returns True and the file then holds the new record alone. Both
    file stores do so. *)
Theorem add_activity_after_failed_read
  (activity_data : dict) (e : env) (s : store) (f : file) :
  valid_activity activity_data ->
  activities_file s = Some f -> _activities_cache s = None ->
  read_fails e = true \/ content f = Malformed ->
  write_fault e = NoFault ->
  let row := <["id" := VStr (uuid4 e)]> activity_data in
  (exists s1,
     DataManager.add_activity activity_data e s = (Return true, s1) /\
     activities_file s1 = Some (mkFile (Complete [row]) (clock s))) /\
  (exists s1,
     OptimizedDataManager.add_activity activity_data e s = (Return true, s1) /\
     activities_file s1 = Some (mkFile (Complete [row]) (clock s))).
Proof.
  intros Hvalid Hf Hcache Hread Hw row.
  assert (json_load e f = Raise OSError \/ json_load e f = Raise JSONDecodeError)
    as Hjson.
  { unfold json_load. destruct Hread as [-> | Hc]; [left; reflexivity|].
    destruct (read_fails e); [left; reflexivity|]. rewrite Hc. right. reflexivity. }
  split.
  - assert (DataManager.load_activities e s = (Return [], s)) as Hl.
    { unfold DataManager.load_activities, DataManager.load_activities_body.
      rewrite Hf, Hcache. destruct Hjson as [-> | ->]; reflexivity. }
    unfold DataManager.add_activity. rewrite Hl. simpl.
    rewrite (prepare_valid _ _ Hvalid). simpl.
    rewrite (legacy_save_ok _ _ _ Hw). simpl.
    eexists. split; reflexivity.
  - assert (OptimizedDataManager.load_activities e s = (Return [], s)) as Hl.
    { unfold OptimizedDataManager.load_activities, OptimizedDataManager.load_fresh.
      rewrite Hf, Hcache. destruct Hjson as [-> | ->]; reflexivity. }
    unfold OptimizedDataManager.add_activity.
    rewrite (validate_accepts _ Hvalid). simpl. rewrite Hl. simpl.
    rewrite (prepare_valid _ _ Hvalid). simpl.
    rewrite (optimized_save_ok _ _ _ Hw). simpl.
    eexists. split; reflexivity.
Qed.

Lemma morning_run_valid : valid_activity Examples.morning_run.
Proof.
  constructor.
  - vm_compute. eauto.
  - exists (VInt 30). split; [vm_compute; reflexivity|].
    exists (inject_Z 30). split; [reflexivity|].
    rewrite <- !Zle_Qle. lia.
  - right. left. vm_compute. reflexivity.
  - eexists. vm_compute. reflexivity.
  - right. exists "easy". split; [vm_compute; reflexivity | simpl; lia].
Qed.

(** Witness of [add_activity_after_failed_read]: a file that is not
    JSON is replaced by a file of one record. *)
Lemma add_activity_after_failed_read_witness :
  exists s1,
    DataManager.add_activity Examples.morning_run Examples.calm
      (mkStore (Some (mkFile Malformed 50)) None None 0 100) = (Return true, s1) /\
    activities_file s1
    = Some (mkFile (Complete [Examples.stored "3f2a" Examples.morning_run]) 100).
Proof.
  destruct (add_activity_after_failed_read Examples.morning_run Examples.calm
              (mkStore (Some (mkFile Malformed 50)) None None 0 100)
              (mkFile Malformed 50) morning_run_valid eq_refl eq_refl
              (or_intror eq_refl) eq_refl) as ((s1 & H1 & H2) & _).
  exists s1. split; assumption.
Defined.

(** X5: when the write fails, [add_activity] of the optimized store
    does not return: the AttributeError of [save_activities] is none of
    the exceptions it catches. [delete_activity], which catches every
    exception, returns False. Neither changes the activities file. *)
Theorem optimized_write_fault_outcomes
  (activity_data : dict) (activity_id : string) (e : env) (s : store) :
  write_fault e <> NoFault ->
  (valid_activity activity_data ->
   exists s1,
     OptimizedDataManager.add_activity activity_data e s = (Raise AttributeError, s1) /\
     activities_file s1 = activities_file s) /\
  (exists s1,
     OptimizedDataManager.delete_activity activity_id e s = (Return false, s1) /\
     activities_file s1 = activities_file s).
Proof.
  intros Hw.
  destruct (optimized_load_cases e s) as (d & Hload).
  assert (exists s1, OptimizedDataManager.load_activities e s = (Return d, s1)
                     /\ activities_file s1 = activities_file s)
    as (s1 & Hl & Hf).
  { destruct Hload as [H|H]; eexists; (split; [exact H | reflexivity]). }
  split.
  - intros Hvalid. unfold OptimizedDataManager.add_activity.
    rewrite (validate_accepts _ Hvalid). simpl. rewrite Hl. simpl.
    rewrite (prepare_valid _ _ Hvalid). simpl. rewrite append_row_neg.
    destruct (optimized_save_fault
                (d ++ [<["id" := VStr (uuid4 e)]> activity_data]) e s1 Hw)
      as (s' & Hs & Hf' & _).
    rewrite Hs. simpl. exists s'. split; [reflexivity|]. congruence.
  - unfold OptimizedDataManager.delete_activity. rewrite Hl. simpl.
    destruct (Frame.empty d || negb (has_id activity_id d)).
    + exists s1. split; [reflexivity | exact Hf].
    + destruct (optimized_save_fault (drop_id activity_id d) e s1 Hw)
        as (s' & Hs & Hf' & _).
      rewrite Hs. simpl. exists s'. split; [reflexivity|]. congruence.
Qed.

(** Witness of [optimized_write_fault_outcomes]: the disk is full. *)
Lemma optimized_write_fault_outcomes_witness :
  exists s1,
    OptimizedDataManager.add_activity Examples.morning_run Examples.disk_full
      Examples.two_records = (Raise AttributeError, s1) /\
    activities_file s1 = activities_file Examples.two_records.
Proof.
  destruct (optimized_write_fault_outcomes Examples.morning_run "a1"
              Examples.disk_full Examples.two_records) as (Hadd & _).
  { discriminate. }
  exact (Hadd morning_run_valid).
Defined.

(** ** The third period filter *)

Lemma performance_period_days (period : string) :
  PerformanceUtils.period_days period = window period.
Proof.
  unfold PerformanceUtils.period_days, window. rewrite !eqb_decide.
  repeat (case_bool_decide; [rewrite decide_True by assumption; reflexivity
                            | rewrite decide_False by assumption]).
  reflexivity.
Qed.

(** X6: the three period filters of the repository agree. On the frame
    [load_activities] returns, [get_activities_for_period] of either
    file store gives what [efficient_dataframe_filter] gives, for every
    period name and clock reading. *)
Theorem period_filters_agree (period : string) (now : Z) (e : env) (s : store) :
  (forall d s1,
     DataManager.load_activities e s = (Return d, s1) ->
     DataManager.get_activities_for_period period now e s
     = (Return (PerformanceUtils.efficient_dataframe_filter d period now), s1)) /\
  (forall d s1,
     OptimizedDataManager.load_activities e s = (Return d, s1) ->
     OptimizedDataManager.get_activities_for_period period now e s
     = (Return (PerformanceUtils.efficient_dataframe_filter d period now), s1)).
Proof.
  split; intros d s1 Hl.
  - unfold DataManager.get_activities_for_period,
      PerformanceUtils.efficient_dataframe_filter.
    rewrite Hl. simpl. rewrite start_date_window, performance_period_days.
    destruct (Frame.empty d) eqn:He; simpl; [reflexivity|].
    destruct (String.eqb period "All time"); [reflexivity|].
    destruct (window period) as [w|] eqn:Hw; simpl; [|reflexivity].
    pose proof (window_positive period w Hw) as Hpos.
    destruct (Z.eqb_spec w 0) as [->|_]; [lia|].
    rewrite andb_true_r. destruct (has_column "date" d); reflexivity.
  - unfold OptimizedDataManager.get_activities_for_period,
      PerformanceUtils.efficient_dataframe_filter.
    rewrite Hl. simpl. rewrite period_days_window, performance_period_days.
    destruct (Frame.empty d) eqn:He; simpl; [reflexivity|].
    destruct (String.eqb period "All time"); [reflexivity|].
    destruct (window period) as [w|] eqn:Hw; simpl; [|reflexivity].
    destruct (w =? 0); [reflexivity|].
    rewrite andb_true_r. destruct (has_column "date" d); reflexivity.
Qed.

(** Witness of [period_filters_agree]: the week of the three records. *)
Lemma period_filters_agree_witness :
  DataManager.get_activities_for_period "Week" Examples.noon Examples.calm
    Examples.three_records
  = (Return (PerformanceUtils.efficient_dataframe_filter
               [Examples.today; Examples.ten_days_ago; Examples.forty_days_ago]
               "Week" Examples.noon),
     set_cache [Examples.today; Examples.ten_days_ago; Examples.forty_days_ago]
               Examples.three_records).
Proof.
  destruct (period_filters_agree "Week" Examples.noon Examples.calm
              Examples.three_records) as (Hlegacy & _).
  apply Hlegacy. vm_compute. reflexivity.
Defined.

(** ** A store whose file and cache agree *)

Lemma has_column_elem (col : string) (d : df) :
  has_column col d = true <-> exists r, r ∈ d /\ is_Some (r !! col).
Proof.
  unfold has_column. rewrite existsb_exists. split.
  - intros (r & Hin & H). exists r. split; [apply list_elem_of_In; exact Hin|].
    apply bool_decide_eq_true in H. exact H.
  - intros (r & Hin & H). exists r. split; [apply list_elem_of_In; exact Hin|].
    apply bool_decide_eq_true. exact H.
Qed.

Lemma all_dated_has_column (d : df) :
  all_dated d -> Frame.empty d = false -> has_column "date" d = true.
Proof.
  intros Hd He. destruct d as [|r d]; [discriminate|].
  apply has_column_elem. exists r. split; [apply list_elem_of_here|].
  apply Hd. apply list_elem_of_here.
Qed.

Lemma all_dated_perm (d d' : df) : d ≡ₚ d' -> all_dated d -> all_dated d'.
Proof. intros Hp Hd r Hr. apply Hd. rewrite Hp. exact Hr. Qed.

Lemma empty_perm (d d' : df) : d ≡ₚ d' -> Frame.empty d = Frame.empty d'.
Proof.
  intros Hp. destruct d, d'; try reflexivity.
  - apply Permutation_nil_l in Hp. discriminate.
  - symmetry in Hp. apply Permutation_nil_l in Hp. discriminate.
Qed.

Lemma synced_tick (s : store) (D : df) (dt : Z) :
  0 <= dt -> synced s D -> synced (tick dt s) D.
Proof.
  intros Hdt (f & D1 & D2 & H1 & H2 & H3 & H4 & H5 & H6 & H7).
  exists f, D1, D2. simpl. repeat split; try assumption. lia.
Qed.

Lemma legacy_save_synced (d : df) (e : env) (s : store) :
  write_fault e = NoFault ->
  exists s', DataManager.save_activities d e s = (Return true, s') /\ synced s' d.
Proof.
  intros Hw. rewrite (legacy_save_ok _ _ _ Hw). eexists. split; [reflexivity|].
  eexists _, d, d. simpl. repeat split; reflexivity.
Qed.

Lemma optimized_save_synced (d : df) (e : env) (s : store) :
  write_fault e = NoFault ->
  exists s', OptimizedDataManager.save_activities d e s = (Return true, s')
             /\ synced s' d.
Proof.
  intros Hw. rewrite (optimized_save_ok _ _ _ Hw). eexists. split; [reflexivity|].
  eexists _, d, d. simpl. repeat split; reflexivity.
Qed.

(** The original store serves the cache of a synced store as it is. *)
Lemma legacy_load_synced (e : env) (s : store) (D : df) :
  synced s D ->
  exists d, DataManager.load_activities e s = (Return d, s) /\ d ≡ₚ D
            /\ _activities_cache s = Some d.
Proof.
  intros (f & D1 & D2 & H1 & H2 & H3 & H4 & H5 & H6 & H7).
  exists D2. unfold DataManager.load_activities, DataManager.load_activities_body.
  rewrite H1, H3. apply Z.leb_le in H6. rewrite H6. auto.
Qed.

(** The optimized store serves the cache or reads the file again; what
    it returns is the collection, and the store stays synced. *)
Lemma optimized_load_synced (e : env) (s : store) (D : df) :
  synced s D -> all_dated D -> read_fails e = false ->
  exists d s1, OptimizedDataManager.load_activities e s = (Return d, s1)
               /\ d ≡ₚ D /\ synced s1 D /\ clock s1 = clock s.
Proof.
  intros (f & D1 & D2 & H1 & H2 & H3 & H4 & H5 & H6 & H7) Hdated Hr.
  unfold OptimizedDataManager.load_activities. rewrite H3.
  destruct (OptimizedDataManager._is_cache_valid s _).
  - exists D2, s. simpl. split; [reflexivity|]. split; [exact H5|].
    split; [|reflexivity]. exists f, D1, D2. auto 10.
  - unfold OptimizedDataManager.load_fresh, json_load. rewrite H1, Hr, H2. simpl.
    unfold frame_of_json. destruct (Frame.empty D1) eqn:He; simpl.
    + exists [], (set_cache [] s). split; [reflexivity|].
      assert (D1 = []) as -> by (destruct D1; [reflexivity | discriminate]).
      split; [exact H4|]. split; [|reflexivity].
      exists f, [], []. simpl. repeat split; try assumption; lia.
    + rewrite (all_dated_has_column D1); [|eapply all_dated_perm;
                                            [symmetry; exact H4 | exact Hdated]
                                          | exact He].
      simpl. exists (sort_values_date_desc D1), (set_cache (sort_values_date_desc D1) s).
      assert (sort_values_date_desc D1 ≡ₚ D) as Hp.
      { unfold sort_values_date_desc. rewrite merge_sort_Permutation. exact H4. }
      split; [reflexivity|]. split; [exact Hp|]. split; [|reflexivity].
      exists f, D1, (sort_values_date_desc D1). simpl.
      repeat split; try assumption; lia.
Qed.

(** X7: save, then load. After a [save_activities] that succeeds the
    original store returns the saved frame itself at any later time;
    the optimized store returns the saved records, as they were cached
    or, once the cache has aged, as read back from the file and sorted,
    provided every record carries a date and the file can be read. *)
Theorem save_then_load (d : df) (e e' : env) (dt : Z) (s : store) :
  write_fault e = NoFault -> 0 <= dt ->
  (exists s1 s2,
     DataManager.save_activities d e s = (Return true, s1) /\
     DataManager.load_activities e' (tick dt s1) = (Return d, s2)) /\
  (all_dated d -> read_fails e' = false ->
   exists s1 d' s2,
     OptimizedDataManager.save_activities d e s = (Return true, s1) /\
     OptimizedDataManager.load_activities e' (tick dt s1) = (Return d', s2) /\
     d' ≡ₚ d).
Proof.
  intros Hw Hdt. split.
  - rewrite (legacy_save_ok _ _ _ Hw). eexists. eexists. split; [reflexivity|].
    unfold DataManager.load_activities, DataManager.load_activities_body. simpl.
    rewrite Z.leb_refl. reflexivity.
  - intros Hdated Hr.
    destruct (optimized_save_synced d e s Hw) as (s1 & Hs & Hsync).
    destruct (optimized_load_synced e' (tick dt s1) d
                (synced_tick _ _ _ Hdt Hsync) Hdated Hr)
      as (d' & s2 & Hl & Hp & _).
    exists s1, d', s2. auto.
Qed.

(** Witness of [save_then_load]: the three records, read back five
    minutes and more after they were saved. *)
Lemma save_then_load_witness :
  exists s1 d' s2,
    OptimizedDataManager.save_activities
      [Examples.forty_days_ago; Examples.today] Examples.calm Examples.fresh_store
    = (Return true, s1) /\
    OptimizedDataManager.load_activities Examples.calm (tick 400000000 s1)
    = (Return d', s2) /\
    d' ≡ₚ [Examples.forty_days_ago; Examples.today].
Proof.
  destruct (save_then_load [Examples.forty_days_ago; Examples.today]
              Examples.calm Examples.calm 400000000 Examples.fresh_store
              eq_refl) as (_ & Hopt); [lia|].
  apply Hopt; [|reflexivity].
  intros r Hr.
  repeat (apply elem_of_cons in Hr as [->|Hr]; [vm_compute; eauto|]).
  inversion Hr.
Defined.

(** ** Adding, then deleting *)

Lemma drop_id_perm (activity_id : string) (d d' : df) :
  d ≡ₚ d' -> drop_id activity_id d ≡ₚ drop_id activity_id d'.
Proof.
  unfold drop_id. induction 1 as [|x l l' _ IH|x y l|l l' l'' _ IH1 _ IH2]; simpl.
  - reflexivity.
  - destruct (negb (id_is activity_id x)); [constructor|]; exact IH.
  - destruct (negb (id_is activity_id x)), (negb (id_is activity_id y));
      try reflexivity. constructor.
  - etransitivity; eassumption.
Qed.

Lemma drop_id_fresh (activity_id : string) (d : df) :
  (forall r, r ∈ d -> r !! "id" <> Some (VStr activity_id)) ->
  drop_id activity_id d = d.
Proof.
  intros Hfresh. unfold drop_id. induction d as [|r d IH]; [reflexivity|].
  simpl. assert (id_is activity_id r = false) as ->.
  { unfold id_is. apply bool_decide_eq_false. apply Hfresh. apply list_elem_of_here. }
  simpl. rewrite IH; [reflexivity|].
  intros x Hx. apply Hfresh. apply list_elem_of_further. exact Hx.
Qed.

Lemma drop_id_added (u : string) (d0 : df) (data : dict) :
  (forall r, r ∈ d0 -> r !! "id" <> Some (VStr u)) ->
  drop_id u (d0 ++ [<["id" := VStr u]> data]) = d0.
Proof.
  intros Hfresh. unfold drop_id. rewrite List.filter_app. fold (drop_id u d0).
  rewrite (drop_id_fresh u d0 Hfresh). simpl.
  assert (id_is u (<["id" := VStr u]> data) = true) as ->.
  { unfold id_is. apply bool_decide_eq_true. apply lookup_insert_eq. }
  simpl. apply app_nil_r.
Qed.

Lemma has_id_added (u : string) (d0 : df) (data : dict) :
  has_id u (d0 ++ [<["id" := VStr u]> data]) = true.
Proof.
  apply has_id_elem. exists (<["id" := VStr u]> data).
  split; [apply elem_of_app; right; apply list_elem_of_here | apply lookup_insert_eq].
Qed.

Lemma all_dated_added (d0 : df) (row : dict) :
  all_dated d0 -> is_Some (row !! "date") -> all_dated (d0 ++ [row]).
Proof.
  intros Hd Hrow r Hr. apply elem_of_app in Hr as [Hr|Hr]; [apply Hd; exact Hr|].
  apply list_elem_of_singleton in Hr. subst. exact Hrow.
Qed.

Lemma legacy_add_synced (data : dict) (e : env) (s s1 : store) (d0 : df) :
  valid_activity data -> write_fault e = NoFault ->
  DataManager.load_activities e s = (Return d0, s1) ->
  exists s2, DataManager.add_activity data e s = (Return true, s2) /\
             synced s2 (d0 ++ [<["id" := VStr (uuid4 e)]> data]).
Proof.
  intros Hvalid Hw Hl. unfold DataManager.add_activity. rewrite Hl. simpl.
  rewrite (prepare_valid _ _ Hvalid). simpl. rewrite append_row.
  destruct (legacy_save_synced (d0 ++ [<["id" := VStr (uuid4 e)]> data]) e s1 Hw)
    as (s2 & Hs & Hsync).
  rewrite Hs. exists s2. split; [reflexivity | exact Hsync].
Qed.

Lemma optimized_add_synced (data : dict) (e : env) (s s1 : store) (d0 : df) :
  valid_activity data -> write_fault e = NoFault ->
  OptimizedDataManager.load_activities e s = (Return d0, s1) ->
  exists s2, OptimizedDataManager.add_activity data e s = (Return true, s2) /\
             synced s2 (d0 ++ [<["id" := VStr (uuid4 e)]> data]).
Proof.
  intros Hvalid Hw Hl. unfold OptimizedDataManager.add_activity.
  rewrite (validate_accepts _ Hvalid). simpl. rewrite Hl. simpl.
  rewrite (prepare_valid _ _ Hvalid). simpl. rewrite append_row_neg.
  destruct (optimized_save_synced (d0 ++ [<["id" := VStr (uuid4 e)]> data]) e s1 Hw)
    as (s2 & Hs & Hsync).
  rewrite Hs. exists s2. split; [reflexivity | exact Hsync].
Qed.

(** X8: add, delete, load. A valid activity is added under an id no
    stored record carries, then deleted by that id, then the store is
    loaded, with any time between the calls and a working disk: both
    calls return True and the load returns the records that were there
    before the add, all of them and no other. For the optimized store
    the stored records must carry dates. *)
Theorem add_then_delete_restores
  (activity_data : dict) (e1 e2 e3 : env) (dt1 dt2 : Z) (s : store) :
  valid_activity activity_data ->
  write_fault e1 = NoFault -> write_fault e2 = NoFault ->
  read_fails e2 = false -> read_fails e3 = false ->
  0 <= dt1 -> 0 <= dt2 ->
  (forall d0 s1,
     DataManager.load_activities e1 s = (Return d0, s1) ->
     (forall r, r ∈ d0 -> r !! "id" <> Some (VStr (uuid4 e1))) ->
     exists s2 s3 d s4,
       DataManager.add_activity activity_data e1 s = (Return true, s2) /\
       DataManager.delete_activity (uuid4 e1) e2 (tick dt1 s2) = (Return true, s3) /\
       DataManager.load_activities e3 (tick dt2 s3) = (Return d, s4) /\
       d ≡ₚ d0) /\
  (forall d0 s1,
     OptimizedDataManager.load_activities e1 s = (Return d0, s1) ->
     (forall r, r ∈ d0 -> r !! "id" <> Some (VStr (uuid4 e1))) ->
     all_dated d0 ->
     exists s2 s3 d s4,
       OptimizedDataManager.add_activity activity_data e1 s = (Return true, s2) /\
       OptimizedDataManager.delete_activity (uuid4 e1) e2 (tick dt1 s2)
       = (Return true, s3) /\
       OptimizedDataManager.load_activities e3 (tick dt2 s3) = (Return d, s4) /\
       d ≡ₚ d0).
Proof.
  intros Hvalid Hw1 Hw2 Hr2 Hr3 Hdt1 Hdt2.
  split.
  - intros d0 s1 Hl Hfresh.
    destruct (legacy_add_synced _ _ _ _ _ Hvalid Hw1 Hl) as (s2 & Hadd & Hsync).
    destruct (legacy_load_synced e2 (tick dt1 s2) _ (synced_tick _ _ _ Hdt1 Hsync))
      as (d1 & Hl1 & Hp1 & _).
    destruct (legacy_save_synced (drop_id (uuid4 e1) d1) e2 (tick dt1 s2) Hw2)
      as (s3 & Hs3 & Hsync3).
    destruct (legacy_load_synced e3 (tick dt2 s3) _ (synced_tick _ _ _ Hdt2 Hsync3))
      as (d & Hl3 & Hp3 & _).
    exists s2, s3, d, (tick dt2 s3). split; [exact Hadd|]. split.
    { unfold DataManager.delete_activity. rewrite Hl1. simpl. rewrite Hs3.
      reflexivity. }
    split; [exact Hl3|].
    rewrite Hp3, (drop_id_perm (uuid4 e1) d1 _ Hp1).
    rewrite (drop_id_added (uuid4 e1) d0 activity_data Hfresh). reflexivity.
  - intros d0 s1 Hl Hfresh Hdated.
    destruct (optimized_add_synced _ _ _ _ _ Hvalid Hw1 Hl) as (s2 & Hadd & Hsync).
    assert (all_dated (d0 ++ [<["id" := VStr (uuid4 e1)]> activity_data])) as Hdated'.
    { apply all_dated_added; [exact Hdated|].
      rewrite stored_fields by discriminate.
      destruct Hvalid as [_ _ _ (t & Ht) _]. rewrite Ht. eauto. }
    destruct (optimized_load_synced e2 (tick dt1 s2) _
                (synced_tick _ _ _ Hdt1 Hsync) Hdated' Hr2)
      as (d1 & s2' & Hl1 & Hp1 & _).
    destruct (optimized_save_synced (drop_id (uuid4 e1) d1) e2 s2' Hw2)
      as (s3 & Hs3 & Hsync3).
    assert (drop_id (uuid4 e1) d1 ≡ₚ d0) as Hdrop.
    { rewrite (drop_id_perm (uuid4 e1) d1 _ Hp1).
      rewrite (drop_id_added (uuid4 e1) d0 activity_data Hfresh). reflexivity. }
    destruct (optimized_load_synced e3 (tick dt2 s3) _
                (synced_tick _ _ _ Hdt2 Hsync3)
                (all_dated_perm _ _ (symmetry Hdrop) Hdated) Hr3)
      as (d & s4 & Hl3 & Hp3 & _).
    exists s2, s3, d, s4. split; [exact Hadd|]. split.
    { unfold OptimizedDataManager.delete_activity. rewrite Hl1. simpl.
      rewrite (has_id_perm (uuid4 e1) d1 _ Hp1). rewrite has_id_added.
      rewrite (empty_perm d1 _ Hp1), appended_not_empty. simpl.
      rewrite Hs3. reflexivity. }
    split; [exact Hl3|]. rewrite Hp3. exact Hdrop.
Qed.

(** Witness of [add_then_delete_restores]: a morning run added to the
    empty store and deleted again. *)
Lemma add_then_delete_restores_witness :
  exists s2 s3 d s4,
    DataManager.add_activity Examples.morning_run Examples.calm Examples.fresh_store
    = (Return true, s2) /\
    DataManager.delete_activity "3f2a" Examples.calm (tick 5 s2) = (Return true, s3) /\
    DataManager.load_activities Examples.calm (tick 5 s3) = (Return d, s4) /\
    d ≡ₚ [].
Proof.
  destruct (add_then_delete_restores Examples.morning_run Examples.calm
              Examples.calm Examples.calm 5 5 Examples.fresh_store
              morning_run_valid eq_refl eq_refl eq_refl eq_refl)
    as (Hlegacy & _); [lia | lia |].
  apply (Hlegacy [] (set_cache [] Examples.fresh_store)).
  - vm_compute. reflexivity.
  - intros r Hr. inversion Hr.
Defined.

(** * The weight store *)


Lemma legacy_wsave_ok (d : df) (e : wenv) (s : wstore) :
  write_fault (base e) = NoFault ->
  DataManagerWeight.save_weight_data d e s
  = (Return true,
     set_wcache d (set_wfile (Some (mkFile (Complete d) (wclock s))) s)).
Proof.
  intros Hw. unfold DataManagerWeight.save_weight_data,
    DataManagerWeight.write_in_place. rewrite Hw. reflexivity.
Qed.

Lemma optimized_wload_cases (e : wenv) (s : wstore) :
  exists d, OptimizedDataManagerWeight.load_weight_data e s = (Return d, s)
         \/ OptimizedDataManagerWeight.load_weight_data e s
            = (Return d, set_wcache d s).
Proof.
  unfold OptimizedDataManagerWeight.load_weight_data.
  assert (exists d,
    try_except (OptimizedDataManagerWeight.load_fresh e s)
      (except_classes [Return JSONDecodeError; Return OSError; Return KeyError])
      (fun _ s0 => (Return ([] : df), s0)) = (Return d, s)
    \/ try_except (OptimizedDataManagerWeight.load_fresh e s)
      (except_classes [Return JSONDecodeError; Return OSError; Return KeyError])
      (fun _ s0 => (Return ([] : df), s0)) = (Return d, set_wcache d s))
    as Hfresh.
  { unfold OptimizedDataManagerWeight.load_fresh.
    destruct (weight_file s) as [f|]; [|exists []; left; reflexivity].
    unfold json_load. destruct (read_fails (base e)); simpl.
    { exists []. left. reflexivity. }
    destruct (content f) as [rows|]; simpl.
    2:{ exists []. left. reflexivity. }
    unfold wframe_of_json. destruct (Frame.empty rows); simpl.
    { exists []. right. reflexivity. }
    destruct (has_column "date" rows); simpl.
    - eexists. right. reflexivity.
    - exists []. left. reflexivity. }
  destruct (_weight_cache s) as [cached|]; [|exact Hfresh].
  destruct (OptimizedDataManagerWeight._is_cache_valid s _); [|exact Hfresh].
  exists cached. left. reflexivity.
Qed.

Lemma optimized_wsave_ok (d : df) (e : wenv) (s : wstore) :
  write_fault (base e) = NoFault ->
  OptimizedDataManagerWeight.save_weight_data d e s
  = (Return true,
     set_wcache d
       (set_wtmp None (set_wfile (Some (mkFile (Complete d) (wclock s))) s))).
Proof.
  intros Hw. unfold OptimizedDataManagerWeight.save_weight_data,
    OptimizedDataManagerWeight.write_tmp_and_replace. rewrite Hw. reflexivity.
Qed.

(** X9: [add_weight_entry] of the optimized store checks the weight
    before it reads anything. A weight that is no number in
    [[20, 500]] gives False and leaves the store as it was; a weight in
    the interval, with a timestamp and a working disk, gives True and
    the entry is written after the entries that were there. *)
Theorem optimized_add_weight_entry_bounds (weight_data : dict) (e : wenv)
  (s : wstore) :
  (~ (exists w, weight_data !! "weight" = Some w /\ within 20 500 w) ->
   OptimizedDataManagerWeight.add_weight_entry weight_data e s = (Return false, s)) /\
  (forall w t,
     weight_data !! "weight" = Some w -> within 20 500 w ->
     weight_data !! "date" = Some (VDatetime t) ->
     write_fault (base e) = NoFault ->
     exists d0 s1 s2,
       OptimizedDataManagerWeight.load_weight_data e s = (Return d0, s1) /\
       OptimizedDataManagerWeight.add_weight_entry weight_data e s
       = (Return true, s2) /\
       weight_file s2
       = Some (mkFile (Complete (d0 ++ [<["id" := VStr (uuid4 (base e))]> weight_data]))
                      (wclock s))).
Proof.
  split.
  - intros Hbad. unfold OptimizedDataManagerWeight.add_weight_entry.
    destruct (weight_data !! "weight") as [w|] eqn:Hw; simpl; [|reflexivity].
    destruct (is_int_or_float w) eqn:Hnum; simpl; [|reflexivity].
    destruct (between OptimizedDataManagerWeight.min_weight
                OptimizedDataManagerWeight.max_weight w) eqn:Hb; [|reflexivity].
    exfalso. apply Hbad. exists w. split; [reflexivity|].
    apply between_within; assumption.
  - intros w t Hw Hin Hd Hfault.
    destruct (optimized_wload_cases e s) as (d0 & Hload).
    assert (exists s1, OptimizedDataManagerWeight.load_weight_data e s
                       = (Return d0, s1) /\ wclock s1 = wclock s)
      as (s1 & Hl & Hclock).
    { destruct Hload as [H|H]; eexists; (split; [exact H | reflexivity]). }
    exists d0, s1. unfold OptimizedDataManagerWeight.add_weight_entry.
    rewrite Hw. simpl. rewrite (within_is_number _ _ _ Hin). simpl.
    assert (between OptimizedDataManagerWeight.min_weight
              OptimizedDataManagerWeight.max_weight w = true) as ->.
    { apply between_within; [eapply within_is_number; eassumption | exact Hin]. }
    simpl. rewrite Hl. simpl.
    unfold prepare_activity. rewrite lookup_insert_ne by discriminate.
    rewrite Hd. simpl. rewrite append_row_neg.
    rewrite (optimized_wsave_ok _ _ _ Hfault). simpl.
    eexists. split; [reflexivity|]. split; [reflexivity|].
    rewrite Hclock. reflexivity.
Qed.

(** Witness of [optimized_add_weight_entry_bounds]: 71.5 kg on day 1. *)
Lemma optimized_add_weight_entry_bounds_witness :
  exists s2,
    OptimizedDataManagerWeight.add_weight_entry (MoreExamples.weigh_in (143 # 2) 1)
      MoreExamples.calm_w MoreExamples.no_weights = (Return true, s2) /\
    weight_file s2
    = Some (mkFile (Complete [<["id" := VStr "3f2a"]>
                                (MoreExamples.weigh_in (143 # 2) 1)]) 100).
Proof.
  destruct (optimized_add_weight_entry_bounds (MoreExamples.weigh_in (143 # 2) 1)
              MoreExamples.calm_w MoreExamples.no_weights) as (_ & Hok).
  destruct (Hok (VFloat (FFinite (143 # 2))) (timedelta_days 1))
    as (d0 & s1 & s2 & Hl & Hadd & Hfile).
  - vm_compute. reflexivity.
  - exists (143 # 2)%Q. split; [reflexivity|]. split; vm_compute; discriminate.
  - vm_compute. reflexivity.
  - reflexivity.
  - exists s2. split; [exact Hadd|]. rewrite Hfile.
    assert (OptimizedDataManagerWeight.load_weight_data MoreExamples.calm_w
              MoreExamples.no_weights
            = (Return [], set_wcache [] MoreExamples.no_weights)) as H
      by (vm_compute; reflexivity).
    rewrite H in Hl. inversion Hl. reflexivity.
Defined.

(** ** Updating a weight entry *)

Lemma set_first_added (u : string) (w d : pyval) (d0 : df) (row : dict) :
  (forall r, r ∈ d0 -> r !! "id" <> Some (VStr u)) ->
  row !! "id" = Some (VStr u) ->
  DataManagerWeight.set_first u w d (d0 ++ [row])
  = d0 ++ [<["date" := d]> (<["weight" := w]> row)].
Proof.
  intros Hfresh Hrow. induction d0 as [|r d0 IH]; simpl.
  - unfold id_is. rewrite (bool_decide_eq_true_2 _ Hrow). reflexivity.
  - assert (id_is u r = false) as ->.
    { unfold id_is. apply bool_decide_eq_false. apply Hfresh. apply list_elem_of_here. }
    rewrite IH; [reflexivity|].
    intros x Hx. apply Hfresh. apply list_elem_of_further. exact Hx.
Qed.

(** X10: add, update, load in the original weight store. An entry is
    added under an id no stored entry carries; [update_weight_entry]
    with that id then returns True, and the next load returns the
    entries that were there, unchanged, followed by the one entry with
    the new weight and the new date under its id. For an id no entry
    carries, [update_weight_entry] returns False and writes nothing. *)
Theorem weight_add_update_load
  (weight_data : dict) (t : Z) (w d : pyval) (e1 e2 e3 : wenv) (dt1 dt2 : Z)
  (s : wstore) (d0 : df) (s1 : wstore) :
  weight_data !! "date" = Some (VDatetime t) ->
  write_fault (base e1) = NoFault -> write_fault (base e2) = NoFault ->
  DataManagerWeight.load_weight_data e1 s = (Return d0, s1) ->
  (forall r, r ∈ d0 -> r !! "id" <> Some (VStr (uuid4 (base e1)))) ->
  let row := <["id" := VStr (uuid4 (base e1))]> weight_data in
  (exists s2 s3 s4,
     DataManagerWeight.add_weight_entry weight_data e1 s = (Return true, s2) /\
     DataManagerWeight.update_weight_entry (uuid4 (base e1)) w d e2 (wtick dt1 s2)
     = (Return true, s3) /\
     DataManagerWeight.load_weight_data e3 (wtick dt2 s3)
     = (Return (d0 ++ [<["date" := d]> (<["weight" := w]> row)]), s4)) /\
  DataManagerWeight.update_weight_entry (uuid4 (base e1)) w d e1 s
  = (Return false, s1).
Proof.
  intros Hd Hw1 Hw2 Hl Hfresh row. split.
  - unfold DataManagerWeight.add_weight_entry. rewrite Hl. simpl.
    unfold prepare_activity. rewrite lookup_insert_ne by discriminate.
    rewrite Hd. simpl. rewrite append_row.
    rewrite (legacy_wsave_ok _ _ _ Hw1). simpl. eexists.
    assert (forall (e : wenv) (dt : Z) (D : df) (s0 : wstore),
      DataManagerWeight.load_weight_data e
        (wtick dt (set_wcache D (set_wfile (Some (mkFile (Complete D) (wclock s0))) s0)))
      = (Return D,
         wtick dt (set_wcache D (set_wfile (Some (mkFile (Complete D) (wclock s0))) s0))))
      as Hcached.
    { intros e dt D s0. unfold DataManagerWeight.load_weight_data,
        DataManagerWeight.load_weight_data_body. simpl.
      rewrite Z.leb_refl. reflexivity. }
    unfold DataManagerWeight.update_weight_entry. rewrite Hcached. simpl.
    fold row.
    assert (has_id (uuid4 (base e1)) (d0 ++ [row]) = true) as ->
      by apply has_id_added.
    rewrite (set_first_added _ w d d0 row Hfresh) by apply lookup_insert_eq.
    rewrite (legacy_wsave_ok _ _ _ Hw2). simpl.
    eexists. eexists. split; [reflexivity|]. split; [reflexivity|].
    unfold DataManagerWeight.load_weight_data,
      DataManagerWeight.load_weight_data_body. simpl.
    rewrite Z.leb_refl. reflexivity.
  - unfold DataManagerWeight.update_weight_entry. rewrite Hl. simpl.
    assert (has_id (uuid4 (base e1)) d0 = false) as ->; [|reflexivity].
    destruct (has_id (uuid4 (base e1)) d0) eqn:E; [|reflexivity].
    apply has_id_elem in E as (r & Hin & Hid). exfalso. exact (Hfresh r Hin Hid).
Qed.

(** Witness of [weight_add_update_load]: 71.5 kg entered, corrected to
    70 kg; one entry is loaded, with 70 kg. *)
Lemma weight_add_update_load_witness :
  exists s2 s3 s4,
    DataManagerWeight.add_weight_entry (MoreExamples.weigh_in (143 # 2) 1)
      MoreExamples.calm_w MoreExamples.no_weights = (Return true, s2) /\
    DataManagerWeight.update_weight_entry "3f2a" (VFloat (FFinite (70 # 1)))
      (VDatetime (timedelta_days 1)) MoreExamples.calm_w (wtick 5 s2)
    = (Return true, s3) /\
    DataManagerWeight.load_weight_data MoreExamples.calm_w (wtick 5 s3)
    = (Return [<["id" := VStr "3f2a"]> (MoreExamples.weigh_in (70 # 1) 1)], s4).
Proof.
  destruct (weight_add_update_load (MoreExamples.weigh_in (143 # 2) 1)
              (timedelta_days 1) (VFloat (FFinite (70 # 1)))
              (VDatetime (timedelta_days 1))
              MoreExamples.calm_w MoreExamples.calm_w MoreExamples.calm_w 5 5
              MoreExamples.no_weights [] (set_wcache [] MoreExamples.no_weights))
    as ((s2 & s3 & s4 & H1 & H2 & H3) & _).
  - vm_compute. reflexivity.
  - reflexivity.
  - reflexivity.
  - vm_compute. reflexivity.
  - intros r Hr. inversion Hr.
  - exists s2, s3, s4. split; [exact H1|]. split; [exact H2|].
    rewrite H3. vm_compute. reflexivity.
Defined.

(** ** Forward filling *)






Global Instance older_total : Total older.
Proof.
  intros a b. unfold older. destruct (date_of a), (date_of b); auto. lia.
Qed.





(** ** Clearing the weight entries *)

(** X12: [clear_all_weight_data] writes the empty list and keeps the
    cache. If the cache was stamped before the clear, the next load
    reads the file and returns no entry; if it was stamped at the
    instant of the clear, the next load still returns the entries
    cached. *)
Theorem clear_all_weight_data_then_load (e e' : wenv) (dt : Z) (s : wstore) :
  write_fault (base e) = NoFault ->
  exists s1,
    DataManagerWeight.clear_all_weight_data e s = (Return true, s1) /\
    weight_file s1 = Some (mkFile (Complete []) (wclock s)) /\
    _weight_cache s1 = _weight_cache s /\
    (_weight_cache_timestamp s < wclock s ->
     exists s2, DataManagerWeight.load_weight_data e' (wtick dt s1) = (Return [], s2)) /\
    (forall cached,
       _weight_cache s = Some cached -> wclock s <= _weight_cache_timestamp s ->
       DataManagerWeight.load_weight_data e' (wtick dt s1)
       = (Return cached, wtick dt s1)).
Proof.
  intros Hw. unfold DataManagerWeight.clear_all_weight_data,
    DataManagerWeight.write_in_place. rewrite Hw. simpl.
  eexists. split; [reflexivity|]. split; [reflexivity|]. split; [reflexivity|].
  split.
  - intros Hlt. unfold DataManagerWeight.load_weight_data,
      DataManagerWeight.load_weight_data_body. simpl.
    assert (exists s2,
      try_except
        (bind (json_load (base e') (mkFile (Complete []) (wclock s)),
               wtick dt (set_wfile (Some (mkFile (Complete []) (wclock s))) s))
           (fun weight_data s0 =>
            bind (wframe_of_json e' weight_data, s0)
              (fun d s2 => (Return d, set_wcache d s2))))
        Exception (fun _ s0 => (Return ([] : df), s0)) = (Return [], s2))
      as (s2 & Hs2).
    { unfold json_load. simpl. destruct (read_fails (base e'));
        eexists; reflexivity. }
    exists s2. destruct (_weight_cache s); [|exact Hs2].
    destruct (Z.leb_spec (wclock s) (_weight_cache_timestamp s)); [lia | exact Hs2].
  - intros cached Hc Hle. unfold DataManagerWeight.load_weight_data,
      DataManagerWeight.load_weight_data_body. simpl. rewrite Hc.
    apply Z.leb_le in Hle. rewrite Hle. reflexivity.
Qed.

(** Witness of [clear_all_weight_data_then_load]: a weight file read
    at time 60 and cleared at time 100. *)
Lemma clear_all_weight_data_then_load_witness :
  exists s1 s2,
    DataManagerWeight.clear_all_weight_data MoreExamples.calm_w
      (mkWStore (Some (mkFile (Complete [MoreExamples.first_entry]) 50)) None
                (Some [MoreExamples.first_entry]) 60 100) = (Return true, s1) /\
    DataManagerWeight.load_weight_data MoreExamples.calm_w (wtick 1 s1)
    = (Return [], s2).
Proof.
  destruct (clear_all_weight_data_then_load MoreExamples.calm_w MoreExamples.calm_w 1
              (mkWStore (Some (mkFile (Complete [MoreExamples.first_entry]) 50)) None
                        (Some [MoreExamples.first_entry]) 60 100) eq_refl)
    as (s1 & H1 & _ & _ & Hload & _).
  destruct Hload as (s2 & H2); [simpl; lia|].
  exists s1, s2. split; assumption.
Defined.

(** * The settings *)

(** X13: [set_weight_goal] then [get_weight_goal]. When the write
    succeeds and the file can then be read, the goal read is the goal
    set, and every other setting reads as [set_weight_goal] itself
    read it. When the file is missing or is not JSON, the goal read is
    None. *)
Theorem set_then_get_weight_goal (goal : pyval) (e e' : env) (s : settings_store) :
  (write_fault e = NoFault -> read_fails e' = false ->
   exists s1,
     DataManagerSettings.set_weight_goal goal e s = (true, s1) /\
     DataManagerSettings.get_weight_goal e' s1 = goal /\
     (forall k, k <> "weight_goal" ->
        DataManagerSettings.load_settings e' s1 !! k
        = DataManagerSettings.load_settings e s !! k)) /\
  (s = None \/ s = Some SMalformed ->
   DataManagerSettings.get_weight_goal e' s = VNone).
Proof.
  split.
  - intros Hw Hr. unfold DataManagerSettings.set_weight_goal,
      DataManagerSettings.save_settings. rewrite Hw.
    eexists. split; [reflexivity|].
    assert (forall settings : dict,
              DataManagerSettings.load_settings e' (Some (SComplete settings))
              = settings) as Hread.
    { intros settings. unfold DataManagerSettings.load_settings.
      rewrite Hr. reflexivity. }
    unfold DataManagerSettings.get_weight_goal. rewrite Hread.
    split.
    + rewrite lookup_insert_eq. reflexivity.
    + intros k Hk. rewrite lookup_insert_ne by congruence. reflexivity.
  - unfold DataManagerSettings.get_weight_goal, DataManagerSettings.load_settings.
    intros [-> | ->]; [reflexivity|]. destruct (read_fails e'); reflexivity.
Qed.

(** Witness of [set_then_get_weight_goal]: a goal of 68 kg set in a
    settings file that also holds a theme. *)
Lemma set_then_get_weight_goal_witness :
  exists s1,
    DataManagerSettings.set_weight_goal (VFloat (FFinite (68 # 1))) Examples.calm
      (Some (SComplete (<["theme" := VStr "dark"]> default_settings))) = (true, s1) /\
    DataManagerSettings.get_weight_goal Examples.calm s1 = VFloat (FFinite (68 # 1)) /\
    DataManagerSettings.load_settings Examples.calm s1 !! "theme" = Some (VStr "dark").
Proof.
  destruct (set_then_get_weight_goal (VFloat (FFinite (68 # 1))) Examples.calm
              Examples.calm
              (Some (SComplete (<["theme" := VStr "dark"]> default_settings))))
    as (Hset & _).
  destruct (Hset eq_refl eq_refl) as (s1 & H1 & H2 & H3).
  exists s1. split; [exact H1|]. split; [exact H2|].
  rewrite H3 by discriminate. vm_compute. reflexivity.
Defined.

(** * utils.py: the validators *)

Lemma missing_false_given (data : dict) (field : string) :
  Utils.missing data field = false <-> given data field.
Proof.
  unfold Utils.missing, given. destruct (data !! field) as [v|].
  - destruct v; split; try discriminate; try reflexivity;
      try (intros _; eexists; split; [reflexivity | discriminate]).
    intros (v & Hv & Hne). inversion Hv; subst. contradiction.
  - split; [discriminate|]. intros (v & Hv & _). discriminate.
Qed.

Lemma le_int_zero_false (v : pyval) :
  Utils.le_int v 0 = Return false <-> not_le_zero v.
Proof.
  unfold not_le_zero. destruct v as [|b|z|[|negative|q]|s|t]; simpl.
  - split; [discriminate|]. intros [(q & H & _)|[H|H]]; discriminate.
  - destruct b; simpl.
    + split; [|reflexivity]. intros _. left. exists (inject_Z 1).
      split; [reflexivity|]. reflexivity.
    + split; [discriminate|].
      intros [(q & H & Hq)|[H|H]]; try discriminate.
      inversion H; subst. exfalso. revert Hq. apply Qlt_irrefl.
  - destruct (Z.leb_spec z 0) as [Hle|Hlt].
    + split; [discriminate|].
      intros [(q & H & Hq)|[H|H]]; try discriminate.
      inversion H; subst. change 0%Q with (inject_Z 0) in Hq.
      rewrite <- Zlt_Qlt in Hq. lia.
    + split; [|reflexivity]. intros _. left. exists (inject_Z z).
      split; [reflexivity|]. change 0%Q with (inject_Z 0).
      rewrite <- Zlt_Qlt. exact Hlt.
  - split; [auto|reflexivity].
  - destruct negative.
    + split; [discriminate|].
      intros [(q & H & _)|[H|H]]; discriminate.
    + split; [auto|reflexivity].
  - destruct (Qle_bool q (inject_Z 0)) eqn:E.
    + split; [discriminate|].
      intros [(q' & H & Hq)|[H|H]]; try discriminate.
      inversion H; subst. apply Qle_bool_iff in E.
      exfalso. exact (Qlt_not_le _ _ Hq E).
    + split; [|reflexivity]. intros _. left. exists q. split; [reflexivity|].
      apply Qnot_le_lt. intros Hle. apply Qle_bool_iff in Hle.
      change (inject_Z 0) with 0%Q in E. congruence.
  - split; [discriminate|]. intros [(q & H & _)|[H|H]]; discriminate.
  - split; [discriminate|]. intros [(q & H & _)|[H|H]]; discriminate.
Qed.

(** X14: [validate_activity_data] answers (True, "Valid") exactly for
    the inputs that give the type and the date a value other than None,
    whose duration is a number above 0 (or NaN, or plus infinity: it
    only asks that [duration <= 0] be false) and whose intensity is
    Low, Medium or High. There is no upper bound on the duration and
    no bound on the description. *)
Theorem validate_activity_data_valid_iff (activity_data : dict) :
  Utils.validate_activity_data activity_data = Return (true, "Valid") <->
  given activity_data "type" /\ given activity_data "date" /\
  (exists v, activity_data !! "duration" = Some v /\ not_le_zero v) /\
  intensity_ok activity_data.
Proof.
  unfold Utils.validate_activity_data. simpl.
  destruct (Utils.missing activity_data "type") eqn:Hty.
  { split; [discriminate|]. intros (H & _).
    apply missing_false_given in H. congruence. }
  destruct (Utils.missing activity_data "duration") eqn:Hdu.
  { split; [discriminate|]. intros (_ & _ & (v & Hv & Hpos) & _). exfalso.
    unfold Utils.missing in Hdu. rewrite Hv in Hdu.
    destruct v; try discriminate.
    destruct Hpos as [(q & H & _)|[H|H]]; discriminate. }
  destruct (Utils.missing activity_data "intensity") eqn:Hit.
  { split; [discriminate|]. intros (_ & _ & _ & Hint). exfalso.
    unfold Utils.missing in Hit.
    destruct Hint as [H|[H|H]]; rewrite H in Hit; discriminate. }
  destruct (Utils.missing activity_data "date") eqn:Hda.
  { split; [discriminate|]. intros (_ & H & _).
    apply missing_false_given in H. congruence. }
  apply missing_false_given in Hty, Hda.
  apply missing_false_given in Hdu as (v & Hv & Hvn).
  rewrite Hv. simpl.
  destruct (Utils.le_int v 0) as [[|]|x] eqn:Hle.
  - split; [discriminate|]. intros (_ & _ & (v' & Hv' & Hpos) & _).
    inversion Hv'; subst. apply le_int_zero_false in Hpos. congruence.
  - apply le_int_zero_false in Hle.
    case_bool_decide as Hin; simpl.
    + split; [|reflexivity]. intros _. split; [exact Hty|]. split; [exact Hda|].
      split; [eauto|]. unfold intensity_ok.
      destruct (activity_data !! "intensity") as [i|]; simpl in Hin.
      * repeat (apply elem_of_cons in Hin as [->|Hin]; [auto|]). inversion Hin.
      * repeat (apply elem_of_cons in Hin as [?|Hin]; [discriminate|]).
        inversion Hin.
    + split; [discriminate|]. intros (_ & _ & _ & Hint). exfalso. apply Hin.
      destruct Hint as [H|[H|H]]; rewrite H; simpl; set_solver.
  - split; [discriminate|]. intros (_ & _ & (v' & Hv' & Hpos) & _).
    inversion Hv'; subst. apply le_int_zero_false in Hpos. congruence.
Qed.

(** Witness of [validate_activity_data_valid_iff]: the run of 2000
    minutes that the optimized store refuses is valid here. *)
Lemma validate_activity_data_valid_iff_witness :
  Utils.validate_activity_data Examples.long_run = Return (true, "Valid").
Proof.
  apply validate_activity_data_valid_iff.
  split; [eexists; split; [vm_compute; reflexivity | discriminate]|].
  split; [eexists; split; [vm_compute; reflexivity | discriminate]|].
  split.
  - exists (VInt 2000). split; [vm_compute; reflexivity|].
    left. exists (inject_Z 2000). split; reflexivity.
  - left. vm_compute. reflexivity.
Defined.

Lemma weight_checks (w : pyval) :
  (Utils.le_int w 0 = Return false /\ Utils.gt_int w 500 = Return false)
  <-> weight_plausible w.
Proof.
  unfold weight_plausible. destruct w as [|b|z|[|negative|q]|s|t]; simpl.
  - split; [intros [H _]; discriminate|].
    intros [(q & H & _)|H]; discriminate.
  - destruct b; simpl.
    + split; [|auto]. intros _. left. exists (inject_Z 1).
      split; [reflexivity|]. split; [reflexivity|].
      rewrite <- Zle_Qle. lia.
    + split; [intros [H _]; discriminate|].
      intros [(q & H & Hq & _)|H]; [|discriminate].
      inversion H; subst. exfalso. revert Hq. apply Qlt_irrefl.
  - destruct (Z.leb_spec z 0) as [Hle|Hlt].
    + split; [intros [H _]; discriminate|].
      intros [(q & H & Hq & _)|H]; [|discriminate].
      inversion H; subst. change 0%Q with (inject_Z 0) in Hq.
      rewrite <- Zlt_Qlt in Hq. lia.
    + destruct (Z.ltb_spec 500 z) as [Hgt|Hle].
      * split; [intros [_ H]; discriminate|].
        intros [(q & H & _ & Hq)|H]; [|discriminate].
        inversion H; subst. rewrite <- Zle_Qle in Hq. lia.
      * split; [|auto]. intros _. left. exists (inject_Z z).
        split; [reflexivity|]. change 0%Q with (inject_Z 0).
        rewrite <- Zlt_Qlt, <- Zle_Qle. lia.
  - split; auto.
  - destruct negative; simpl.
    + split; [intros [H _]; discriminate|].
      intros [(q & H & _)|H]; discriminate.
    + split; [intros [_ H]; discriminate|].
      intros [(q & H & _)|H]; discriminate.
  - destruct (Qle_bool q (inject_Z 0)) eqn:E0.
    + split; [intros [H _]; discriminate|].
      intros [(q' & H & Hq & _)|H]; [|discriminate].
      inversion H; subst. apply Qle_bool_iff in E0.
      exfalso. exact (Qlt_not_le _ _ Hq E0).
    + destruct (Qle_bool q (inject_Z 500)) eqn:E5; simpl.
      * split; [|auto]. intros _. left. exists q. split; [reflexivity|].
        split; [|apply Qle_bool_iff; exact E5].
        apply Qnot_le_lt. intros Hle. apply Qle_bool_iff in Hle.
        change (inject_Z 0) with 0%Q in E0. congruence.
      * split; [intros [_ H]; discriminate|].
        intros [(q' & H & _ & Hq)|H]; [|discriminate].
        inversion H; subst. apply Qle_bool_iff in Hq. congruence.
  - split; [intros [H _]; discriminate|].
    intros [(q & H & _)|H]; discriminate.
  - split; [intros [H _]; discriminate|].
    intros [(q & H & _)|H]; discriminate.
Qed.

(** X15: [validate_weight_data] answers (True, "Valid") exactly for
    the inputs with a date other than None and a weight that is a
    number above 0 and at most 500, or NaN. Every weight the optimized
    stores accept, a number in [[20, 500]], is among them. *)
Theorem validate_weight_data_valid_iff (weight_data : dict) :
  (Utils.validate_weight_data weight_data = Return (true, "Valid") <->
   given weight_data "date" /\
   exists w, weight_data !! "weight" = Some w /\ weight_plausible w) /\
  (forall w, within 20 500 w -> weight_plausible w).
Proof.
  split.
  - unfold Utils.validate_weight_data. simpl.
    destruct (Utils.missing weight_data "weight") eqn:Hw.
    { split; [discriminate|]. intros (_ & w & Hw' & Hp). exfalso.
      unfold Utils.missing in Hw. rewrite Hw' in Hw.
      destruct w; try discriminate. destruct Hp as [(q & H & _)|H]; discriminate. }
    destruct (Utils.missing weight_data "date") eqn:Hd.
    { split; [discriminate|]. intros (H & _).
      apply missing_false_given in H. congruence. }
    apply missing_false_given in Hd.
    apply missing_false_given in Hw as (w & Hw & Hwn). rewrite Hw. simpl.
    pose proof (weight_checks w) as Hiff.
    destruct (Utils.le_int w 0) as [[|]|x] eqn:Hle.
    + split; [discriminate|]. intros (_ & w' & Hw' & Hp). inversion Hw'; subst.
      apply Hiff in Hp as [H _]. discriminate.
    + destruct (Utils.gt_int w 500) as [[|]|x] eqn:Hgt.
      * split; [discriminate|]. intros (_ & w' & Hw' & Hp). inversion Hw'; subst.
        apply Hiff in Hp as [_ H]. discriminate.
      * split; [|reflexivity]. intros _. split; [exact Hd|]. exists w.
        split; [reflexivity|]. apply Hiff. auto.
      * split; [discriminate|]. intros (_ & w' & Hw' & Hp). inversion Hw'; subst.
        apply Hiff in Hp as [_ H]. discriminate.
    + split; [discriminate|]. intros (_ & w' & Hw' & Hp). inversion Hw'; subst.
      apply Hiff in Hp as [H _]. discriminate.
  - intros w (q & Hq & Hlo & Hhi). left. exists q. split; [exact Hq|].
    split; [|exact Hhi].
    eapply Qlt_le_trans; [|exact Hlo]. reflexivity.
Qed.

(** Witness of [validate_weight_data_valid_iff]: 71.5 kg on day 1. *)
Lemma validate_weight_data_valid_iff_witness :
  Utils.validate_weight_data (MoreExamples.weigh_in (143 # 2) 1)
  = Return (true, "Valid").
Proof.
  apply (validate_weight_data_valid_iff (MoreExamples.weigh_in (143 # 2) 1)).
  split; [eexists; split; [vm_compute; reflexivity | discriminate]|].
  exists (VFloat (FFinite (143 # 2))). split; [vm_compute; reflexivity|].
  left. exists (143 # 2)%Q. split; [reflexivity|]. split; reflexivity || discriminate.
Defined.

(** * data_cache.py: counting the activity types *)

Lemma count_types_lookup (l : list string) (m : gmap string nat) (t : string) :
  DataCache.count_types l m !! t
  = if decide (count_occ string_dec l t = 0)%nat then m !! t
    else Some (default 0 (m !! t) + count_occ string_dec l t)%nat.
Proof.
  revert m. induction l as [|x l IH]; intros m; simpl; [reflexivity|].
  rewrite IH. destruct (string_dec x t) as [->|Hne].
  - rewrite lookup_insert_eq. simpl.
    destruct (decide (count_occ string_dec l t = 0)%nat) as [Hz|Hn];
      destruct (decide (S (count_occ string_dec l t) = 0)%nat) as [Hs|_];
      try lia; f_equal; lia.
  - rewrite lookup_insert_ne by exact Hne.
    destruct (decide (count_occ string_dec l t = 0)%nat); reflexivity.
Qed.

(** X16: [get_activity_type_distribution] maps every type of the list
    to the number of times it occurs, and has no entry for a type that
    does not occur; for the empty list it is the empty dict. *)
Theorem get_activity_type_distribution_counts (l : list string) (t : string) :
  DataCache.get_activity_type_distribution l !! t
  = if decide (count_occ string_dec l t = 0)%nat then None
    else Some (count_occ string_dec l t).
Proof.
  unfold DataCache.get_activity_type_distribution.
  destruct l as [|x l]; [reflexivity|].
  rewrite count_types_lookup. rewrite lookup_empty. reflexivity.
Qed.

(** * The relational stores: keys *)

Lemma keys_ok_append (ids : list Z) (next : Z) :
  keys_ok ids next -> keys_ok (ids ++ [next]) (next + 1).
Proof.
  intros [Hnd Hlt]. split.
  - apply NoDup_app. split; [exact Hnd|]. split; [|apply NoDup_singleton].
    intros i Hi Hn. apply list_elem_of_singleton in Hn. subst.
    rewrite Forall_forall in Hlt. specialize (Hlt _ Hi). lia.
  - apply Forall_app. split.
    + eapply Forall_impl; [exact Hlt|]. simpl. intros. lia.
    + constructor; [lia | constructor].
Qed.

Lemma keys_ok_filter {A : Type} (key : A -> Z) (p : A -> bool) (l : list A)
  (next : Z) :
  keys_ok (List.map key l) next -> keys_ok (List.map key (List.filter p l)) next.
Proof.
  assert (forall k, k ∈ List.map key (List.filter p l) -> k ∈ List.map key l) as Hsub.
  { intros k. rewrite !list_elem_of_In, !in_map_iff.
    intros (x & Hx & Hin). apply filter_In in Hin as [Hin _]. eauto. }
  revert Hsub. induction l as [|x l IH]; intros Hsub [Hnd Hlt]; simpl in *.
  - split; constructor.
  - apply NoDup_cons in Hnd as [Hx Hnd]. inversion Hlt as [|? ? Hxlt Hlt']; subst.
    assert (forall k, k ∈ List.map key (List.filter p l) -> k ∈ List.map key l)
      as Hsub'.
    { intros k. rewrite !list_elem_of_In, !in_map_iff.
      intros (y & Hy & Hin). apply filter_In in Hin as [Hin _]. eauto. }
    destruct (IH Hsub' (conj Hnd Hlt')) as [Hnd' Hlt''].
    destruct (p x); simpl; [|split; assumption].
    split.
    + apply NoDup_cons. split; [|exact Hnd']. intros Hin. apply Hx, Hsub'. exact Hin.
    + constructor; assumption.
Qed.

Lemma map_key_replace {A : Type} (key : A -> Z) (k : Z) (a' : A) (l : list A) :
  key a' = k ->
  List.map key (List.map (fun x => if key x =? k then a' else x) l) = List.map key l.
Proof.
  intros Hk. induction l as [|x l IH]; simpl; [reflexivity|].
  rewrite IH. f_equal. destruct (Z.eqb_spec (key x) k); congruence.
Qed.

Lemma map_key_with_token (k : Z) (t : option string) (l : list User) :
  List.map user_id (List.map (fun u => if user_id u =? k then with_token t u else u) l)
  = List.map user_id l.
Proof.
  induction l as [|x l IH]; simpl; [reflexivity|].
  rewrite IH. f_equal. destruct (user_id x =? k); reflexivity.
Qed.

Lemma tables_ok_activities (db : database) (acts : list Activity) :
  tables_ok db ->
  keys_ok (List.map activity_id acts) (next_activity_id db) ->
  tables_ok (set_activities acts db).
Proof. intros (Hu & _ & Hw) Ha. split; [exact Hu|]. split; assumption. Qed.

Lemma tables_ok_entries (db : database) (ws : list WeightEntry) :
  tables_ok db ->
  keys_ok (List.map entry_id ws) (next_entry_id db) ->
  tables_ok (set_weight_entries ws db).
Proof. intros (Hu & Ha & _) Hw. split; [exact Hu|]. split; assumption. Qed.

(** X17: the primary keys. If the ids of each table are distinct and
    below the table's counter, they still are after any of the methods
    of the two relational stores that write; the counters never go
    down, so the id of a deleted row is not given out again. *)
Theorem tables_ok_preserved (db : database) (e : db_env) (a : auth_env)
  (uid xid : Z) (name mail password : string) (data : dict) (w d : pyval)
  (generate : bool) :
  tables_ok db ->
  tables_ok (DatabaseManager.create_user name mail password e db).2 /\
  tables_ok (OptimizedDatabaseManager.create_user name mail password e db).2 /\
  tables_ok (DatabaseManager.add_friend uid name db).2 /\
  tables_ok (OptimizedDatabaseManager.add_friend uid name db).2 /\
  tables_ok (DatabaseManagerRest.set_remember_token uid generate a db).2 /\
  tables_ok (OptimizedDatabaseManagerRest.set_remember_token uid generate a db).2 /\
  tables_ok (DatabaseManagerRest.add_activity uid data e db).2 /\
  tables_ok (OptimizedDatabaseManagerRest.add_activity uid data e db).2 /\
  tables_ok (DatabaseManager.update_activity uid xid data db).2 /\
  tables_ok (DatabaseManager.delete_activity uid xid db).2 /\
  tables_ok (OptimizedDatabaseManagerRest.delete_activity uid xid db).2 /\
  tables_ok (DatabaseManagerRest.add_weight_entry uid w d e db).2 /\
  tables_ok (OptimizedDatabaseManagerRest.add_weight_entry uid w d e db).2 /\
  tables_ok (DatabaseManager.update_weight_entry xid w d db).2 /\
  tables_ok (DatabaseManager.delete_weight_entry xid db).2 /\
  tables_ok (OptimizedDatabaseManager.delete_weight_entry uid xid db).2.
Proof.
  intros Hok. pose proof Hok as (Hu & Ha & Hw).
  assert (forall user, tables_ok (set_users (users db ++ [user]) (next_user_id db + 1) db)
                       \/ user_id user <> next_user_id db) as Huser.
  { intros user. destruct (decide (user_id user = next_user_id db)) as [Heq|]; [|auto].
    left. split; [|split; assumption]. simpl. rewrite map_app. simpl.
    rewrite Heq. apply keys_ok_append. exact Hu. }
  assert (forall t k, tables_ok
            (set_users (List.map (fun u => if user_id u =? k then with_token t u else u)
                                 (users db)) (next_user_id db) db)) as Htoken.
  { intros t k. split; [|split; assumption]. simpl.
    rewrite map_key_with_token. exact Hu. }
  assert (forall act, activity_id act = next_activity_id db ->
                      tables_ok (insert_activity act db)) as Hins.
  { intros act Hid. split; [exact Hu|]. split; [|exact Hw]. simpl.
    rewrite map_app. simpl. rewrite Hid. apply keys_ok_append. exact Ha. }
  assert (forall ent, entry_id ent = next_entry_id db ->
                      tables_ok (insert_entry ent db)) as Hine.
  { intros ent Hid. split; [exact Hu|]. split; [exact Ha|]. simpl.
    rewrite map_app. simpl. rewrite Hid. apply keys_ok_append. exact Hw. }
  repeat match goal with |- tables_ok _ /\ _ => split end.
  - unfold DatabaseManager.create_user. destruct (first _ _); [exact Hok|].
    simpl. destruct (Huser (DatabaseManager.new_user e db name mail password))
      as [H|H]; [exact H | contradiction H; reflexivity].
  - unfold OptimizedDatabaseManager.create_user.
    destruct (_ <? _); [exact Hok|]. destruct (_ <? _); [exact Hok|].
    destruct (first _ _) as [existing|].
    { destruct (String.eqb _ _); exact Hok. }
    destruct (OptimizedDatabaseManager.set_password e password) as [h|x];
      [|exact Hok].
    simpl. match goal with
           | |- tables_ok (set_users (_ ++ [?u]) _ _) =>
               destruct (Huser u) as [H|H]; [exact H | contradiction H; reflexivity]
           end.
  - unfold DatabaseManager.add_friend. destruct (first _ _); [|exact Hok].
    destruct (first _ _); [|exact Hok]. destruct (is_friend _ _ _); exact Hok.
  - unfold OptimizedDatabaseManager.add_friend. destruct (first _ _); [|exact Hok].
    destruct (_ =? _); [exact Hok|]. destruct (first _ _); [|exact Hok].
    destruct (is_friend _ _ _); exact Hok.
  - unfold DatabaseManagerRest.set_remember_token.
    destruct (first _ _); [apply Htoken | exact Hok].
  - unfold OptimizedDatabaseManagerRest.set_remember_token.
    destruct (first _ _); [apply Htoken | exact Hok].
  - unfold DatabaseManagerRest.add_activity, new_activity.
    destruct (data !! "type"), (data !! "duration"), (data !! "intensity"),
      (data !! "date"); try exact Hok.
    destruct (_ && _); [apply Hins; reflexivity | exact Hok].
  - unfold OptimizedDatabaseManagerRest.add_activity, new_activity.
    destruct (negb _); [exact Hok|].
    destruct (OptimizedDatabaseManagerRest.in_bounds _ _ _) as [[|]|x];
      try exact Hok.
    destruct (data !! "type"), (data !! "duration"), (data !! "intensity"),
      (data !! "date"); try exact Hok.
    destruct (_ && _); [apply Hins; reflexivity | exact Hok].
  - unfold DatabaseManager.update_activity.
    destruct (first _ _) as [act|]; [|exact Hok].
    unfold DatabaseManager.assign_activity.
    destruct (data !! "type"), (data !! "duration"), (data !! "intensity"),
      (data !! "date"); try exact Hok.
    destruct (activity_flushes _); [|exact Hok].
    apply tables_ok_activities; [exact Hok|].
    rewrite (map_key_replace activity_id); [exact Ha | reflexivity].
  - unfold DatabaseManager.delete_activity.
    destruct (first _ _) as [act|]; [|exact Hok].
    apply tables_ok_activities; [exact Hok|]. apply keys_ok_filter. exact Ha.
  - unfold OptimizedDatabaseManagerRest.delete_activity.
    destruct (first _ _) as [act|]; [|exact Hok].
    apply tables_ok_activities; [exact Hok|]. apply keys_ok_filter. exact Ha.
  - unfold DatabaseManagerRest.add_weight_entry.
    destruct (_ && _); [apply Hine; reflexivity | exact Hok].
  - unfold OptimizedDatabaseManagerRest.add_weight_entry.
    destruct (OptimizedDatabaseManagerRest.in_bounds _ _ _) as [[|]|x];
      try exact Hok.
    destruct (_ && _); [apply Hine; reflexivity | exact Hok].
  - unfold DatabaseManager.update_weight_entry.
    destruct (first _ _) as [ent|]; [|exact Hok].
    destruct (entry_flushes _); [|exact Hok].
    apply tables_ok_entries; [exact Hok|].
    rewrite (map_key_replace entry_id); [exact Hw | reflexivity].
  - unfold DatabaseManager.delete_weight_entry.
    destruct (first _ _) as [ent|]; [|exact Hok].
    apply tables_ok_entries; [exact Hok|]. apply keys_ok_filter. exact Hw.
  - unfold OptimizedDatabaseManager.delete_weight_entry.
    destruct (first _ _) as [ent|]; [|exact Hok].
    apply tables_ok_entries; [exact Hok|]. apply keys_ok_filter. exact Hw.
Qed.

Lemma tables_ok_preserved_witness :
  tables_ok Examples.two_activities /\
  tables_ok (DatabaseManager.delete_activity 2 7 Examples.two_activities).2.
Proof.
  assert (tables_ok Examples.two_activities) as Hok.
  { repeat split; vm_compute;
      repeat (constructor; [try (intros Hin; repeat (inversion Hin as [|? ? ? Hin']; subst; clear Hin; rename Hin' into Hin)) | ]); try constructor; try reflexivity. }
  split; [exact Hok|].
  pose proof (tables_ok_preserved Examples.two_activities Examples.plain_env
                MoreExamples.toy_auth 2 7 "carol" "carol@example.org" "secret1"
                ∅ VNone VNone true Hok) as H.
  exact (proj1 (proj2 (proj2 (proj2 (proj2 (proj2 (proj2 (proj2 (proj2 (proj2 H)))))))))).
Defined.

(** * The relational stores: rows *)

Lemma key_inj_of_NoDup {A K : Type} (key : A -> K) (l : list A) (x y : A) :
  NoDup (List.map key l) -> x ∈ l -> y ∈ l -> key x = key y -> x = y.
Proof.
  induction l as [|z l IH]; simpl; intros Hnd Hx Hy Hk.
  - inversion Hx.
  - apply NoDup_cons in Hnd as [Hz Hnd].
    assert (forall w, w ∈ l -> key w ∈ List.map key l) as Hmap.
    { intros w Hw. apply list_elem_of_In, in_map, list_elem_of_In. exact Hw. }
    apply elem_of_cons in Hx as [Hx|Hx]; apply elem_of_cons in Hy as [Hy|Hy].
    + congruence.
    + subst x. exfalso. apply Hz. rewrite Hk. apply Hmap. exact Hy.
    + subst y. exfalso. apply Hz. rewrite <- Hk. apply Hmap. exact Hx.
    + apply IH; assumption.
Qed.

Lemma first_unique {A : Type} (p : A -> bool) (l : list A) (x : A) :
  x ∈ l -> p x = true -> (forall y, y ∈ l -> p y = true -> y = x) ->
  first p l = Some x.
Proof.
  intros Hin Hp Huniq. unfold first. destruct (find p l) as [y|] eqn:E.
  - apply find_some in E as [Hy Hpy]. f_equal. apply Huniq; [|exact Hpy].
    apply list_elem_of_In. exact Hy.
  - apply list_elem_of_In in Hin. pose proof (find_none _ _ E x Hin) as H.
    congruence.
Qed.

Lemma first_map {A : Type} (p : A -> bool) (f : A -> A) (l : list A) :
  (forall x, p (f x) = p x) ->
  first p (List.map f l) = option_map f (first p l).
Proof.
  intros Hp. unfold first. induction l as [|x l IH]; simpl; [reflexivity|].
  rewrite Hp. destruct (p x); [reflexivity | exact IH].
Qed.

Lemma elem_of_filter_key {A : Type} (key : A -> Z) (l : list A) (x b : A) :
  NoDup (List.map key l) -> x ∈ l ->
  b ∈ List.filter (fun y => negb (key y =? key x)) l <-> b ∈ l /\ b <> x.
Proof.
  intros Hnd Hx. rewrite !list_elem_of_In, filter_In, <- !list_elem_of_In.
  rewrite negb_true_iff, Z.eqb_neq. split.
  - intros [Hb Hk]. split; [exact Hb|]. intros ->. apply Hk. reflexivity.
  - intros [Hb Hne]. split; [exact Hb|]. intros Hk. apply Hne.
    eapply key_inj_of_NoDup; eassumption.
Qed.

(** X18: deleting an activity from the relational store. When the
    activity ids of the table are distinct and the user owns an
    activity with the id given, [delete_activity] of both classes
    returns True and commits the same database: the activity is gone,
    every other activity is still there, and the users, the weight
    entries and the friendships are as they were. A second call with
    the same arguments finds nothing, returns False and changes
    nothing. *)
Theorem db_delete_activity_removes (uid aid : Z) (db : database) (a : Activity) :
  tables_ok db ->
  a ∈ activities db -> Schema.activity_id a = aid -> activity_user_id a = uid ->
  exists db',
    DatabaseManager.delete_activity uid aid db = (true, db') /\
    OptimizedDatabaseManagerRest.delete_activity uid aid db = (true, db') /\
    (forall b, b ∈ activities db' <-> b ∈ activities db /\ b <> a) /\
    users db' = users db /\ weight_entries db' = weight_entries db /\
    friendships db' = friendships db /\
    DatabaseManager.delete_activity uid aid db' = (false, db') /\
    OptimizedDatabaseManagerRest.delete_activity uid aid db' = (false, db').
Proof.
  intros (_ & [Hnd _] & _) Hin Hid Huid.
  assert (first (fun x => (Schema.activity_id x =? aid) && (activity_user_id x =? uid))
                (activities db) = Some a) as Hfirst.
  { apply first_unique; [exact Hin | |].
    - rewrite Hid, Huid, !Z.eqb_refl. reflexivity.
    - intros y Hy Hp. apply andb_true_iff in Hp as [Hp _]. apply Z.eqb_eq in Hp.
      eapply key_inj_of_NoDup; [exact Hnd | exact Hy | exact Hin | congruence]. }
  set (db' := set_activities
                (List.filter (fun x => negb (Schema.activity_id x =? Schema.activity_id a))
                             (activities db)) db).
  assert (forall b, b ∈ activities db' <-> b ∈ activities db /\ b <> a) as Hrows.
  { intros b. apply (elem_of_filter_key Schema.activity_id); assumption. }
  assert (first (fun x => (Schema.activity_id x =? aid) && (activity_user_id x =? uid))
                (activities db') = None) as Hgone.
  { apply first_none. intros x Hx. apply Hrows in Hx as [Hx Hne].
    destruct (Z.eqb_spec (Schema.activity_id x) aid) as [Heq|]; [|reflexivity].
    exfalso. apply Hne.
    eapply key_inj_of_NoDup; [exact Hnd | exact Hx | exact Hin | congruence]. }
  exists db'.
  unfold DatabaseManager.delete_activity, OptimizedDatabaseManagerRest.delete_activity.
  rewrite Hfirst, Hgone. repeat split; try reflexivity; apply Hrows; assumption.
Qed.

(** Witness of [db_delete_activity_removes]: Bob deletes his run. *)
Lemma db_delete_activity_removes_witness :
  DatabaseManager.delete_activity 2 7 Examples.two_activities
  = (true, set_activities [Examples.alices_swim] Examples.two_activities) /\
  exists db',
    DatabaseManager.delete_activity 2 7 Examples.two_activities = (true, db') /\
    DatabaseManager.delete_activity 2 7 db' = (false, db').
Proof.
  split; [vm_compute; reflexivity|].
  destruct (db_delete_activity_removes 2 7 Examples.two_activities Examples.bobs_run)
    as (db' & H1 & _ & _ & _ & _ & _ & H2 & _).
  - repeat split; vm_compute;
      repeat (constructor; [try (intros Hin; repeat (inversion Hin as [|? ? ? Hin']; subst; clear Hin; rename Hin' into Hin)) | ]); try constructor; try reflexivity.
  - apply list_elem_of_here.
  - reflexivity.
  - reflexivity.
  - exists db'. split; assumption.
Defined.

(** * The relational stores: accounts *)

Lemma with_token_users (tok : option string) (k : Z) (l : list User) :
  List.map username
    (List.map (fun u => if user_id u =? k then with_token tok u else u) l)
  = List.map username l.
Proof.
  induction l as [|x l IH]; simpl; [reflexivity|].
  rewrite IH. f_equal. destruct (user_id x =? k); reflexivity.
Qed.

(** One call of [set_remember_token] on a user that exists: what it
    returns, and who the token then lets in. *)
Lemma set_remember_token_one (uid : Z) (generate : bool) (a : auth_env)
  (db : database) (user : User) :
  usernames_unique db ->
  first (fun u => user_id u =? uid) (users db) = Some user ->
  let tok := if generate then Some (token_urlsafe a) else None in
  let r := DatabaseManagerRest.set_remember_token uid generate a db in
  OptimizedDatabaseManagerRest.set_remember_token uid generate a db = r /\
  r.1 = tok /\
  usernames_unique r.2 /\
  first (fun u => user_id u =? uid) (users r.2) = Some (with_token tok user) /\
  forall t, authenticate_by_token (username user) t r.2
            = if decide (tok = Some t) then Some (with_token tok user) else None.
Proof.
  intros Huniq Hfirst tok r. subst r.
  unfold DatabaseManagerRest.set_remember_token,
    OptimizedDatabaseManagerRest.set_remember_token.
  rewrite Hfirst. fold tok. simpl.
  pose proof (first_some _ _ _ Hfirst) as [Hin Hid]. apply Z.eqb_eq in Hid.
  split; [reflexivity|]. split; [reflexivity|].
  split; [unfold usernames_unique; simpl; rewrite with_token_users; exact Huniq|].
  split.
  { rewrite first_map.
    - rewrite Hfirst. simpl. rewrite Z.eqb_refl. reflexivity.
    - intros x. destruct (user_id x =? user_id user); reflexivity. }
  intros t. unfold authenticate_by_token.
  set (f := fun u => if user_id u =? user_id user then with_token tok u else u).
  assert (forall y, y ∈ List.map f (users db) -> username y = username user ->
                    y = with_token tok user) as Hsame.
  { intros y Hy Hname. apply list_elem_of_In, in_map_iff in Hy as (u & <- & Hu).
    apply list_elem_of_In in Hu.
    assert (username (f u) = username u) as Hfu.
    { unfold f. destruct (user_id u =? user_id user); reflexivity. }
    assert (u = user) as ->.
    { eapply key_inj_of_NoDup; [exact Huniq | exact Hu | exact Hin | congruence]. }
    unfold f. rewrite Z.eqb_refl. reflexivity. }
  destruct (decide (tok = Some t)) as [Heq|Hne].
  - apply first_unique.
    + apply list_elem_of_In, in_map_iff. exists user.
      split; [unfold f; rewrite Z.eqb_refl; reflexivity|].
      apply list_elem_of_In. exact Hin.
    + simpl. rewrite String.eqb_refl. simpl. apply bool_decide_eq_true_2. exact Heq.
    + intros y Hy Hp. apply andb_true_iff in Hp as [Hp _].
      apply String.eqb_eq in Hp. apply Hsame; assumption.
  - apply first_none. intros y Hy.
    destruct (String.eqb_spec (username y) (username user)) as [Hname|]; [|reflexivity].
    rewrite (Hsame y Hy Hname). simpl. apply bool_decide_eq_false_2. exact Hne.
Qed.

(** X19: the remember-me token. For a user that exists, in a table
    whose usernames are distinct, [set_remember_token] of both classes
    stores the token drawn and returns it; [authenticate_by_token] then
    returns that user for the user's name and this token, and nobody
    for the name and any other token. After [set_remember_token] with
    [generate_token=False] the call returns None, and no token at all
    lets the name in, the earlier one included. *)
Theorem remember_token_round_trip (uid : Z) (a a2 : auth_env) (db : database)
  (user : User) :
  usernames_unique db ->
  first (fun u => user_id u =? uid) (users db) = Some user ->
  let token := token_urlsafe a in
  let r := DatabaseManagerRest.set_remember_token uid true a db in
  let c := DatabaseManagerRest.set_remember_token uid false a2 r.2 in
  OptimizedDatabaseManagerRest.set_remember_token uid true a db = r /\
  r.1 = Some token /\
  authenticate_by_token (username user) token r.2
  = Some (with_token (Some token) user) /\
  (forall t, t <> token -> authenticate_by_token (username user) t r.2 = None) /\
  OptimizedDatabaseManagerRest.set_remember_token uid false a2 r.2 = c /\
  c.1 = None /\
  (forall t, authenticate_by_token (username user) t c.2 = None).
Proof.
  intros Huniq Hfirst token r c.
  destruct (set_remember_token_one uid true a db user Huniq Hfirst)
    as (Hsame & Hret & Huniq' & Hfirst' & Hauth).
  fold r in Hsame, Hret, Huniq', Hfirst', Hauth. simpl in Hret, Hfirst', Hauth.
  fold token in Hret, Hfirst', Hauth.
  destruct (set_remember_token_one uid false a2 r.2 _ Huniq' Hfirst')
    as (Hsame2 & Hret2 & _ & _ & Hauth2).
  fold c in Hsame2, Hret2, Hauth2. simpl in Hret2, Hauth2.
  split; [exact Hsame|]. split; [exact Hret|].
  split.
  { rewrite Hauth. destruct (decide (Some token = Some token)); congruence. }
  split.
  { intros t Ht. rewrite Hauth.
    destruct (decide (Some token = Some t)); congruence. }
  split; [exact Hsame2|]. split; [exact Hret2|].
  intros t. rewrite Hauth2. destruct (decide (None = Some t)); congruence.
Qed.

(** Witness of [remember_token_round_trip]: Bob's token. *)
Lemma remember_token_round_trip_witness :
  (DatabaseManagerRest.set_remember_token 2 true MoreExamples.toy_auth
     Examples.two_users).1 = Some "tok-1" /\
  authenticate_by_token "bob" "tok-1"
    (DatabaseManagerRest.set_remember_token 2 true MoreExamples.toy_auth
       Examples.two_users).2
  = Some (with_token (Some "tok-1") Examples.bob).
Proof.
  destruct (remember_token_round_trip 2 MoreExamples.toy_auth MoreExamples.toy_auth
              Examples.two_users Examples.bob) as (_ & H1 & H2 & _).
  - unfold usernames_unique. vm_compute.
    repeat (constructor; [try (intros Hin; repeat (inversion Hin as [|? ? ? Hin']; subst; clear Hin; rename Hin' into Hin)) | ]); constructor.
  - vm_compute. reflexivity.
  - split; [exact H1 | exact H2].
Defined.

Lemma first_app_fresh {A : Type} (p : A -> bool) (table : list A) (x : A) :
  (forall y, y ∈ table -> p y = false) ->
  first p (table ++ [x]) = if p x then Some x else None.
Proof.
  intros Hnone. unfold first. induction table as [|y table IH]; simpl.
  - destruct (p x); reflexivity.
  - rewrite (Hnone y (list_elem_of_here _ _)). apply IH.
    intros z Hz. apply Hnone, list_elem_of_further. exact Hz.
Qed.

(** X20: signing in after signing up. When [create_user] of either
    class has stored a user, [authenticate_user] of both classes, given
    the name, returns that user exactly when bcrypt accepts the
    password offered against the hash of the password the account was
    created with, and None otherwise. *)
Theorem authenticate_after_create_user (name mail password offered : string)
  (e : db_env) (a : auth_env) (db db' : database) (user : User) (msg : string) :
  DatabaseManager.create_user name mail password e db = ((Some user, msg), db') \/
  OptimizedDatabaseManager.create_user name mail password e db
  = ((Some user, msg), db') ->
  let accepted := checkpw a offered (hashpw e password (gensalt e)) in
  DatabaseManagerRest.authenticate_user name offered a db'
  = (if accepted then Some user else None) /\
  OptimizedDatabaseManagerRest.authenticate_user name offered a db'
  = (if accepted then Some user else None).
Proof.
  intros Hcreate accepted.
  assert (db' = set_users (users db ++ [user]) (next_user_id db + 1) db /\
          username user = name /\
          password_hash user = hashpw e password (gensalt e) /\
          forall u, u ∈ users db -> String.eqb (username u) name = false)
    as (-> & Hname & Hhash & Hfree).
  { assert (first (fun u => String.eqb (username u) name || String.eqb (email u) mail)
                  (users db) = None ->
            forall u, u ∈ users db -> String.eqb (username u) name = false) as Hnone.
    { intros Hnone u Hu. apply list_elem_of_In in Hu.
      pose proof (find_none _ _ Hnone u Hu) as H. simpl in H.
      apply orb_false_iff in H as [H _]. exact H. }
    destruct Hcreate as [H|H].
    - unfold DatabaseManager.create_user in H.
      destruct (first _ (users db)) eqn:E; [discriminate|].
      inversion H; subst. repeat split. apply Hnone. reflexivity.
    - unfold OptimizedDatabaseManager.create_user in H.
      destruct (_ <? _); [discriminate|]. destruct (_ <? _); [discriminate|].
      destruct (first _ (users db)) eqn:E.
      { destruct (String.eqb _ _); discriminate. }
      unfold OptimizedDatabaseManager.set_password in H.
      destruct (_ <? _); [discriminate|].
      inversion H; subst. repeat split. apply Hnone. reflexivity. }
  unfold DatabaseManagerRest.authenticate_user,
    OptimizedDatabaseManagerRest.authenticate_user,
    OptimizedDatabaseManagerRest.check_password.
  simpl. rewrite (first_app_fresh _ _ _ Hfree).
  rewrite Hname, String.eqb_refl, Hhash. split; reflexivity.
Qed.

(** Witness of [authenticate_after_create_user]: Carol signs up and
    signs in. *)
Lemma authenticate_after_create_user_witness :
  let carol := mkUser 3 "carol" "carol@x.com" "$2b$saltsecret1" 7 None "en" false None in
  let db' := set_users [Examples.alice; Examples.bob; carol] 4 Examples.two_users in
  DatabaseManager.create_user "carol" "carol@x.com" "secret1" Examples.plain_env
    Examples.two_users = ((Some carol, "User created successfully"), db') /\
  DatabaseManagerRest.authenticate_user "carol" "secret1" MoreExamples.toy_auth db'
  = Some carol /\
  DatabaseManagerRest.authenticate_user "carol" "secret2" MoreExamples.toy_auth db'
  = None.
Proof.
  intros carol db'.
  assert (DatabaseManager.create_user "carol" "carol@x.com" "secret1"
            Examples.plain_env Examples.two_users
          = ((Some carol, "User created successfully"), db')) as Hcreate
    by (vm_compute; reflexivity).
  split; [exact Hcreate|]. split.
  - apply (authenticate_after_create_user "carol" "carol@x.com" "secret1" "secret1"
             Examples.plain_env MoreExamples.toy_auth Examples.two_users db' carol
             "User created successfully" (or_introl Hcreate)).
  - apply (authenticate_after_create_user "carol" "carol@x.com" "secret1" "secret2"
             Examples.plain_env MoreExamples.toy_auth Examples.two_users db' carol
             "User created successfully" (or_introl Hcreate)).
Defined.

(** * The relational stores: weight entries and friends *)

Global Instance entry_older_total : Total entry_older.
Proof.
  intros a b. unfold entry_older.
  destruct (datetime_of (entry_date a)), (datetime_of (entry_date b)); auto. lia.
Qed.

Global Instance entry_older_trans : Transitive entry_older.
Proof.
  intros a b c. unfold entry_older.
  destruct (datetime_of (entry_date a)), (datetime_of (entry_date b)),
    (datetime_of (entry_date c)); auto; try contradiction. lia.
Qed.

(** X21: the weight entries of a user. [get_user_weight_data] returns
    the entries of the table that belong to the user, each one once,
    oldest first, and no entry of anybody else. The optimized
    [get_user_weight_entries] returns the same list when its limit is
    None or 0, and the first [n] entries of it for a limit [n] above
    0. *)
Theorem get_user_weight_data_sorted (uid : Z) (n : nat) (db : database) :
  let result := DatabaseManagerRest.get_user_weight_data uid db in
  result ≡ₚ List.filter (fun w => entry_user_id w =? uid) (weight_entries db) /\
  (forall w, w ∈ result <-> w ∈ weight_entries db /\ entry_user_id w = uid) /\
  StronglySorted entry_older result /\
  OptimizedDatabaseManagerRest.get_user_weight_entries uid None db = result /\
  OptimizedDatabaseManagerRest.get_user_weight_entries uid (Some 0%nat) db = result /\
  OptimizedDatabaseManagerRest.get_user_weight_entries uid (Some (S n)) db
  = take (S n) result.
Proof.
  intros result. subst result. unfold DatabaseManagerRest.get_user_weight_data.
  assert (merge_sort entry_older
            (List.filter (fun w => entry_user_id w =? uid) (weight_entries db))
          ≡ₚ List.filter (fun w => entry_user_id w =? uid) (weight_entries db))
    as Hperm by apply merge_sort_Permutation.
  split; [exact Hperm|]. split.
  { intros w. rewrite Hperm, !list_elem_of_In, filter_In, Z.eqb_eq. reflexivity. }
  split; [apply StronglySorted_merge_sort; apply _|].
  repeat split.
Qed.

Lemma filter_no_ids (l : list Activity) :
  List.filter (fun a => bool_decide (activity_user_id a ∈ @nil Z)) l = [].
Proof.
  induction l as [|x l IH]; [reflexivity|]. cbn [List.filter].
  rewrite bool_decide_eq_false_2; [exact IH | apply not_elem_of_nil].
Qed.

(** X22: the feed of friends' activities. [get_friends_recent_activities]
    returns at most [limit] activities, newest first; each one is a row
    of the table whose owner is a friend of the user. A user id that is
    unknown, or a user without friends, gets the empty list; and when
    the friends have no more than [limit] activities, all of them are
    returned. *)
Theorem get_friends_recent_activities_of_friends (uid : Z) (lim : nat)
  (db : database) :
  let result := OptimizedDatabaseManagerRest.get_friends_recent_activities uid lim db in
  let friends_of := OptimizedDatabaseManager.get_user_friends uid db in
  let theirs := List.filter (fun a => bool_decide (activity_user_id a ∈ List.map user_id friends_of))
                            (activities db) in
  (length result <= lim)%nat /\
  StronglySorted activity_newer result /\
  (forall act, act ∈ result ->
     act ∈ activities db /\
     exists friend, friend ∈ friends_of /\ activity_user_id act = user_id friend) /\
  (friends_of = [] -> result = []) /\
  ((length theirs <= lim)%nat -> result ≡ₚ theirs).
Proof.
  intros result friends_of theirs. subst result friends_of theirs.
  unfold OptimizedDatabaseManagerRest.get_friends_recent_activities,
    OptimizedDatabaseManager.get_user_friends.
  destruct (first _ (users db)) as [user|].
  2:{ simpl. rewrite filter_no_ids. split; [lia|]. split; [constructor|].
      split; [intros act Hact; inversion Hact|].
      split; intros _; reflexivity. }
  destruct (friends db user) as [|f fs] eqn:Efr.
  { simpl. rewrite filter_no_ids. split; [lia|]. split; [constructor|].
    split; [intros act Hact; inversion Hact|].
    split; intros _; reflexivity. }
  set (ids := List.map user_id (f :: fs)).
  set (theirs := List.filter (fun a => bool_decide (activity_user_id a ∈ ids))
                             (activities db)).
  destruct (limit_of_sorted lim theirs) as (Hlen & Hperm & Hsorted & _).
  split; [rewrite Hlen; lia|]. split; [exact Hsorted|].
  assert (forall act, act ∈ limit lim (order_by_date_desc theirs) -> act ∈ theirs)
    as Hsub.
  { intros act Hact. rewrite <- Hperm. apply elem_of_app. left. exact Hact. }
  split.
  { intros act Hact. apply Hsub in Hact.
    apply list_elem_of_In, filter_In in Hact as [Hin Hid].
    split; [apply list_elem_of_In; exact Hin|].
    apply bool_decide_eq_true in Hid.
    apply list_elem_of_In, in_map_iff in Hid as (friend & Hfid & Hfin).
    exists friend. split; [apply list_elem_of_In; exact Hfin | congruence]. }
  split; [discriminate|].
  intros Hle. unfold limit, order_by_date_desc.
  rewrite take_ge; [apply merge_sort_Permutation|].
  rewrite merge_sort_Permutation. exact Hle.
Qed.

(** Witness of [get_friends_recent_activities_of_friends]: Alice, who
    has added Bob, sees Bob's run. *)
Lemma get_friends_recent_activities_of_friends_witness :
  OptimizedDatabaseManagerRest.get_friends_recent_activities 1 10
    (set_friendships {[ (1, 2) ]} Examples.two_activities) = [Examples.bobs_run] /\
  (length (OptimizedDatabaseManagerRest.get_friends_recent_activities 1%Z 10
             (set_friendships {[ (1%Z, 2%Z) ]} Examples.two_activities)) <= 10)%nat.
Proof.
  split; [vm_compute; reflexivity|].
  apply (get_friends_recent_activities_of_friends 1 10
           (set_friendships {[ (1, 2) ]} Examples.two_activities)).
Defined.

(** X23: what the optimized [add_friend] keeps. If nobody is their own
    friend and every friendship goes both ways, the same holds after
    [add_friend], whatever it answers; the users, the activities and
    the weight entries are as they were. *)
Theorem optimized_add_friend_keeps_friendships_ok (uid : Z) (name : string)
  (db : database) :
  friendships_ok db ->
  let db' := (OptimizedDatabaseManager.add_friend uid name db).2 in
  friendships_ok db' /\
  friendships db ⊆ friendships db' /\
  users db' = users db /\ activities db' = activities db /\
  weight_entries db' = weight_entries db.
Proof.
  intros [Hirr Hsym] db'. subst db'. unfold OptimizedDatabaseManager.add_friend.
  assert (friendships_ok db /\ friendships db ⊆ friendships db /\
          users db = users db /\ activities db = activities db /\
          weight_entries db = weight_entries db) as Hsame.
  { split; [split; assumption|]. split; [reflexivity|]. repeat split. }
  destruct (first _ (users db)) as [friend|]; [|exact Hsame].
  destruct (Z.eqb_spec (user_id friend) uid) as [|Hne]; [exact Hsame|].
  destruct (first _ (users db)) as [user|] eqn:Euser; [|exact Hsame].
  destruct (is_friend db user friend); [exact Hsame|]. clear Hsame.
  apply first_some in Euser as [_ Huid]. apply Z.eqb_eq in Huid.
  simpl. split; [|split; [set_solver | repeat split]].
  split.
  - intros x Hx. apply elem_of_union in Hx as [Hx|Hx].
    { apply elem_of_singleton in Hx. inversion Hx. congruence. }
    apply elem_of_union in Hx as [Hx|Hx].
    { apply elem_of_singleton in Hx. inversion Hx. congruence. }
    exact (Hirr x Hx).
  - intros x y Hxy. apply elem_of_union in Hxy as [Hxy|Hxy].
    { apply elem_of_singleton in Hxy. inversion Hxy; subst.
      apply elem_of_union_r, elem_of_union_l, elem_of_singleton. reflexivity. }
    apply elem_of_union in Hxy as [Hxy|Hxy].
    { apply elem_of_singleton in Hxy. inversion Hxy; subst.
      apply elem_of_union_l, elem_of_singleton. reflexivity. }
    apply elem_of_union_r, elem_of_union_r, Hsym. exact Hxy.
Qed.

(** Witness of [optimized_add_friend_keeps_friendships_ok]: Alice adds
    Bob. *)
Lemma optimized_add_friend_keeps_friendships_ok_witness :
  friendships_ok Examples.two_users /\
  friendships_ok
    (OptimizedDatabaseManager.add_friend 1 "bob" Examples.two_users).2.
Proof.
  assert (friendships_ok Examples.two_users) as Hok.
  { split.
    - intros x Hx. simpl in Hx. apply elem_of_empty in Hx. exact Hx.
    - intros x y Hxy. simpl in Hxy. apply elem_of_empty in Hxy. contradiction. }
  split; [exact Hok|].
  apply (optimized_add_friend_keeps_friendships_ok 1 "bob" Examples.two_users Hok).
Defined.

(** * The relational stores: adding rows *)

Lemma new_activity_row (uid : Z) (data : dict) (e : db_env) (db : database)
  (act : Activity) :
  new_activity uid data e db = Return act ->
  Schema.activity_id act = next_activity_id db /\
  activity_user_id act = uid /\
  data !! "type" = Some (activity_type act) /\
  data !! "duration" = Some (duration act) /\
  data !! "intensity" = Some (intensity act) /\
  data !! "date" = Some (date act) /\
  description act = default (VStr "") (data !! "description") /\
  adaptation act = default (VStr "") (data !! "adaptation").
Proof.
  unfold new_activity.
  destruct (data !! "type"), (data !! "duration"), (data !! "intensity"),
    (data !! "date"); try discriminate.
  intros H. inversion H; subst. simpl. repeat split.
Qed.

(** X24: adding an activity to the relational store and reading it
    back. When [add_activity] of either class has succeeded for a user
    with fewer than 1000 activities, the table has one more row, under
    the next id: it belongs to the user, its type, duration, intensity
    and date are those of the input, description and adaptation are
    those of the input or the empty text, and
    [get_user_activities(user_id, "All time")] returns it. *)
Theorem db_add_activity_then_get (uid : Z) (data : dict) (e e2 : db_env)
  (db db' : database) :
  DatabaseManagerRest.add_activity uid data e db = (true, db') \/
  OptimizedDatabaseManagerRest.add_activity uid data e db = (Return true, db') ->
  (length (of_user uid db) < 1000)%nat ->
  exists act,
    db' = insert_activity act db /\
    Schema.activity_id act = next_activity_id db /\
    activity_user_id act = uid /\
    data !! "type" = Some (activity_type act) /\
    data !! "duration" = Some (duration act) /\
    data !! "intensity" = Some (intensity act) /\
    data !! "date" = Some (date act) /\
    description act = default (VStr "") (data !! "description") /\
    adaptation act = default (VStr "") (data !! "adaptation") /\
    of_user uid db' = of_user uid db ++ [act] /\
    act ∈ DatabaseManager.get_user_activities uid "All time" e2 db'.
Proof.
  intros Hadd Hlen.
  assert (exists act, new_activity uid data e db = Return act /\
                      db' = insert_activity act db) as (act & Hnew & ->).
  { destruct Hadd as [H|H].
    - unfold DatabaseManagerRest.add_activity in H.
      destruct (new_activity uid data e db) as [act|x]; [|discriminate].
      destruct (_ && _); inversion H. eauto.
    - unfold OptimizedDatabaseManagerRest.add_activity in H.
      destruct (negb _); [discriminate|].
      destruct (OptimizedDatabaseManagerRest.in_bounds _ _ _) as [[|]|x];
        try discriminate.
      destruct (new_activity uid data e db) as [act|x]; [|discriminate].
      destruct (_ && _); inversion H. eauto. }
  destruct (new_activity_row _ _ _ _ _ Hnew)
    as (Hid & Huid & Hty & Hdu & Hin & Hda & Hde & Had).
  assert (of_user uid (insert_activity act db) = of_user uid db ++ [act]) as Hof.
  { unfold of_user. simpl. rewrite List.filter_app. simpl.
    rewrite Huid, Z.eqb_refl. reflexivity. }
  exists act. repeat (split; [assumption || reflexivity|]).
  unfold DatabaseManager.get_user_activities.
  change (negb (String.eqb "All time" "All time")) with false. cbv beta iota zeta.
  change (List.filter (fun a => activity_user_id a =? uid)
                      (activities (insert_activity act db)))
    with (of_user uid (insert_activity act db)).
  rewrite Hof. unfold limit, order_by_date_desc.
  rewrite take_ge.
  - rewrite merge_sort_Permutation. apply elem_of_app. right. apply list_elem_of_here.
  - rewrite merge_sort_Permutation, length_app. simpl. lia.
Qed.

(** Witness of [db_add_activity_then_get]: Bob adds a morning run. *)
Lemma db_add_activity_then_get_witness :
  exists act,
    DatabaseManagerRest.add_activity 2 Examples.morning_run Examples.plain_env
      Examples.two_activities = (true, insert_activity act Examples.two_activities) /\
    Schema.activity_id act = 9 /\
    act ∈ DatabaseManager.get_user_activities 2 "All time" Examples.plain_env
            (insert_activity act Examples.two_activities).
Proof.
  destruct (db_add_activity_then_get 2 Examples.morning_run Examples.plain_env
              Examples.plain_env Examples.two_activities
              (DatabaseManagerRest.add_activity 2 Examples.morning_run
                 Examples.plain_env Examples.two_activities).2)
    as (act & Hdb & Hid & _ & _ & _ & _ & _ & _ & _ & _ & Hget).
  - left. vm_compute. reflexivity.
  - vm_compute. lia.
  - exists act. rewrite <- Hdb. split; [vm_compute; reflexivity|].
    split; [exact Hid | exact Hget].
Defined.

(** X25: what the optimized relational store refuses. [add_activity]
    returns False when one of the four required fields is missing and
    when the duration is a number outside 1 to 1440; a duration that is
    no number makes the comparison raise TypeError, which the method
    does not catch. [add_weight_entry] does the same with the weight
    and the bounds 20 and 500. When either returns True, the value was
    a number within its bounds and the row passed the constraints of
    the table. A call that does not return True leaves the database as
    it was. *)
Theorem optimized_db_add_validates (uid : Z) (data : dict) (w d : pyval)
  (e : db_env) (db : database) :
  let r := OptimizedDatabaseManagerRest.add_activity uid data e db in
  let rw := OptimizedDatabaseManagerRest.add_weight_entry uid w d e db in
  (~ has_required data -> r = (Return false, db)) /\
  (forall v, has_required data -> data !! "duration" = Some v ->
     (is_int_or_float v = false -> r = (Raise TypeError, db)) /\
     (is_int_or_float v = true -> ~ within 1 1440 v -> r = (Return false, db))) /\
  (r.1 = Return true ->
   required_not_none data /\ duration_in_bounds data /\ user_exists uid db = true) /\
  (r.1 <> Return true -> r.2 = db) /\
  (is_int_or_float w = false -> rw = (Raise TypeError, db)) /\
  (is_int_or_float w = true -> ~ within 20 500 w -> rw = (Return false, db)) /\
  (rw.1 = Return true ->
   within 20 500 w /\ d <> VNone /\ user_exists uid db = true) /\
  (rw.1 <> Return true -> rw.2 = db).
Proof.
  intros r rw. subst r rw.
  assert (forall v, not_null v = true <-> v <> VNone) as Hnn.
  { intros v. destruct v; simpl; split; congruence. }
  assert (forall lo hi v,
            OptimizedDatabaseManagerRest.in_bounds lo hi v = Return true
            <-> within lo hi v) as Hbounds.
  { intros lo hi v. unfold OptimizedDatabaseManagerRest.in_bounds.
    destruct (is_int_or_float v) eqn:Enum.
    - rewrite <- (between_within lo hi v Enum). split; congruence.
    - split; [discriminate|]. intros Hw. apply within_is_number in Hw. congruence. }
  assert (forallb (fun field => bool_decide (is_Some (data !! field)))
                  ["type"; "duration"; "intensity"; "date"] = true
          <-> has_required data) as Hreq.
  { unfold has_required. simpl. rewrite !andb_true_iff, !bool_decide_eq_true.
    tauto. }
  assert (forall lo hi v, is_int_or_float v = true -> ~ within lo hi v ->
            between lo hi v = false) as Hout.
  { intros lo hi v Hnum Hno. destruct (between lo hi v) eqn:E; [|reflexivity].
    exfalso. apply Hno, between_within; assumption. }
  split; [|split; [|split; [|split; [|split; [|split; [|split]]]]]].
  - intros Hno. unfold OptimizedDatabaseManagerRest.add_activity.
    destruct (forallb _ _) eqn:E; [|reflexivity].
    exfalso. apply Hno, Hreq. reflexivity.
  - intros v Hhas Hdu. unfold OptimizedDatabaseManagerRest.add_activity.
    apply Hreq in Hhas. rewrite Hhas, Hdu. simpl.
    unfold OptimizedDatabaseManagerRest.in_bounds,
      Constants.min_duration, Constants.max_duration.
    split.
    + intros ->. reflexivity.
    + intros Hnum Hno. rewrite Hnum, (Hout _ _ _ Hnum Hno). reflexivity.
  - unfold OptimizedDatabaseManagerRest.add_activity, new_activity.
    destruct (negb _) eqn:Ereq; [discriminate|].
    destruct (OptimizedDatabaseManagerRest.in_bounds _ _ _) as [[|]|x] eqn:Eb;
      try discriminate.
    apply Hbounds in Eb.
    destruct (data !! "type") as [ty|] eqn:Ety; [|discriminate].
    destruct (data !! "duration") as [du|] eqn:Edu; [|discriminate].
    destruct (data !! "intensity") as [it|] eqn:Eit; [|discriminate].
    destruct (data !! "date") as [da|] eqn:Eda; [|discriminate].
    destruct (_ && _) eqn:Eflush; [|discriminate]. intros _.
    apply andb_true_iff in Eflush as [Hfl Hex].
    unfold activity_flushes in Hfl. simpl in Hfl.
    apply andb_true_iff in Hfl as [Hfl H4]. apply andb_true_iff in Hfl as [Hfl H3].
    apply andb_true_iff in Hfl as [H1 H2].
    apply Hnn in H1, H2, H3, H4.
    split; [|split; [exists du; split; [exact Edu | exact Eb] | exact Hex]].
    intros k Hk.
    repeat (apply elem_of_cons in Hk as [->|Hk]; [eauto|]). inversion Hk.
  - unfold OptimizedDatabaseManagerRest.add_activity.
    destruct (negb _); [reflexivity|].
    destruct (OptimizedDatabaseManagerRest.in_bounds _ _ _) as [[|]|x];
      try reflexivity.
    destruct (new_activity uid data e db) as [act|x]; [|reflexivity].
    destruct (_ && _); [|reflexivity]. intros H. contradiction H. reflexivity.
  - unfold OptimizedDatabaseManagerRest.add_weight_entry,
      OptimizedDatabaseManagerRest.in_bounds.
    intros ->. reflexivity.
  - unfold OptimizedDatabaseManagerRest.add_weight_entry,
      OptimizedDatabaseManagerRest.in_bounds,
      OptimizedDataManagerWeight.min_weight, OptimizedDataManagerWeight.max_weight.
    intros Hnum Hno. rewrite Hnum, (Hout _ _ _ Hnum Hno). reflexivity.
  - unfold OptimizedDatabaseManagerRest.add_weight_entry.
    unfold OptimizedDataManagerWeight.min_weight, OptimizedDataManagerWeight.max_weight.
    destruct (OptimizedDatabaseManagerRest.in_bounds 20 500 w) as [[|]|x] eqn:Eb;
      try discriminate.
    apply Hbounds in Eb. unfold entry_flushes. simpl.
    destruct (not_null w); [|discriminate]. simpl.
    destruct (not_null d) eqn:Hd; [|discriminate]. simpl.
    destruct (user_exists uid db); [|discriminate]. intros _.
    split; [exact Eb|]. split; [apply Hnn; exact Hd | reflexivity].
  - unfold OptimizedDatabaseManagerRest.add_weight_entry.
    destruct (OptimizedDatabaseManagerRest.in_bounds _ _ _) as [[|]|x];
      try reflexivity.
    destruct (_ && _); [|reflexivity]. intros H. contradiction H. reflexivity.
Qed.

(** Witness of [optimized_db_add_validates]: a run of 2000 minutes and
    a weight of 10 kg are refused. *)
Lemma optimized_db_add_validates_witness :
  OptimizedDatabaseManagerRest.add_activity 2 Examples.long_run Examples.plain_env
    Examples.two_activities = (Return false, Examples.two_activities) /\
  OptimizedDatabaseManagerRest.add_weight_entry 2 (VInt 10) (VDatetime 5)
    Examples.plain_env Examples.two_activities
  = (Return false, Examples.two_activities).
Proof.
  destruct (optimized_db_add_validates 2 Examples.long_run (VInt 10) (VDatetime 5)
              Examples.plain_env Examples.two_activities)
    as (_ & Hdur & _ & _ & _ & Hw & _).
  split.
  - destruct (Hdur (VInt 2000)) as [_ H].
    + unfold has_required. vm_compute. repeat split; eexists; reflexivity.
    + vm_compute. reflexivity.
    + apply H; [reflexivity|]. intros (q & Hq & _ & Hle). inversion Hq; subst.
      rewrite <- Zle_Qle in Hle. lia.
  - apply Hw; [reflexivity|]. intros (q & Hq & Hle & _). inversion Hq; subst.
    rewrite <- Zle_Qle in Hle. lia.
Defined.
